(** * Entity-Resolution-Frontend: the AML UI service core

    A shallow embedding of [src/aml_ui/services.py] (with the parsing helper
    of [src/aml_ui/data_access.py]) and the properties of its risk scorer,
    enrichment, aggregation, filtering, network builder, snapshot correlator
    and report ledger.

    Conventions of the embedding.
    - Raw artifacts are dynamically typed JSON values ([json]); every
      attribute access, call and comparison that Python resolves at run time
      is a function into [result], whose [Raise] carries the exception.
    - A Python [float] is [pyfloat]: NaN, the two infinities, or a finite
      value carried as an exact rational.  Overflow to infinity is modelled
      (at the binary64 round-to-nearest threshold); rounding error of finite
      results is not.
    - [datetime] values are timezone-aware instants (microseconds, UTC).
    - Library functions whose code is not part of the repository
      ([math.log1p], [float] on a [str], [datetime.fromisoformat]) are the
      variables of section [Services]. *)

From Stdlib Require Import ZArith QArith Qabs Qround String Ascii List Bool Lia.
From Stdlib Require Import Sorted Permutation.
Import ListNotations.
Open Scope Z_scope.

Set Implicit Arguments.
Set Warnings "-register-all".

(* ================================================================== *)
(** ** Exceptions and results *)

Inductive exn : Type :=
| TypeError
| AttributeError
| KeyError
| OverflowError
| ZeroDivisionError
| ValueError (msg : string).

Inductive result (A : Type) : Type :=
| Ok (a : A)
| Raise (e : exn).

Arguments Ok {A} a.
Arguments Raise {A} e.

Definition bind {A B : Type} (m : result A) (k : A -> result B) : result B :=
  match m with
  | Ok a => k a
  | Raise e => Raise e
  end.

Declare Scope result_scope.
Delimit Scope result_scope with result.
Notation "x <- m ;; k" := (bind m (fun x => k))
  (at level 61, m at next level, right associativity) : result_scope.
Notation "' p <- m ;; k" := (bind m (fun x => let p := x in k))
  (at level 61, p pattern, m at next level, right associativity) : result_scope.
Open Scope result_scope.

Definition raises {A : Type} (m : result A) : bool :=
  match m with Ok _ => false | Raise _ => true end.

(** A [for] loop whose body may raise: the accumulator is threaded from left
    to right and the first exception ends the loop. *)
Fixpoint foldM {A S : Type} (body : S -> A -> result S) (xs : list A) (s : S)
  : result S :=
  match xs with
  | [] => Ok s
  | x :: rest => s' <- body s x ;; foldM body rest s'
  end.

Fixpoint mapM {A B : Type} (f : A -> result B) (xs : list A) : result (list B) :=
  match xs with
  | [] => Ok []
  | x :: rest => y <- f x ;; ys <- mapM f rest ;; Ok (y :: ys)
  end.

(* ================================================================== *)
(** ** Python floats *)

Inductive pyfloat : Type :=
| FNaN
| FInf (neg : bool)
| FFin (q : Q).

(** Magnitudes from [2^1024 - 2^970] on round to infinity in binary64. *)
Definition FLOAT_OVERFLOW : Z := 2 ^ 1024 - 2 ^ 970.

Definition Qneg_bool (q : Q) : bool := (Qnum q <? 0)%Z.

(** The float holding the exact result [q] of an arithmetic operation. *)
Definition fnorm (q : Q) : pyfloat :=
  if Qle_bool (inject_Z FLOAT_OVERFLOW) (Qabs q) then FInf (Qneg_bool q)
  else FFin (Qred q).

Definition fzero : pyfloat := FFin 0.

Definition float_truthy (f : pyfloat) : bool :=
  match f with
  | FFin q => negb (Qeq_bool q 0)
  | _ => true
  end.

Definition is_nan (f : pyfloat) : bool :=
  match f with FNaN => true | _ => false end.

Definition is_finite (f : pyfloat) : bool :=
  match f with FFin _ => true | _ => false end.

(** [a < b]; every comparison with NaN is false. *)
Definition flt (a b : pyfloat) : bool :=
  match a, b with
  | FNaN, _ | _, FNaN => false
  | FInf true, FInf true => false
  | FInf true, _ => true
  | _, FInf true => false
  | FInf false, _ => false
  | _, FInf false => true
  | FFin x, FFin y => negb (Qle_bool y x)
  end.

Definition fgt (a b : pyfloat) : bool := flt b a.

(** [a <= b]. *)
Definition fle (a b : pyfloat) : bool :=
  match a, b with
  | FNaN, _ | _, FNaN => false
  | FInf true, _ => true
  | _, FInf false => true
  | FInf false, _ => false
  | _, FInf true => false
  | FFin x, FFin y => Qle_bool x y
  end.

Definition fge (a b : pyfloat) : bool := fle b a.

(** [a == b]. *)
Definition feq (a b : pyfloat) : bool :=
  match a, b with
  | FInf s, FInf t => Bool.eqb s t
  | FFin x, FFin y => Qeq_bool x y
  | _, _ => false
  end.

Definition fadd (a b : pyfloat) : pyfloat :=
  match a, b with
  | FNaN, _ | _, FNaN => FNaN
  | FInf s, FInf t => if Bool.eqb s t then FInf s else FNaN
  | FInf s, FFin _ | FFin _, FInf s => FInf s
  | FFin x, FFin y => fnorm (x + y)
  end.

Definition fmul (a b : pyfloat) : pyfloat :=
  match a, b with
  | FNaN, _ | _, FNaN => FNaN
  | FInf s, FInf t => FInf (xorb s t)
  | FInf s, FFin y | FFin y, FInf s =>
      if Qeq_bool y 0 then FNaN else FInf (xorb s (Qneg_bool y))
  | FFin x, FFin y => fnorm (x * y)
  end.

(** [a / b]: Python raises on a zero divisor instead of returning an
    infinity or NaN. *)
Definition fdiv (a b : pyfloat) : result pyfloat :=
  match a, b with
  | _, FFin y =>
      if Qeq_bool y 0 then Raise ZeroDivisionError
      else match a with
           | FNaN => Ok FNaN
           | FInf s => Ok (FInf (xorb s (Qneg_bool y)))
           | FFin x => Ok (fnorm (x / y))
           end
  | FNaN, _ | _, FNaN => Ok FNaN
  | FInf _, FInf _ => Ok FNaN
  | FFin _, FInf _ => Ok fzero
  end.

(** [float(z)] for a Python [int]. *)
Definition float_of_int (z : Z) : result pyfloat :=
  if (FLOAT_OVERFLOW <=? Z.abs z)%Z then Raise OverflowError
  else Ok (FFin (inject_Z z)).

(** Rounding of a rational to the nearest integer, ties to even. *)
Definition Qround_half_even (q : Q) : Z :=
  let d := Zpos (Qden q) in
  let fl := (Qnum q / d)%Z in
  match (2 * (Qnum q mod d) ?= d)%Z with
  | Lt => fl
  | Gt => (fl + 1)%Z
  | Eq => if Z.even fl then fl else (fl + 1)%Z
  end.

(** [round(x)]: an [int], or an exception for NaN and the infinities. *)
Definition py_round (f : pyfloat) : result Z :=
  match f with
  | FNaN => Raise (ValueError "cannot convert float NaN to integer")
  | FInf _ => Raise OverflowError
  | FFin q => Ok (Qround_half_even q)
  end.

(** [round(x, 2)]: a float; NaN and the infinities are returned as they
    are. *)
Definition py_round2 (f : pyfloat) : pyfloat :=
  match f with
  | FFin q => FFin (Qred (inject_Z (Qround_half_even (q * 100)) / 100))
  | _ => f
  end.

(** [min(a, b)] and [max(a, b)] keep the first argument unless the second
    is strictly smaller (larger). *)
Definition fmin (a b : pyfloat) : pyfloat := if flt b a then b else a.
Definition fmax (a b : pyfloat) : pyfloat := if fgt b a then b else a.

(** [min(xs)] and [max(xs)] of a non-empty list: the running value changes
    only on a strictly smaller (larger) item. *)
Definition fmin_list (x : pyfloat) (xs : list pyfloat) : pyfloat :=
  fold_left fmin xs x.
Definition fmax_list (x : pyfloat) (xs : list pyfloat) : pyfloat :=
  fold_left fmax xs x.

(* ================================================================== *)
(** ** Strings *)

Open Scope string_scope.
Open Scope list_scope.

Definition lower_ascii (c : ascii) : ascii :=
  let n := N_of_ascii c in
  if ((65 <=? n) && (n <=? 90))%N then ascii_of_N (n + 32) else c.

(** [str.lower()], on the ASCII letters. *)
Fixpoint lower (s : string) : string :=
  match s with
  | EmptyString => EmptyString
  | String c rest => String (lower_ascii c) (lower rest)
  end.

(** The ASCII characters that [str.strip()] removes. *)
Definition is_space (c : ascii) : bool :=
  let n := N_of_ascii c in
  (((9 <=? n) && (n <=? 13)) || ((28 <=? n) && (n <=? 32)))%N.

Fixpoint lstrip (s : string) : string :=
  match s with
  | EmptyString => EmptyString
  | String c rest => if is_space c then lstrip rest else s
  end.

Fixpoint rstrip (s : string) : string :=
  match s with
  | EmptyString => EmptyString
  | String c rest =>
      match rstrip rest with
      | EmptyString => if is_space c then EmptyString else String c EmptyString
      | r => String c r
      end
  end.

(** [str.strip()]. *)
Definition strip (s : string) : string := rstrip (lstrip s).

Definition str_nonempty (s : string) : bool :=
  match s with EmptyString => false | _ => true end.

Definition str_in (s : string) (xs : list string) : bool :=
  existsb (String.eqb s) xs.

(** [raw.replace("Z", "+00:00")]. *)
Fixpoint replace_Z (s : string) : string :=
  match s with
  | EmptyString => EmptyString
  | String c rest =>
      if Ascii.eqb c "Z"%char then ("+00:00" ++ replace_Z rest)%string
      else String c (replace_Z rest)
  end.

(** [s[:n]]. *)
Fixpoint str_take (n : nat) (s : string) : string :=
  match n, s with
  | S n', String c rest => String c (str_take n' rest)
  | _, _ => EmptyString
  end.

Fixpoint str_chars (s : string) : list string :=
  match s with
  | EmptyString => []
  | String c rest => String c EmptyString :: str_chars rest
  end.

(* ================================================================== *)
(** ** JSON values and the dynamic operations on them *)

Inductive json : Type :=
| JNull
| JBool (b : bool)
| JInt (z : Z)
| JFloat (f : pyfloat)
| JStr (s : string)
| JList (items : list json)
| JDict (fields : list (string * json)).

(** A [dict] with string keys: an association list read at the first
    binding of a key. *)
Definition dict : Type := list (string * json).

Fixpoint lookup (k : string) (d : dict) : option json :=
  match d with
  | [] => None
  | (k', v) :: rest => if String.eqb k k' then Some v else lookup k rest
  end.

(** [d.get(k)]. *)
Definition dict_get (d : dict) (k : string) : json :=
  match lookup k d with Some v => v | None => JNull end.

(** [d.get(k, default)]. *)
Definition dict_get_default (d : dict) (k : string) (default : json) : json :=
  match lookup k d with Some v => v | None => default end.

(** [v.get(k)] on a value of unknown type: only a dict has the method. *)
Definition py_get (v : json) (k : string) : result json :=
  match v with
  | JDict d => Ok (dict_get d k)
  | _ => Raise AttributeError
  end.

(** [bool(v)]. *)
Definition truthy (v : json) : bool :=
  match v with
  | JNull => false
  | JBool b => b
  | JInt z => negb (z =? 0)%Z
  | JFloat f => float_truthy f
  | JStr s => str_nonempty s
  | JList items => match items with [] => false | _ => true end
  | JDict fields => match fields with [] => false | _ => true end
  end.

(** [a or b]. *)
Definition py_or (a b : json) : json := if truthy a then a else b.

(** [for x in v]: the items of a list, the characters of a string, the keys
    of a dict. *)
Definition py_iter (v : json) : result (list json) :=
  match v with
  | JList items => Ok items
  | JStr s => Ok (map JStr (str_chars s))
  | JDict fields => Ok (map (fun kv => JStr (fst kv)) fields)
  | _ => Raise TypeError
  end.

(** [len(v)]. *)
Definition py_len (v : json) : result nat :=
  match v with
  | JList items => Ok (length items)
  | JStr s => Ok (String.length s)
  | JDict fields => Ok (length fields)
  | _ => Raise TypeError
  end.

(** [isinstance(v, (int, float))]; [bool] is a subclass of [int]. *)
Definition is_number (v : json) : bool :=
  match v with
  | JBool _ | JInt _ | JFloat _ => true
  | _ => false
  end.

Definition hashable (v : json) : bool :=
  match v with
  | JList _ | JDict _ => false
  | _ => true
  end.

(** The numeric value of a [bool], [int] or [float], for [==]. *)
Definition numeric (v : json) : option pyfloat :=
  match v with
  | JBool b => Some (FFin (if b then 1 else 0))
  | JInt z => Some (FFin (inject_Z z))
  | JFloat f => Some f
  | _ => None
  end.

(** [a == b]: numbers by value across [bool], [int] and [float], strings
    by content, lists item by item, dicts key by key. *)
Fixpoint py_eqb (a b : json) {struct a} : bool :=
  match a, b with
  | JNull, JNull => true
  | JStr s, JStr t => String.eqb s t
  | JList xs, JList ys =>
      (fix items_eqb (xs ys : list json) {struct xs} : bool :=
         match xs, ys with
         | [], [] => true
         | x :: xs', y :: ys' => py_eqb x y && items_eqb xs' ys'
         | _, _ => false
         end) xs ys
  | JDict d, JDict e =>
      Nat.eqb (length d) (length e) &&
      (fix fields_eqb (d : list (string * json)) {struct d} : bool :=
         match d with
         | [] => true
         | (k, v) :: d' =>
             match lookup k e with
             | Some w => py_eqb v w
             | None => false
             end && fields_eqb d'
         end) d
  | JBool x, _ =>
      match numeric b with
      | Some g => feq (FFin (if x then 1 else 0)) g
      | None => false
      end
  | JInt x, _ =>
      match numeric b with Some g => feq (FFin (inject_Z x)) g | None => false end
  | JFloat f, _ =>
      match numeric b with Some g => feq f g | None => false end
  | _, _ => false
  end.

(** [x in s] for a [set] (or the keys of a [dict]) [s]: [x] is hashed
    first. *)
Definition set_mem (x : json) (s : list json) : result bool :=
  if hashable x then Ok (existsb (py_eqb x) s) else Raise TypeError.

(** [s.add(x)]. *)
Definition set_add (x : json) (s : list json) : result (list json) :=
  b <- set_mem x s ;;
  Ok (if b then s else s ++ [x]).

(** [set(xs)] of strings and [x in] it. *)
Definition in_str_set (x : json) (s : list string) : result bool :=
  set_mem x (map JStr s).

(** [float(v)] for a value that passed [isinstance(v, (int, float))]. *)
Definition float_of_number (v : json) : result pyfloat :=
  match v with
  | JBool b => Ok (FFin (if b then 1 else 0))
  | JInt z => float_of_int z
  | JFloat f => Ok f
  | _ => Raise TypeError
  end.

(** [a / b] on two [int]s: the quotient as a float; an overflow raises. *)
Definition int_truediv (a b : Z) : result pyfloat :=
  if (b =? 0)%Z then Raise ZeroDivisionError
  else match fnorm (inject_Z a / inject_Z b) with
       | FInf _ => Raise OverflowError
       | f => Ok f
       end.

(** [dict(v)] for a value on which [.get] already succeeded. *)
Definition py_dict (v : json) : result dict :=
  match v with
  | JDict d => Ok d
  | _ => Raise TypeError
  end.

(** [s.lower()] on a value of unknown type. *)
Definition py_lower (v : json) : result string :=
  match v with
  | JStr s => Ok (lower s)
  | _ => Raise AttributeError
  end.

(* ================================================================== *)
(** ** Data model of the enriched group *)

(** A timezone-aware [datetime]: microseconds since the epoch, in UTC. *)
Definition datetime : Type := Z.

(** [min(xs)] and [max(xs)] of a non-empty list of [int]s or [datetime]s. *)
Definition zmin (cur t : Z) : Z := if (t <? cur)%Z then t else cur.
Definition zmax (cur t : Z) : Z := if (t >? cur)%Z then t else cur.
Definition zmin_list (x : Z) (xs : list Z) : Z := fold_left zmin xs x.
Definition zmax_list (x : Z) (xs : list Z) : Z := fold_left zmax xs x.

(** The value of [group["_metrics"]]. *)
Record Metrics : Type := mkMetrics {
  member_count : nat;
  transaction_count : nat;
  total_amount : pyfloat;
  unique_counterparties : nat;
  outgoing_ratio : pyfloat;
  first_seen : option datetime;
  last_seen : option datetime;
  min_transaction_amount : option pyfloat;
  max_transaction_amount : option pyfloat;
  risk_score : Z
}.

(** An item of [group["_transactions"]]: the copied transaction with its
    ["parsed_timestamp"]. *)
Record ParsedTx : Type := mkParsedTx {
  tx_fields : dict;
  parsed_timestamp : option datetime
}.

(** The dict that [enrich_group] returns: the copy of the raw group with the
    three derived keys. *)
Record EnrichedGroup : Type := mkEnrichedGroup {
  group_fields : dict;
  _metrics : Metrics;
  _transactions : list ParsedTx;
  _display_name : json
}.

(** [group.get(k)] for a key of the raw group. *)
Definition group_get (g : EnrichedGroup) (k : string) : json :=
  dict_get (group_fields g) k.

(** The accumulators of the loop of [enrich_group]. *)
Record EnrichAcc : Type := mkEnrichAcc {
  acc_total : pyfloat;
  acc_counterparties : list json;
  acc_outgoing : nat;
  acc_timestamps : list datetime;
  acc_min : option pyfloat;
  acc_max : option pyfloat;
  acc_parsed : list ParsedTx
}.

Definition enrich_init : EnrichAcc :=
  mkEnrichAcc fzero [] 0 [] None None [].

Definition OUTGOING : list string := ["out"; "outgoing"; "debit"].
Definition INCOMING : list string := ["in"; "incoming"; "credit"].

(** [int(max(1.0, min(99.0, r)))] for the [int] [r] that [round] returned. *)
Definition clamp_score (r : Z) : Z :=
  let m := if (r <? 99)%Z then r else 99%Z in
  if (m >? 1)%Z then m else 1%Z.

(* ================================================================== *)
(** ** The service functions *)

Section Services.

(** [math.log1p] on a finite argument above [-1]. *)
Variable log1p_fin : Q -> Q.
(** [float(s)] for a [str]; [None] is [ValueError]. *)
Variable float_of_str : string -> option pyfloat.
(** [datetime.fromisoformat]: the wall-clock instant and the UTC offset when
    the string carries one; [None] is [ValueError]. *)
Variable fromisoformat : string -> option (Z * option Z).

Definition math_log1p (x : pyfloat) : result pyfloat :=
  match x with
  | FNaN => Ok FNaN
  | FInf false => Ok (FInf false)
  | FInf true => Raise (ValueError "math domain error")
  | FFin q =>
      if Qle_bool q (-1) then Raise (ValueError "math domain error")
      else Ok (FFin (log1p_fin q))
  end.

Definition compute_risk_score
  (member_count transaction_count : Z) (total_amount : pyfloat)
  (unique_counterparties : Z) (outgoing_ratio : pyfloat) : result Z :=
  exposure <- (if fgt total_amount fzero then math_log1p total_amount
               else Ok fzero) ;;
  exposure_scale <- (if float_truthy exposure then
                       denominator <- math_log1p (FFin 250000) ;;
                       quotient <- fdiv exposure denominator ;;
                       Ok (fmul quotient (FFin 55))
                     else Ok fzero) ;;
  members_f <- float_of_int member_count ;;
  transactions_f <- float_of_int transaction_count ;;
  counterparties_f <- float_of_int unique_counterparties ;;
  let structural :=
    fadd (fadd (fmul members_f (FFin (9 # 2))) (fmul transactions_f (FFin (11 # 5))))
         (fmul counterparties_f (FFin (3 # 2))) in
  let directionality := fmul outgoing_ratio (FFin 18) in
  let raw_score := fadd (fadd structural exposure_scale) directionality in
  rounded <- py_round raw_score ;;
  Ok (clamp_score rounded).

(** [parse_iso_datetime] of [data_access.py]. *)
Definition parse_iso_datetime (raw : json) : result (option datetime) :=
  if negb (truthy raw) then Ok None
  else match raw with
       | JStr s =>
           match fromisoformat (replace_Z s) with
           | Some (wall, Some offset) => Ok (Some (wall - offset)%Z)
           | Some (wall, None) => Ok (Some wall)
           | None => Ok None
           end
       | _ => Raise AttributeError
       end.

(** The body of the loop over the transactions in [enrich_group]. *)
Definition enrich_tx (acc : EnrichAcc) (tx : json) : result EnrichAcc :=
  tx_amount <- py_get tx "amount" ;;
  '(total, lo, hi) <-
    (if is_number tx_amount then
       amount_value <- float_of_number tx_amount ;;
       Ok (fadd (acc_total acc) amount_value,
           Some (match acc_min acc with
                 | None => amount_value
                 | Some m => fmin m amount_value
                 end),
           Some (match acc_max acc with
                 | None => amount_value
                 | Some m => fmax m amount_value
                 end))
     else Ok (acc_total acc, acc_min acc, acc_max acc)) ;;
  counterparty <- py_get tx "counterparty_id" ;;
  counterparties <- (if truthy counterparty
                     then set_add counterparty (acc_counterparties acc)
                     else Ok (acc_counterparties acc)) ;;
  direction <- py_get tx "direction" ;;
  normalized_direction <- py_lower (py_or direction (JStr "")) ;;
  let outgoing :=
    if str_in normalized_direction OUTGOING
    then S (acc_outgoing acc) else acc_outgoing acc in
  timestamp <- py_get tx "timestamp" ;;
  ts <- parse_iso_datetime timestamp ;;
  let timestamps :=
    match ts with
    | Some t => acc_timestamps acc ++ [t]
    | None => acc_timestamps acc
    end in
  parsed <- py_dict tx ;;
  Ok (mkEnrichAcc total counterparties outgoing timestamps lo hi
        (acc_parsed acc ++ [mkParsedTx parsed ts])).

Definition enrich_group (raw_group : dict) : result EnrichedGroup :=
  let group := raw_group in
  let members := py_or (dict_get group "members") (JList []) in
  let transactions := py_or (dict_get group "transactions") (JList []) in
  items <- py_iter transactions ;;
  acc <- foldM enrich_tx items enrich_init ;;
  transaction_count <- py_len transactions ;;
  outgoing_ratio <- (if negb (transaction_count =? 0)%nat
                     then int_truediv (Z.of_nat (acc_outgoing acc))
                                      (Z.of_nat transaction_count)
                     else Ok fzero) ;;
  member_count <- py_len members ;;
  risk_score <- compute_risk_score (Z.of_nat member_count)
                  (Z.of_nat transaction_count) (acc_total acc)
                  (Z.of_nat (length (acc_counterparties acc))) outgoing_ratio ;;
  let first_seen :=
    match acc_timestamps acc with
    | [] => None
    | t :: ts => Some (zmin_list t ts)
    end in
  let last_seen :=
    match acc_timestamps acc with
    | [] => None
    | t :: ts => Some (zmax_list t ts)
    end in
  let metrics :=
    mkMetrics member_count transaction_count (py_round2 (acc_total acc))
      (length (acc_counterparties acc)) outgoing_ratio first_seen last_seen
      (acc_min acc) (acc_max acc) risk_score in
  let canonical := py_or (dict_get group "canonical_attributes") (JDict []) in
  name <- py_get canonical "name" ;;
  Ok (mkEnrichedGroup group metrics (acc_parsed acc)
        (py_or name (dict_get group "group_id"))).


(* ------------------------------------------------------------------ *)
(** *** Aggregation *)

(** [SummaryStats] of [models.py]; its [min_risk] and [max_risk] carry the
    suffix [_stat] to keep them apart from the filter's [min_risk]. *)
Record SummaryStats : Type := mkSummaryStats {
  min_total_amount : option pyfloat;
  max_total_amount : option pyfloat;
  min_risk_stat : option Z;
  max_risk_stat : option Z;
  min_date : option datetime;
  max_date : option datetime;
  min_tx_amount : option pyfloat;
  max_tx_amount : option pyfloat
}.

Definition option_list {A : Type} (o : option A) : list A :=
  match o with Some a => [a] | None => [] end.

(** The three lists that the loop of [summarize_groups] fills. *)
Definition tx_min_values (groups : list EnrichedGroup) : list pyfloat :=
  flat_map (fun g => option_list (min_transaction_amount (_metrics g))) groups.
Definition tx_max_values (groups : list EnrichedGroup) : list pyfloat :=
  flat_map (fun g => option_list (max_transaction_amount (_metrics g))) groups.
Definition pooled_dates (groups : list EnrichedGroup) : list datetime :=
  flat_map (fun g => option_list (first_seen (_metrics g)) ++
                     option_list (last_seen (_metrics g))) groups.

Definition fmin_of (xs : list pyfloat) : option pyfloat :=
  match xs with [] => None | x :: rest => Some (fmin_list x rest) end.
Definition fmax_of (xs : list pyfloat) : option pyfloat :=
  match xs with [] => None | x :: rest => Some (fmax_list x rest) end.
Definition zmin_of (xs : list Z) : option Z :=
  match xs with [] => None | x :: rest => Some (zmin_list x rest) end.
Definition zmax_of (xs : list Z) : option Z :=
  match xs with [] => None | x :: rest => Some (zmax_list x rest) end.

Definition summarize_groups (groups : list EnrichedGroup) : SummaryStats :=
  match groups with
  | [] => mkSummaryStats None None None None None None None None
  | _ =>
      let totals := map (fun g => total_amount (_metrics g)) groups in
      let risks := map (fun g => risk_score (_metrics g)) groups in
      let dates := pooled_dates groups in
      mkSummaryStats (fmin_of totals) (fmax_of totals)
        (zmin_of risks) (zmax_of risks)
        (zmin_of dates) (zmax_of dates)
        (fmin_of (tx_min_values groups)) (fmax_of (tx_max_values groups))
  end.

(* ------------------------------------------------------------------ *)
(** *** Filtering *)

(** [GroupFilters]; its date bounds are timezone-aware instants, like the
    timestamps that [parse_iso_datetime] returns. *)
Record GroupFilters : Type := mkGroupFilters {
  min_risk : Z;
  min_total : pyfloat;
  max_total : pyfloat;
  start_date : option datetime;
  end_date : option datetime;
  reported_only : bool
}.

(** [GroupFilters()]. *)
Definition default_filters : GroupFilters :=
  mkGroupFilters 0 fzero (FInf false) None None false.

Definition is_some {A : Type} (o : option A) : bool :=
  match o with Some _ => true | None => false end.

(** One pass of the loop body of [filter_groups]: [true] when the group
    reaches [filtered.append(group)], [false] when a [continue] is taken. *)
Definition group_kept (filters : GroupFilters) (reported_set : list string)
  (group : EnrichedGroup) : result bool :=
  let metrics := _metrics group in
  if (risk_score metrics <? min_risk filters)%Z then Ok false
  else
    let total := total_amount metrics in
    if flt total (min_total filters) || fgt total (max_total filters)
    then Ok false
    else
      unreported <- (if reported_only filters
                     then listed <- in_str_set (group_get group "group_id")
                                      reported_set ;;
                          Ok (negb listed)
                     else Ok false) ;;
      if unreported then Ok false
      else if is_some (start_date filters) || is_some (end_date filters) then
        let group_start := first_seen metrics in
        let group_end := last_seen metrics in
        if match start_date filters with
           | Some bound =>
               match group_end with
               | None => true
               | Some t => (t <? bound)%Z
               end
           | None => false
           end
        then Ok false
        else if match end_date filters with
                | Some bound =>
                    match group_start with
                    | None => true
                    | Some t => (t >? bound)%Z
                    end
                | None => false
                end
        then Ok false
        else Ok true
      else Ok true.

Definition filter_groups (groups : list EnrichedGroup) (filters : GroupFilters)
  (reported_ids : list string) : result (list EnrichedGroup) :=
  let reported_set := reported_ids in
  foldM (fun filtered group =>
           keep <- group_kept filters reported_set group ;;
           Ok (if keep then filtered ++ [group] else filtered))
        groups [].

(* ------------------------------------------------------------------ *)
(** *** Network graph *)

(** [NetworkNode] and [NetworkEdge] of [models.py]. *)
Record NetworkNode : Type := mkNetworkNode {
  node_id : json;
  node_label : json;
  node_kind : string;
  node_risk_score : option Z;
  node_member_count : option nat;
  node_total_amount : option pyfloat;
  node_highlight : bool
}.

Record NetworkEdge : Type := mkNetworkEdge {
  edge_source : json;
  edge_target : json;
  edge_amount : pyfloat;
  edge_count : nat;
  edge_directions : list string
}.

Record NetworkResponse : Type := mkNetworkResponse {
  response_nodes : list NetworkNode;
  response_edges : list NetworkEdge
}.

(** The value kept under an edge key while the graph is built. *)
Record EdgeData : Type := mkEdgeData {
  data_amount : pyfloat;
  data_count : nat;
  data_directions : list string
}.

Definition EdgeKey : Type := (json * json)%type.

(** Equality of two [(src, dst)] tuples. *)
Definition key_eqb (a b : EdgeKey) : bool :=
  py_eqb (fst a) (fst b) && py_eqb (snd a) (snd b).

(** [nodes[k] = node]: a known key keeps its place, a new one goes last. *)
Fixpoint nodes_store (k : json) (node : NetworkNode)
  (nodes : list (json * NetworkNode)) : list (json * NetworkNode) :=
  match nodes with
  | [] => [(k, node)]
  | (k', n) :: rest =>
      if py_eqb k k' then (k', node) :: rest
      else (k', n) :: nodes_store k node rest
  end.

Definition nodes_set (k : json) (node : NetworkNode)
  (nodes : list (json * NetworkNode)) : result (list (json * NetworkNode)) :=
  if hashable k then Ok (nodes_store k node nodes) else Raise TypeError.

(** [directions.add(d)] on a set of strings. *)
Definition directions_add (d : string) (ds : list string) : list string :=
  if str_in d ds then ds else ds ++ [d].

(** The three updates of an edge entry for one transaction. *)
Definition entry_update (amount : pyfloat) (direction : string)
  (data : EdgeData) : EdgeData :=
  mkEdgeData (fadd (data_amount data) amount) (S (data_count data))
    (if str_nonempty direction
     then directions_add direction (data_directions data)
     else data_directions data).

Definition fresh_entry : EdgeData := mkEdgeData fzero 0 [].

(** [entry = edges.setdefault(key, fresh)] followed by the updates of
    [entry], which is the object stored in [edges]. *)
Fixpoint edges_accumulate (key : EdgeKey) (amount : pyfloat)
  (direction : string) (edges : list (EdgeKey * EdgeData))
  : list (EdgeKey * EdgeData) :=
  match edges with
  | [] => [(key, entry_update amount direction fresh_entry)]
  | (k, data) :: rest =>
      if key_eqb key k then (k, entry_update amount direction data) :: rest
      else (k, data) :: edges_accumulate key amount direction rest
  end.

(** [float(v)] on a value of unknown type. *)
Definition py_float (v : json) : result pyfloat :=
  match v with
  | JBool _ | JInt _ | JFloat _ => float_of_number v
  | JStr s =>
      match float_of_str s with
      | Some f => Ok f
      | None => Raise (ValueError "could not convert string to float")
      end
  | _ => Raise TypeError
  end.

(** [v[:n]] on a value of unknown type. *)
Definition py_take (n : nat) (v : json) : result json :=
  match v with
  | JStr s => Ok (JStr (str_take n s))
  | JList items => Ok (JList (firstn n items))
  | _ => Raise TypeError
  end.

Fixpoint insert_sorted (s : string) (xs : list string) : list string :=
  match xs with
  | [] => [s]
  | x :: rest =>
      if String.leb s x then s :: xs else x :: insert_sorted s rest
  end.

(** [sorted(xs)] on strings. *)
Definition sorted (xs : list string) : list string :=
  fold_right insert_sorted [] xs.

Definition NetworkState : Type :=
  (list (json * NetworkNode) * list (EdgeKey * EdgeData))%type.

(** The body of the inner loop of [build_network_payload]. *)
Definition network_tx (group_id : json) (st : NetworkState) (tx : ParsedTx)
  : result NetworkState :=
  let '(nodes, edges) := st in
  let counterparty := dict_get (tx_fields tx) "counterparty_id" in
  if negb (truthy counterparty) then Ok st
  else
    known <- set_mem counterparty (map fst nodes) ;;
    nodes' <- (if known then Ok nodes
               else label <- py_take 24 counterparty ;;
                    Ok (nodes ++ [(counterparty,
                                   mkNetworkNode counterparty label "counterparty"
                                     None None None false)])) ;;
    amount <- py_float (py_or (dict_get (tx_fields tx) "amount") (JFloat fzero)) ;;
    direction <- py_lower (py_or (dict_get (tx_fields tx) "direction") (JStr "")) ;;
    let key := if str_in direction INCOMING
               then (counterparty, group_id)
               else (group_id, counterparty) in
    Ok (nodes', edges_accumulate key amount direction edges).

(** The body of the outer loop of [build_network_payload]. *)
Definition network_group (reported_set : list string) (highlight_reported : bool)
  (st : NetworkState) (group : EnrichedGroup) : result NetworkState :=
  let '(nodes, edges) := st in
  let group_id := group_get group "group_id" in
  if negb (truthy group_id) then Ok st
  else
    let metrics := _metrics group in
    highlight <- (if highlight_reported
                  then in_str_set group_id reported_set
                  else Ok false) ;;
    nodes' <- nodes_set group_id
                (mkNetworkNode group_id (py_or (_display_name group) group_id)
                   "group" (Some (risk_score metrics))
                   (Some (member_count metrics))
                   (Some (total_amount metrics)) highlight)
                nodes ;;
    foldM (network_tx group_id) (_transactions group) (nodes', edges).

Definition edge_model (item : EdgeKey * EdgeData) : NetworkEdge :=
  let '((src, dst), data) := item in
  mkNetworkEdge src dst (py_round2 (data_amount data)) (data_count data)
    (sorted (data_directions data)).

Definition build_network_payload (groups : list EnrichedGroup)
  (reported_ids : list string) (highlight_reported : bool)
  : result NetworkResponse :=
  let reported_set := reported_ids in
  '(nodes, edges) <- foldM (network_group reported_set highlight_reported)
                       groups ([], []) ;;
  Ok (mkNetworkResponse (map snd nodes) (map edge_model edges)).

(* ------------------------------------------------------------------ *)
(** *** The service and its artifacts *)

(** A file of the artifact store, as [_safe_read_json] sees it: missing, or
    present with the JSON it parses to ([None] for an empty or malformed
    file). *)
Inductive FileState : Type :=
| Missing
| Present (payload : option json).

Definition safe_read_json (f : FileState) : option json :=
  match f with
  | Missing => None
  | Present payload => payload
  end.

Definition load_snapshots (f : FileState) : list json :=
  match safe_read_json f with
  | Some (JList items) => items
  | _ => []
  end.

Definition load_reports (f : FileState) : list json :=
  match safe_read_json f with
  | Some (JList items) => items
  | _ => []
  end.

Definition write_reports (reports : list json) : FileState :=
  Present (Some (JList reports)).

Definition ensure_reports_file (f : FileState) : FileState :=
  match f with
  | Missing => Present (Some (JList []))
  | Present _ => f
  end.

(** [GroupService]: the artifacts it reads ([entities] is what
    [load_group_payloads] returns) and its caches. *)
Record GroupService : Type := mkGroupService {
  entities : list dict;
  snapshots_file : FileState;
  reports_file : FileState;
  _groups_cache : option (list EnrichedGroup);
  _snapshots_cache : option (list json);
  _reports_cache : option (list json)
}.

Definition set_groups_cache (svc : GroupService) (c : option (list EnrichedGroup))
  : GroupService :=
  mkGroupService (entities svc) (snapshots_file svc) (reports_file svc)
    c (_snapshots_cache svc) (_reports_cache svc).

Definition set_snapshots_cache (svc : GroupService) (c : option (list json))
  : GroupService :=
  mkGroupService (entities svc) (snapshots_file svc) (reports_file svc)
    (_groups_cache svc) c (_reports_cache svc).

Definition set_reports_cache (svc : GroupService) (c : option (list json))
  : GroupService :=
  mkGroupService (entities svc) (snapshots_file svc) (reports_file svc)
    (_groups_cache svc) (_snapshots_cache svc) c.

Definition set_reports_file (svc : GroupService) (f : FileState) : GroupService :=
  mkGroupService (entities svc) (snapshots_file svc) f
    (_groups_cache svc) (_snapshots_cache svc) (_reports_cache svc).

(** Methods return their outcome together with the service as they leave
    it; an exception keeps the mutations made before it. *)
Definition _load_groups (svc : GroupService)
  : result (list EnrichedGroup) * GroupService :=
  match _groups_cache svc with
  | Some groups => (Ok groups, svc)
  | None =>
      match mapM enrich_group (entities svc) with
      | Ok groups => (Ok groups, set_groups_cache svc (Some groups))
      | Raise e => (Raise e, svc)
      end
  end.

Definition _load_snapshots (svc : GroupService) : list json * GroupService :=
  match _snapshots_cache svc with
  | Some snapshots => (snapshots, svc)
  | None =>
      let snapshots := load_snapshots (snapshots_file svc) in
      (snapshots, set_snapshots_cache svc (Some snapshots))
  end.

Definition _load_reports (svc : GroupService) : list json * GroupService :=
  match _reports_cache svc with
  | Some reports => (reports, svc)
  | None =>
      let svc1 := set_reports_file svc (ensure_reports_file (reports_file svc)) in
      let reports := load_reports (reports_file svc1) in
      (reports, set_reports_cache svc1 (Some reports))
  end.

Definition _update_reports_cache (svc : GroupService) (reports : list json)
  : GroupService :=
  set_reports_file (set_reports_cache svc (Some reports)) (write_reports reports).

(* ------------------------------------------------------------------ *)
(** *** Snapshot correlation *)

(** [{m.get("record_id") for m in members if m.get("record_id")}]. *)
Definition collect_member_ids (members : list json) : result (list json) :=
  foldM (fun ids m =>
           rid <- py_get m "record_id" ;;
           if truthy rid then set_add rid ids else Ok ids)
        members [].

(** The two nested loops that fill [signature_set]. *)
Definition collect_signatures (members : list json) : result (list json) :=
  foldM (fun sigs member =>
           history <- py_get member "signature_history" ;;
           signatures <- py_iter (py_or history (JList [])) ;;
           foldM (fun acc signature => set_add signature acc) signatures sigs)
        members [].

(** One pass of the loop over the snapshots: [true] when the snapshot is
    appended to [matched]. *)
Definition snapshot_matched (member_ids signature_set : list json) (tax_id : json)
  (snapshot : json) : result bool :=
  match snapshot with
  | JDict fields =>
      by_record <- set_mem (dict_get fields "record_id") member_ids ;;
      if by_record then Ok true
      else
        by_signature <- set_mem (dict_get fields "signature") signature_set ;;
        if by_signature then Ok true
        else if truthy tax_id then
          attrs_tax <- py_get (dict_get_default fields "normalized_attributes"
                                 (JDict [])) "tax_id" ;;
          Ok (py_eqb attrs_tax tax_id)
        else Ok false
  | _ => Ok false
  end.

(** [xs[:limit]]: a negative limit counts from the end. *)
Definition py_slice_to {A : Type} (limit : Z) (xs : list A) : list A :=
  if (limit <? 0)%Z
  then firstn (length xs - Z.to_nat (- limit)) xs
  else firstn (Z.to_nat limit) xs.

Definition _select_relevant_snapshots (svc : GroupService)
  (group : EnrichedGroup) (limit : Z) : result (list json) * GroupService :=
  let '(snapshots, svc1) := _load_snapshots svc in
  match snapshots with
  | [] => (Ok [], svc1)
  | _ =>
      (members <- py_iter (py_or (group_get group "members") (JList [])) ;;
       member_ids <- collect_member_ids members ;;
       signature_set <- collect_signatures members ;;
       tax_id <- py_get (dict_get_default (group_fields group)
                           "canonical_attributes" (JDict [])) "tax_id" ;;
       matched <- foldM (fun matched snapshot =>
                           hit <- snapshot_matched member_ids signature_set
                                    tax_id snapshot ;;
                           Ok (if hit then matched ++ [snapshot] else matched))
                        snapshots [] ;;
       Ok (py_slice_to limit matched),
       svc1)
  end.

Definition DEFAULT_LIMIT : Z := 25.

(* ------------------------------------------------------------------ *)
(** *** Report ledger *)

Record ReportCreateRequest : Type := mkReportCreateRequest {
  request_group_id : string;
  request_reason : string;
  request_checks : list string
}.

Record ReportCreateResponse : Type := mkReportCreateResponse {
  response_record : json;
  total_reports : nat
}.

Definition InvalidInput : exn :=
  ValueError "A reason is required to record a report".

Definition NotFound (group_id : string) : exn :=
  ValueError ("Group " ++ group_id ++ " not found")%string.

(** The dict [payload] of [submit_report]; [now] is what
    [datetime.utcnow().replace(microsecond=0).isoformat()] returns. *)
Definition report_payload (now : string) (request : ReportCreateRequest)
  (target : EnrichedGroup) : json :=
  JDict [("timestamp", JStr (now ++ "Z")%string);
         ("group_id", JStr (request_group_id request));
         ("reason", JStr (strip (request_reason request)));
         ("checks", JList (map JStr (request_checks request)));
         ("snapshot",
          JDict [("num_members",
                  JInt (Z.of_nat (member_count (_metrics target))));
                 ("total_amount", JFloat (total_amount (_metrics target)));
                 ("risk_score", JInt (risk_score (_metrics target)))])].

Definition submit_report (now : string) (svc : GroupService)
  (request : ReportCreateRequest) : result ReportCreateResponse * GroupService :=
  if negb (str_nonempty (strip (request_reason request)))
  then (Raise InvalidInput, svc)
  else
    match _load_groups svc with
    | (Raise e, svc1) => (Raise e, svc1)
    | (Ok groups, svc1) =>
        match find (fun g => py_eqb (group_get g "group_id")
                               (JStr (request_group_id request))) groups with
        | None => (Raise (NotFound (request_group_id request)), svc1)
        | Some target =>
            let svc2 :=
              set_reports_file svc1 (ensure_reports_file (reports_file svc1)) in
            let '(reports, svc3) := _load_reports svc2 in
            let payload := report_payload now request target in
            let updated_reports := reports ++ [payload] in
            let svc4 := _update_reports_cache svc3 updated_reports in
            (Ok (mkReportCreateResponse payload (length updated_reports)), svc4)
        end
    end.

(* ================================================================== *)
(** ** The vocabulary of the specification

    The definitions below follow the words of the specification; the
    theorems compare them with what the functions above compute. *)

(** The transactions of a raw group, in order. *)
Definition raw_transactions (raw_group : dict) : list json :=
  match py_iter (py_or (dict_get raw_group "transactions") (JList [])) with
  | Ok items => items
  | Raise _ => []
  end.

(** A transaction whose case-normalized direction is out, outgoing or
    debit. *)
Definition tx_is_outgoing (tx : json) : bool :=
  match tx with
  | JDict fields =>
      match dict_get fields "direction" with
      | JStr s => str_in (lower s) OUTGOING
      | _ => false
      end
  | _ => false
  end.

Definition outgoing_transactions (raw_group : dict) : nat :=
  length (filter tx_is_outgoing (raw_transactions raw_group)).

(** The group id is one of [reported_ids]. *)
Definition is_reported (reported_ids : list string) (group : EnrichedGroup)
  : bool :=
  existsb (py_eqb (group_get group "group_id")) (map JStr reported_ids).

(** The interval [first_seen, last_seen] of the group overlaps the
    requested range; a missing bound is skipped, a group without timestamps
    overlaps nothing. *)
Definition overlaps_range (filters : GroupFilters) (m : Metrics) : bool :=
  match start_date filters with
  | Some bound =>
      match last_seen m with Some t => (bound <=? t)%Z | None => false end
  | None => true
  end &&
  match end_date filters with
  | Some bound =>
      match first_seen m with Some t => (t <=? bound)%Z | None => false end
  | None => true
  end.

(** The filter predicate with the amount range read as
    [min_total <= total_amount <= max_total]. *)
Definition passes_closed_range (filters : GroupFilters)
  (reported_ids : list string) (group : EnrichedGroup) : bool :=
  let m := _metrics group in
  (min_risk filters <=? risk_score m)%Z &&
  (fle (min_total filters) (total_amount m) &&
   fle (total_amount m) (max_total filters)) &&
  (if reported_only filters then is_reported reported_ids group else true) &&
  overlaps_range filters m.

(** The filter predicate with the amount range read as
    "neither below [min_total] nor above [max_total]". *)
Definition passes (filters : GroupFilters) (reported_ids : list string)
  (group : EnrichedGroup) : bool :=
  let m := _metrics group in
  (min_risk filters <=? risk_score m)%Z &&
  (negb (flt (total_amount m) (min_total filters)) &&
   negb (fgt (total_amount m) (max_total filters))) &&
  (if reported_only filters then is_reported reported_ids group else true) &&
  overlaps_range filters m.

Definition hashable_id (group : EnrichedGroup) : bool :=
  hashable (group_get group "group_id").

(** The members of a group, in order. *)
Definition group_members (group : EnrichedGroup) : list json :=
  match py_iter (py_or (group_get group "members") (JList [])) with
  | Ok items => items
  | Raise _ => []
  end.

(** The record id of a member, when it has one. *)
Definition record_ids_of (m : json) : list json :=
  match m with
  | JDict fields =>
      if truthy (dict_get fields "record_id")
      then [dict_get fields "record_id"] else []
  | _ => []
  end.

(** The signature history of a member. *)
Definition signatures_of (m : json) : list json :=
  match m with
  | JDict fields =>
      match py_iter (py_or (dict_get fields "signature_history") (JList []))
      with
      | Ok signatures => signatures
      | Raise _ => []
      end
  | _ => []
  end.

(** The record ids of the members. *)
Definition member_record_ids (group : EnrichedGroup) : list json :=
  flat_map record_ids_of (group_members group).

(** The union of the signature histories of the members. *)
Definition signature_union (group : EnrichedGroup) : list json :=
  flat_map signatures_of (group_members group).

(** The canonical tax id of the group, [JNull] when there is none. *)
Definition canonical_tax_id (group : EnrichedGroup) : json :=
  match dict_get_default (group_fields group) "canonical_attributes" (JDict [])
  with
  | JDict attrs => dict_get attrs "tax_id"
  | _ => JNull
  end.

(** The three-way matching rule of the correlator. *)
Definition snapshot_relevant (group : EnrichedGroup) (snapshot : json) : bool :=
  match snapshot with
  | JDict fields =>
      existsb (py_eqb (dict_get fields "record_id")) (member_record_ids group)
      || existsb (py_eqb (dict_get fields "signature")) (signature_union group)
      || (truthy (canonical_tax_id group) &&
          match dict_get_default fields "normalized_attributes" (JDict []) with
          | JDict attrs => py_eqb (dict_get attrs "tax_id") (canonical_tax_id group)
          | _ => false
          end)
  | _ => false
  end.

(** The snapshots a service holds, as [_load_snapshots] returns them. *)
Definition service_snapshots (svc : GroupService) : list json :=
  fst (_load_snapshots svc).

(** The report ledger of a service, as [_load_reports] returns it. *)
Definition ledger (svc : GroupService) : list json :=
  fst (_load_reports svc).

Definition request_known (groups : list EnrichedGroup)
  (request : ReportCreateRequest) : bool :=
  existsb (fun g => py_eqb (group_get g "group_id")
                      (JStr (request_group_id request))) groups.

(** What one transaction adds to the graph: the ordered pair it belongs
    to, its amount and its case-normalized direction. *)
Record Contribution : Type := mkContribution {
  c_key : EdgeKey;
  c_amount : pyfloat;
  c_direction : string;
  c_observed : json
}.

Definition tx_direction (tx : ParsedTx) : string :=
  match py_lower (py_or (dict_get (tx_fields tx) "direction") (JStr "")) with
  | Ok d => d
  | Raise _ => ""
  end.

Definition tx_amount (tx : ParsedTx) : pyfloat :=
  match py_float (py_or (dict_get (tx_fields tx) "amount") (JFloat fzero)) with
  | Ok a => a
  | Raise _ => fzero
  end.

Definition tx_contribution (group_id : json) (tx : ParsedTx)
  : list Contribution :=
  let counterparty := dict_get (tx_fields tx) "counterparty_id" in
  if truthy counterparty then
    [mkContribution
       (if str_in (tx_direction tx) INCOMING
        then (counterparty, group_id) else (group_id, counterparty))
       (tx_amount tx) (tx_direction tx)
       (dict_get (tx_fields tx) "direction")]
  else [].

(** The contributions of the transactions that have a counterparty, over
    the groups that have an id, in processing order. *)
Definition contributions (groups : list EnrichedGroup) : list Contribution :=
  flat_map (fun g =>
              if truthy (group_get g "group_id")
              then flat_map (tx_contribution (group_get g "group_id"))
                     (_transactions g)
              else [])
           groups.

Definition contributing (k : EdgeKey) (cs : list Contribution)
  : list Contribution :=
  filter (fun c => key_eqb (c_key c) k) cs.

Definition edge_key (e : NetworkEdge) : EdgeKey :=
  (edge_source e, edge_target e).

Definition fsum (xs : list pyfloat) : pyfloat := fold_left fadd xs fzero.

(** The id of the group is not NaN.  A dict finds a key by identity before
    it tries [==], so a NaN id still meets itself; values alone cannot tell,
    and the statements on edges leave such ids out. *)
Definition not_nan_id (group : EnrichedGroup) : bool :=
  negb (match group_get group "group_id" with
        | JFloat FNaN => true
        | _ => false
        end).

(** [lo <= hi], or both are NaN. *)
Definition ordered_or_nan (lo hi : pyfloat) : Prop :=
  fle lo hi = true \/ (lo = FNaN /\ hi = FNaN).

(** Both bounds absent, or both present and related by [R]. *)
Definition paired {A : Type} (R : A -> A -> Prop) (lo hi : option A) : Prop :=
  match lo, hi with
  | None, None => True
  | Some a, Some b => R a b
  | _, _ => False
  end.

(** The total amount of a group, the rounded sum of its amounts, is at
    least zero. *)
Definition nonnegative_total (group : EnrichedGroup) : bool :=
  fle fzero (total_amount (_metrics group)).

(** The total amount of a group is at least zero, or NaN. *)
Definition nonnegative_or_nan_total (group : EnrichedGroup) : bool :=
  fle fzero (total_amount (_metrics group))
  || is_nan (total_amount (_metrics group)).

(** The verdict of the loop body of [filter_groups] on a group. *)
Definition kept (filters : GroupFilters) (reported_ids : list string)
  (group : EnrichedGroup) : bool :=
  match group_kept filters reported_ids group with
  | Ok b => b
  | Raise _ => false
  end.

(** Every pair of bounds of the statistics is ordered, the float pairs by
    [R]. *)
Definition stats_ordered (R : pyfloat -> pyfloat -> Prop) (s : SummaryStats)
  : Prop :=
  paired R (min_total_amount s) (max_total_amount s) /\
  paired Z.le (min_risk_stat s) (max_risk_stat s) /\
  paired Z.le (min_date s) (max_date s) /\
  paired R (min_tx_amount s) (max_tx_amount s).

Definition float_le (lo hi : pyfloat) : Prop := fle lo hi = true.

Definition all_absent : SummaryStats :=
  mkSummaryStats None None None None None None None None.

(** The contract of [submit_report] for a service whose loaded groups are
    [groups] and which was [svc] before the call. *)
Definition report_contract (groups : list EnrichedGroup)
  (request : ReportCreateRequest) (svc : GroupService)
  (outcome : result ReportCreateResponse * GroupService) : Prop :=
  let reason := strip (request_reason request) in
  let svc' := snd outcome in
  match fst outcome with
  | Raise e =>
      ((reason = "" /\ e = InvalidInput) \/
       (reason <> "" /\ request_known groups request = false /\
        e = NotFound (request_group_id request))) /\
      ledger svc' = ledger svc /\
      reports_file svc' = reports_file svc /\
      _reports_cache svc' = _reports_cache svc
  | Ok response =>
      reason <> "" /\ request_known groups request = true /\
      exists target,
        find (fun g => py_eqb (group_get g "group_id")
                         (JStr (request_group_id request))) groups
        = Some target /\
        ledger svc' = ledger svc ++ [response_record response] /\
        length (ledger svc') = S (length (ledger svc)) /\
        total_reports response = length (ledger svc') /\
        reports_file svc' = write_reports (ledger svc') /\
        py_get (response_record response) "reason" = Ok (JStr reason) /\
        py_get (response_record response) "checks"
        = Ok (JList (map JStr (request_checks request))) /\
        py_get (response_record response) "snapshot"
        = Ok (JDict [("num_members",
                      JInt (Z.of_nat (member_count (_metrics target))));
                     ("total_amount", JFloat (total_amount (_metrics target)));
                     ("risk_score", JInt (risk_score (_metrics target)))])
  end.

(** Two collections in which the same hashable values are found. *)
Definition same_members (s l : list json) : Prop :=
  forall x, hashable x = true ->
            existsb (py_eqb x) s = existsb (py_eqb x) l.

(** No key of the list equals one that comes before it. *)
Fixpoint distinct_keys (ks : list EdgeKey) : Prop :=
  match ks with
  | [] => True
  | k :: rest =>
      (forall k', In k' rest -> key_eqb k' k = false) /\ distinct_keys rest
  end.

(** The edge entry that a sequence of contributions builds up. *)
Definition accumulate_entry (data : EdgeData) (c : Contribution) : EdgeData :=
  entry_update (c_amount c) (c_direction c) data.

Definition entry_of (cs : list Contribution) : EdgeData :=
  fold_left accumulate_entry cs fresh_entry.

Definition accumulate_edge (edges : list (EdgeKey * EdgeData))
  (c : Contribution) : list (EdgeKey * EdgeData) :=
  edges_accumulate (c_key c) (c_amount c) (c_direction c) edges.

Definition string_le (a b : string) : Prop := String.leb a b = true.

(** An emitted edge sums up the contributions to its ordered pair: their
    amounts, their number and the sorted set of their non-empty
    case-normalized directions. *)
Definition edge_summarizes (cs : list Contribution) (e : NetworkEdge) : Prop :=
  let mine := contributing (edge_key e) cs in
  mine <> [] /\
  edge_amount e = py_round2 (fsum (map c_amount mine)) /\
  edge_count e = length mine /\
  Sorted string_le (edge_directions e) /\
  NoDup (edge_directions e) /\
  forall s, In s (edge_directions e) <->
            s <> "" /\ exists c, In c mine /\ c_direction c = s.

(** A key whose two components can be hashed and equal themselves. *)
Definition proper_key (k : EdgeKey) : Prop :=
  hashable (fst k) = true /\ hashable (snd k) = true /\ key_eqb k k = true.

(** The invariant of the edge dict while the contributions [cs] are
    processed. *)
Definition edges_invariant (edges : list (EdgeKey * EdgeData))
  (cs : list Contribution) : Prop :=
  distinct_keys (map fst edges) /\
  Forall (fun kd => proper_key (fst kd) /\
                    contributing (fst kd) cs <> [] /\
                    snd kd = entry_of (contributing (fst kd) cs)) edges /\
  Forall (fun c => proper_key (c_key c) /\
                   existsb (fun kd => key_eqb (c_key c) (fst kd)) edges = true)
         cs.

(* ================================================================== *)
(** ** The other views of the service *)

(* ------------------------------------------------------------------ *)
(** *** Validation of the response models

    The response models of [models.py] that the views below build are
    pydantic models: their constructors validate the arguments and raise
    [ValidationError], a [ValueError], on a value of the wrong type.  A
    [str], [None] for an optional field and a [dict] are taken as they
    are, and a list is no string; what becomes of the other values depends
    on the version of pydantic: one coerces a number given for a [str]
    field and what [dict] accepts given for a [Dict] field, another rejects
    them. *)

Definition ValidationError : exn := ValueError "validation error".

(** What pydantic makes of a number given for a field of type [str];
    [None] is [ValidationError]. *)
Variable coerce_str : json -> option string.
(** What pydantic makes of a value that is not a dict, given for a field of
    type [Dict[str, Any]]; [None] is [ValidationError]. *)
Variable coerce_dict : json -> option dict.

(** A field of type [str]. *)
Definition validate_str (v : json) : result string :=
  match v with
  | JStr s => Ok s
  | JBool _ | JInt _ | JFloat _ =>
      match coerce_str v with
      | Some s => Ok s
      | None => Raise ValidationError
      end
  | _ => Raise ValidationError
  end.

(** A field of type [Optional[str]]. *)
Definition validate_optional_str (v : json) : result (option string) :=
  match v with
  | JNull => Ok None
  | _ => s <- validate_str v ;; Ok (Some s)
  end.

(** An item of a field of type [List[Dict[str, Any]]]; the keys of a JSON
    object are strings. *)
Definition validate_dict (v : json) : result dict :=
  match v with
  | JDict d => Ok d
  | _ =>
      match coerce_dict v with
      | Some d => Ok d
      | None => Raise ValidationError
      end
  end.

(* ------------------------------------------------------------------ *)
(** *** Transactions of the detail view *)

(** A date bound as the API passes it on: a timezone-aware instant, or a
    naive wall-clock time when the query carries no offset. *)
Inductive date_bound : Type :=
| AwareBound (t : datetime)
| NaiveBound (wall : Z).

(** [TransactionFilters]. *)
Record TransactionFilters : Type := mkTransactionFilters {
  min_amount : pyfloat;
  max_amount : pyfloat;
  tx_start_date : option date_bound;
  tx_end_date : option date_bound
}.

(** [ts < bound] and [ts > bound] for the timezone-aware [ts]: the
    comparison with a naive datetime raises. *)
Definition ts_before (t : datetime) (bound : date_bound) : result bool :=
  match bound with
  | AwareBound b => Ok (t <? b)%Z
  | NaiveBound _ => Raise TypeError
  end.

Definition ts_after (t : datetime) (bound : date_bound) : result bool :=
  match bound with
  | AwareBound b => Ok (t >? b)%Z
  | NaiveBound _ => Raise TypeError
  end.

(** [TransactionFilters()]. *)
Definition default_transaction_filters : TransactionFilters :=
  mkTransactionFilters fzero (FInf false) None None.

(** [tx.get("parsed_timestamp") or parse_iso_datetime(tx.get("timestamp"))]
    on an item of [_transactions]. *)
Definition tx_timestamp (tx : ParsedTx) : result (option datetime) :=
  match parsed_timestamp tx with
  | Some t => Ok (Some t)
  | None => parse_iso_datetime (dict_get (tx_fields tx) "timestamp")
  end.

(** One pass of the loop body of [_apply_transaction_filters]: [true] when
    the transaction reaches [filtered.append(tx)]. *)
Definition transaction_kept (filters : TransactionFilters) (tx : ParsedTx)
  : result bool :=
  let amount := dict_get (tx_fields tx) "amount" in
  amount_value <- (if is_number amount then float_of_number amount
                   else Ok fzero) ;;
  if flt amount_value (min_amount filters)
     || fgt amount_value (max_amount filters)
  then Ok false
  else
    ts <- tx_timestamp tx ;;
    early <- match tx_start_date filters with
             | Some bound =>
                 match ts with
                 | None => Ok true
                 | Some t => ts_before t bound
                 end
             | None => Ok false
             end ;;
    if early then Ok false
    else
      late <- match tx_end_date filters with
              | Some bound =>
                  match ts with
                  | None => Ok true
                  | Some t => ts_after t bound
                  end
              | None => Ok false
              end ;;
      if late then Ok false else Ok true.

Definition _apply_transaction_filters (group : EnrichedGroup)
  (filters : TransactionFilters) : result (list ParsedTx) :=
  let transactions := _transactions group in
  foldM (fun filtered tx =>
           keep <- transaction_kept filters tx ;;
           Ok (if keep then filtered ++ [tx] else filtered))
        transactions [].

(** [TransactionModel] of [models.py]. *)
Record TransactionModel : Type := mkTransactionModel {
  tm_transaction_id : option string;
  tm_direction : option string;
  tm_counterparty_id : option string;
  tm_amount : option pyfloat;
  tm_currency : option string;
  tm_timestamp : option datetime
}.

(** The body of the loop of [_convert_transactions], on an item of
    [_transactions]. *)
Definition convert_transaction (tx : ParsedTx) : result TransactionModel :=
  timestamp <- tx_timestamp tx ;;
  let amount := dict_get (tx_fields tx) "amount" in
  converted <- (if is_number amount
                then a <- float_of_number amount ;; Ok (Some a)
                else Ok None) ;;
  transaction_id <-
    validate_optional_str (dict_get (tx_fields tx) "transaction_id") ;;
  direction <- validate_optional_str (dict_get (tx_fields tx) "direction") ;;
  counterparty_id <-
    validate_optional_str (dict_get (tx_fields tx) "counterparty_id") ;;
  currency <- validate_optional_str (dict_get (tx_fields tx) "currency") ;;
  Ok (mkTransactionModel transaction_id direction counterparty_id converted
        currency timestamp).

Definition _convert_transactions (raw_transactions : list ParsedTx)
  : result (list TransactionModel) :=
  mapM convert_transaction raw_transactions.

(* ------------------------------------------------------------------ *)
(** *** Snapshot listing, reported ids and cache refresh *)

Record SnapshotListResponse : Type := mkSnapshotListResponse {
  snapshot_items : list dict;
  snapshot_total : nat;
  snapshot_limit : Z
}.

Definition list_snapshots (svc : GroupService) (limit : Z)
  : result SnapshotListResponse * GroupService :=
  let '(snapshots, svc1) := _load_snapshots svc in
  let limited := py_slice_to limit snapshots in
  (items <- mapM validate_dict limited ;;
   Ok (mkSnapshotListResponse items (length snapshots) limit),
   svc1).

(** [_reported_ids]: the truthy ["group_id"] of every ledger entry. *)
Definition reported_ids_of (reports : list json) : result (list json) :=
  foldM (fun ids entry =>
           group_id <- py_get entry "group_id" ;;
           Ok (if truthy group_id then ids ++ [group_id] else ids))
        reports [].

Definition _reported_ids (svc : GroupService)
  : result (list json) * GroupService :=
  let '(reports, svc1) := _load_reports svc in
  (reported_ids_of reports, svc1).

(** [load_summary] of [data_access.py]. *)
Definition load_summary (f : FileState) : dict :=
  match safe_read_json f with
  | Some (JDict payload) => payload
  | _ => []
  end.

(** The service with the summary artifact and its cache, which the claims
    about groups, snapshots and reports do not need. *)
Record Service : Type := mkService {
  core : GroupService;
  summary_file : FileState;
  _summary_cache : option dict
}.

Definition _load_summary (s : Service) : dict * Service :=
  match _summary_cache s with
  | Some summary => (summary, s)
  | None =>
      let summary := load_summary (summary_file s) in
      (summary, mkService (core s) (summary_file s) (Some summary))
  end.

(** The four assignments of [refresh], three of them on the core. *)
Definition clear_caches (svc : GroupService) : GroupService :=
  mkGroupService (entities svc) (snapshots_file svc) (reports_file svc)
    None None None.

Definition refresh (s : Service) : Service :=
  mkService (clear_caches (core s)) (summary_file s) None.

(* ------------------------------------------------------------------ *)
(** *** Dataset summary *)

(** [str(v)] on a value that is not a [str]. *)
Variable str_of : json -> string.

(** [str(v)]. *)
Definition py_str (v : json) : string :=
  match v with
  | JStr s => s
  | _ => str_of v
  end.

Record RunOptionModel : Type := mkRunOptionModel {
  run_label : string;
  run_value : string;
  run_meta : dict
}.

Record DatasetSummaryResponse : Type := mkDatasetSummaryResponse {
  summary_runs : list RunOptionModel;
  summary_aggregated : SummaryStats;
  total_groups : nat;
  total_records : option Z;
  summary_metadata : dict
}.

(** The run option that [get_dataset_summary] builds from a mapping; the
    label goes through the validation of a [str] field. *)
Definition run_option (default_id : string) (entry : dict)
  : result RunOptionModel :=
  let run_id := py_str (py_or (dict_get entry "run_id") (JStr default_id)) in
  label <- validate_str (py_or (dict_get entry "label") (JStr run_id)) ;;
  Ok (mkRunOptionModel label run_id entry).

(** The value of an [int]; [bool] is a subclass of [int], and the field
    [total_records] holds its value as an [int]. *)
Definition int_value (v : json) : option Z :=
  match v with
  | JBool b => Some (if b then 1 else 0)%Z
  | JInt z => Some z
  | _ => None
  end.

(** The loop over [summary_payload["runs"]]. *)
Definition run_options (entries : list json) : result (list RunOptionModel) :=
  foldM (fun runs entry =>
           match entry with
           | JDict fields =>
               run <- run_option "run" fields ;; Ok (runs ++ [run])
           | _ => Ok runs
           end)
        entries [].

Definition get_dataset_summary (s : Service)
  : result DatasetSummaryResponse * Service :=
  match _load_groups (core s) with
  | (Raise e, core1) =>
      (Raise e, mkService core1 (summary_file s) (_summary_cache s))
  | (Ok groups, core1) =>
      let '(summary_payload, s1) :=
        _load_summary (mkService core1 (summary_file s) (_summary_cache s)) in
      let aggregated := summarize_groups groups in
      (runs <- match dict_get summary_payload "runs" with
               | JList entries => run_options entries
               | _ =>
                   match summary_payload with
                   | [] => Ok []
                   | _ =>
                       run <- run_option "current_run" summary_payload ;;
                       Ok [run]
                   end
               end ;;
       let runs :=
         match runs with
         | [] => [mkRunOptionModel "Current dataset" "current_run" []]
         | _ => runs
         end in
       let records := dict_get summary_payload "total_records" in
       Ok (mkDatasetSummaryResponse runs aggregated (length groups)
             (int_value records) summary_payload),
       s1)
  end.

(* ------------------------------------------------------------------ *)
(** *** Settings *)

(** [DEFAULT_REPORT_CHECKS] of [config.py]. *)
Definition DEFAULT_REPORT_CHECKS : list string :=
  ["shared tax id"; "rapid transfer chain"; "circular flow";
   "high velocity counterparties"; "mismatched jurisdiction"].

Record AppSettings : Type := mkAppSettings {
  settings_title : string;
  default_highlight_reported : bool;
  default_show_summaries : bool;
  report_checks : list string
}.

(** [v.get(k, default)] on a value of unknown type. *)
Definition py_get_default (v : json) (k : string) (default : json)
  : result json :=
  match v with
  | JDict d => Ok (dict_get_default d k default)
  | _ => Raise AttributeError
  end.

(** The strings of a list whose items are all [str]. *)
Fixpoint all_strings (items : list json) : option (list string) :=
  match items with
  | [] => Some []
  | JStr s :: rest => option_map (cons s) (all_strings rest)
  | _ :: _ => None
  end.

(** [AppSettings.from_payload]. *)
Definition from_payload (payload : json) : result AppSettings :=
  let ui :=
    match payload with
    | JDict d => dict_get_default d "ui" (JDict [])
    | _ => JDict []
    end in
  let reporting :=
    match payload with
    | JDict d => dict_get_default d "reporting" (JDict [])
    | _ => JDict []
    end in
  title <- py_get ui "title" ;;
  let title := py_str (py_or title (JStr "Entity Resolution Explorer")) in
  highlight <- py_get_default ui "defaultHighlightReported" (JBool true) ;;
  show_summaries <- py_get_default ui "defaultShowSummaries" (JBool true) ;;
  let raw_checks :=
    match reporting with
    | JDict d => dict_get d "checks"
    | _ => JNull
    end in
  let checks :=
    match raw_checks with
    | JList items =>
        match all_strings items with
        | Some strings =>
            match map strip
                    (filter (fun item => str_nonempty (strip item)) strings)
            with
            | [] => DEFAULT_REPORT_CHECKS
            | checks => checks
            end
        | None => DEFAULT_REPORT_CHECKS
        end
    | _ => DEFAULT_REPORT_CHECKS
    end in
  Ok (mkAppSettings title (truthy highlight) (truthy show_summaries) checks).

(* ================================================================== *)
(** ** Vocabulary for the other views *)

(** The amount of a transaction as a float, when it is a number. *)
Definition numeric_amount (tx : ParsedTx) : option pyfloat :=
  let amount := dict_get (tx_fields tx) "amount" in
  if is_number amount then
    match float_of_number amount with
    | Ok a => Some a
    | Raise _ => None
    end
  else None.

Definition numeric_amounts (txs : list ParsedTx) : list pyfloat :=
  flat_map (fun tx => option_list (numeric_amount tx)) txs.

Definition parsed_timestamps (txs : list ParsedTx) : list datetime :=
  flat_map (fun tx => option_list (parsed_timestamp tx)) txs.

Definition model_amounts (models : list TransactionModel) : list pyfloat :=
  flat_map (fun m => option_list (tm_amount m)) models.

(** An item of [_transactions] as enrichment leaves it: the timestamp it
    carries is the one its ["timestamp"] parses to, and its amount, when a
    number, converts to a float. *)
Definition consistent_tx (tx : ParsedTx) : Prop :=
  parse_iso_datetime (dict_get (tx_fields tx) "timestamp")
  = Ok (parsed_timestamp tx) /\
  (is_number (dict_get (tx_fields tx) "amount") = true ->
   exists a, float_of_number (dict_get (tx_fields tx) "amount") = Ok a).

(** The amount that the transaction filter compares: 0 for an amount that
    is not a number. *)
Definition filter_amount (tx : ParsedTx) : pyfloat :=
  match numeric_amount tx with
  | Some a => a
  | None => fzero
  end.

(** Transaction filters whose date bounds are timezone-aware. *)
Definition aware_filters (lo hi : pyfloat) (start finish : option datetime)
  : TransactionFilters :=
  mkTransactionFilters lo hi (option_map AwareBound start)
    (option_map AwareBound finish).

(** The predicate of the transaction filter with the amount range
    [lo .. hi] and the timezone-aware date bounds [start] and [finish]. *)
Definition tx_passes (lo hi : pyfloat) (start finish : option datetime)
  (tx : ParsedTx) : bool :=
  negb (flt (filter_amount tx) lo) &&
  negb (fgt (filter_amount tx) hi) &&
  match start with
  | Some bound =>
      match parsed_timestamp tx with
      | Some t => (bound <=? t)%Z
      | None => false
      end
  | None => true
  end &&
  match finish with
  | Some bound =>
      match parsed_timestamp tx with
      | Some t => (t <=? bound)%Z
      | None => false
      end
  | None => true
  end.

(** A value that a field of type [Optional[str]] takes as it is. *)
Definition str_or_none (v : json) : bool :=
  match v with
  | JNull | JStr _ => true
  | _ => false
  end.

(** A transaction whose four text fields are strings or absent. *)
Definition text_fields (tx : ParsedTx) : bool :=
  str_or_none (dict_get (tx_fields tx) "transaction_id") &&
  str_or_none (dict_get (tx_fields tx) "direction") &&
  str_or_none (dict_get (tx_fields tx) "counterparty_id") &&
  str_or_none (dict_get (tx_fields tx) "currency").

Definition is_dict (v : json) : bool :=
  match v with
  | JDict _ => true
  | _ => false
  end.

Definition is_str (v : json) : bool :=
  match v with
  | JStr _ => true
  | _ => false
  end.

(** A transaction that the default filter shows: its amount is not a
    number, or is at least zero, or is NaN. *)
Definition shown_by_default (tx : ParsedTx) : bool :=
  match numeric_amount tx with
  | Some a => fle fzero a || is_nan a
  | None => true
  end.

(** One more amount in a running minimum or maximum. *)
Definition extend_min (o : option pyfloat) (a : pyfloat) : option pyfloat :=
  Some (match o with None => a | Some m => fmin m a end).
Definition extend_max (o : option pyfloat) (a : pyfloat) : option pyfloat :=
  Some (match o with None => a | Some m => fmax m a end).

(* ------------------------------------------------------------------ *)
(** *** Vocabulary for the nodes of the graph *)

(** [a is b or a == b]: the test by which a dict finds a key and [in]
    finds an item. *)
Definition py_same (a b : json) : Prop := a = b \/ py_eqb a b = true.

(** The node that [build_network_payload] stores for a group. *)
Definition group_node (reported_ids : list string) (highlight_reported : bool)
  (group : EnrichedGroup) (node : NetworkNode) : Prop :=
  let group_id := group_get group "group_id" in
  let metrics := _metrics group in
  truthy group_id = true /\
  exists highlight,
    (if highlight_reported then in_str_set group_id reported_ids
     else Ok false) = Ok highlight /\
    node = mkNetworkNode group_id (py_or (_display_name group) group_id)
             "group" (Some (risk_score metrics))
             (Some (member_count metrics))
             (Some (total_amount metrics)) highlight.

(** The node that it stores for the counterparty of a transaction. *)
Definition counterparty_node (tx : ParsedTx) (node : NetworkNode) : Prop :=
  let counterparty := dict_get (tx_fields tx) "counterparty_id" in
  truthy counterparty = true /\
  exists label,
    py_take 24 counterparty = Ok label /\
    node = mkNetworkNode counterparty label "counterparty"
             None None None false.

(** Where a node comes from: a group of the list that has an id, or a
    transaction of such a group. *)
Definition node_origin (reported_ids : list string) (highlight_reported : bool)
  (groups : list EnrichedGroup) (node : NetworkNode) : Prop :=
  (exists group,
     In group groups /\
     group_node reported_ids highlight_reported group node) \/
  (exists group tx,
     In group groups /\ truthy (group_get group "group_id") = true /\
     In tx (_transactions group) /\ counterparty_node tx node).

(** A hashable value that is found among the keys. *)
Definition endpoint (keys : list json) (e : json) : Prop :=
  hashable e = true /\ exists k, In k keys /\ py_same e k.

(** The invariant of the two dicts of [build_network_payload]: every node
    sits under its id and has an origin, no two keys are equal, and both
    ends of every edge key are found among the keys of the nodes. *)
Definition network_invariant (reported_ids : list string)
  (highlight_reported : bool) (groups : list EnrichedGroup)
  (st : NetworkState) : Prop :=
  Forall (fun kn => hashable (fst kn) = true /\
                    hashable (node_id (snd kn)) = true /\
                    py_same (node_id (snd kn)) (fst kn) /\
                    node_origin reported_ids highlight_reported groups
                      (snd kn))
         (fst st) /\
  ForallOrdPairs (fun a b => py_eqb a b = false) (map fst (fst st)) /\
  Forall (fun kd => endpoint (map fst (fst st)) (fst (fst kd)) /\
                    endpoint (map fst (fst st)) (snd (fst kd)))
         (snd st).

End Services.

(* ================================================================== *)
(** ** Sample instances and inputs

    The theorems hold for every function in place of the three library
    functions; the instances below let the examples run. *)

(** A coarse [log1p]: [ln 2] times the binary logarithm of the integer part
    of [1 + x]. *)
Definition log1p_approx (q : Q) : Q :=
  inject_Z (Z.log2 (Qfloor (1 + q))) * (693 # 1000).

Definition digit_of (c : ascii) : option Z :=
  let n := N_of_ascii c in
  if ((48 <=? n) && (n <=? 57))%N then Some (Z.of_N (n - 48)) else None.

Fixpoint scan_decimal (s : string) (num : Z) (den : positive)
  (dot any : bool) : option Q :=
  match s with
  | EmptyString => if any then Some (num # den) else None
  | String c rest =>
      if Ascii.eqb c "."%char then
        if dot then None else scan_decimal rest num den true any
      else
        match digit_of c with
        | Some d =>
            scan_decimal rest (10 * num + d)
              (if dot then (10 * den)%positive else den) dot true
        | None => None
        end
  end.

(** [float] on plain decimal literals such as ["12.5"] and ["-3"]. *)
Definition float_of_decimal (s : string) : option pyfloat :=
  match s with
  | String "-"%char rest =>
      option_map (fun q => FFin (Qred (- q))) (scan_decimal rest 0 1 false false)
  | _ => option_map (fun q => FFin (Qred q)) (scan_decimal s 0 1 false false)
  end.

(** [fromisoformat] on three timestamps of January 2024. *)
Definition fromisoformat_table (s : string) : option (Z * option Z) :=
  if String.eqb s "2024-01-01T00:00:00+00:00" then
    Some (1704067200000000, Some 0)
  else if String.eqb s "2024-01-02T00:00:00" then
    Some (1704153600000000, None)
  else if String.eqb s "2024-01-03T02:00:00+02:00" then
    Some (1704247200000000, Some 7200000000)
  else None.

(** The example of the specification: two members, an outgoing transaction
    of 100 without counterparty and an incoming one of 50 from [C1]. *)
Definition spec_example_group : dict :=
  [("group_id", JStr "G1");
   ("members", JList [JDict [("record_id", JStr "r1")];
                      JDict [("record_id", JStr "r2")]]);
   ("transactions",
    JList [JDict [("amount", JInt 100); ("direction", JStr "out")];
           JDict [("amount", JInt 50); ("direction", JStr "in");
                  ("counterparty_id", JStr "C1")]])].

Definition empty_group : EnrichedGroup :=
  mkEnrichedGroup []
    (mkMetrics 0 0 fzero 0 fzero None None None None 0) [] JNull.

(** The value of a call that is known to return. *)
Definition returned {A : Type} (default : A) (r : result A) : A :=
  match r with
  | Ok a => a
  | Raise _ => default
  end.

Definition enrich_sample (raw_group : dict) : EnrichedGroup :=
  returned empty_group (enrich_group log1p_approx fromisoformat_table raw_group).

Definition spec_example_enriched_group : EnrichedGroup :=
  Eval vm_compute in enrich_sample spec_example_group.

(** A group whose two amounts, written [1e999] and [-1e999] in its JSON
    file, total NaN. *)
Definition nan_total_group : dict :=
  [("group_id", JStr "G2");
   ("transactions",
    JList [JDict [("amount", JFloat (FInf false))];
           JDict [("amount", JFloat (FInf true))]])].

Definition nan_total_enriched : EnrichedGroup :=
  Eval vm_compute in enrich_sample nan_total_group.

(** A group with timestamps whose amounts total -20. *)
Definition negative_total_group : dict :=
  [("group_id", JStr "G3");
   ("members", JList [JDict [("record_id", JStr "r3")]]);
   ("transactions",
    JList [JDict [("amount", JInt 30); ("direction", JStr "IN");
                  ("counterparty_id", JStr "C1");
                  ("timestamp", JStr "2024-01-02T00:00:00")];
           JDict [("amount", JInt (-50)); ("direction", JStr "Debit");
                  ("counterparty_id", JStr "C2");
                  ("timestamp", JStr "2024-01-01T00:00:00Z")]])].

Definition negative_total_enriched : EnrichedGroup :=
  Eval vm_compute in enrich_sample negative_total_group.

Definition sample_groups : list EnrichedGroup :=
  [negative_total_enriched; nan_total_enriched; spec_example_enriched_group].

(** Totals between 100 and 1000. *)
Definition range_filters : GroupFilters :=
  mkGroupFilters 0 (FFin 100) (FFin 1000) None None false.

(** Reported groups seen on or after 2024-01-01T12:00:00Z with a score of
    at least 10. *)
Definition dated_filters : GroupFilters :=
  mkGroupFilters 10 (FFin (-100)) (FFin 1000) (Some 1704110400000000) None true.

(** A service over the three sample groups, with one snapshot file entry
    per member record and an empty report ledger. *)
Definition sample_service : GroupService :=
  mkGroupService
    [negative_total_group; nan_total_group; spec_example_group]
    (Present (Some (JList [JDict [("record_id", JStr "r1")];
                           JDict [("record_id", JStr "r9")];
                           JDict [("record_id", JStr "r2")]])))
    Missing None None None.

Definition sample_request : ReportCreateRequest :=
  mkReportCreateRequest "G3" "  circular flow " ["shared tax id"].

Definition sample_now : string := "2024-01-05T10:00:00".

(** Twenty-six snapshots of the member record [r1], told apart by their
    signature. *)
Definition crowded_snapshots : list json :=
  map (fun i => JDict [("record_id", JStr "r1");
                       ("signature", JInt (Z.of_nat i))])
      (seq 0 26).

Definition last_snapshot : json :=
  JDict [("record_id", JStr "r1"); ("signature", JInt 25)].

Definition crowded_service : GroupService :=
  mkGroupService [spec_example_group]
    (Present (Some (JList crowded_snapshots))) Missing None None None.

(** A dirty group file: a null [canonical_attributes] and a transaction
    whose amount is the string ["n/a"]. *)
Definition dirty_group : dict :=
  [("group_id", JStr "G4");
   ("canonical_attributes", JNull);
   ("transactions",
    JList [JDict [("counterparty_id", JStr "C9"); ("amount", JStr "n/a")]])].

Definition dirty_enriched : EnrichedGroup :=
  Eval vm_compute in enrich_sample dirty_group.

Definition one_snapshot_service : GroupService :=
  mkGroupService [dirty_group] (Present (Some (JList [JDict []])))
    Missing None None None.

(** Group files with an amount written [1e999], and with a numeric
    timestamp. *)
Definition infinite_amount_group : dict :=
  [("group_id", JStr "G5");
   ("transactions", JList [JDict [("amount", JFloat (FInf false))]])].

Definition numeric_timestamp_group : dict :=
  [("group_id", JStr "G6");
   ("transactions", JList [JDict [("amount", JInt 5);
                                  ("timestamp", JInt 1704067200)]])].

(** The two edges of the group [G3]: 30 received from [C1] under the
    direction ["IN"], 50 paid to [C2] under ["Debit"]. *)
Definition in_edge : NetworkEdge :=
  mkNetworkEdge (JStr "C1") (JStr "G3") (FFin 30) 1 ["in"].

Definition debit_edge : NetworkEdge :=
  mkNetworkEdge (JStr "G3") (JStr "C2") (FFin (-50)) 1 ["debit"].

Definition network_groups : list EnrichedGroup :=
  [negative_total_enriched; spec_example_enriched_group].

Definition sample_network : NetworkResponse :=
  Eval vm_compute in
    returned (mkNetworkResponse [] [])
      (build_network_payload float_of_decimal network_groups ["G3"] true).

(* ------------------------------------------------------------------ *)
(** *** Inputs for the other views *)

(** A pydantic that coerces nothing: a number is no string, and only a
    dict is a dict. *)
Definition reject_str (v : json) : option string := None.
Definition reject_dict (v : json) : option dict := None.

(** 2024-01-01T12:00:00Z. *)
Definition noon : datetime := 1704110400000000.

(** Amounts between -100 and 100, on or after [noon]. *)
Definition recent_transactions : TransactionFilters :=
  aware_filters (FFin (-100)) (FFin 100) (Some noon) None.

(** The same wall-clock time as a naive bound, as the query
    [start_date=2024-01-01T12:00:00] gives it. *)
Definition naive_transactions : TransactionFilters :=
  mkTransactionFilters (FFin (-100)) (FFin 100) (Some (NaiveBound noon)) None.

(** The transactions of the group [G3] that [recent_transactions] keeps:
    the one of 2024-01-02. *)
Definition recent_of_negative_total : list ParsedTx :=
  Eval vm_compute in
    filter (tx_passes (FFin (-100)) (FFin 100) (Some noon) None)
      (_transactions negative_total_enriched).

(** A service whose only group file holds an amount written [1e999]. *)
Definition unloadable_service : GroupService :=
  mkGroupService [infinite_amount_group] Missing Missing None None None.

(** A group whose only amount, -0.004, rounds to a total of zero. *)
Definition small_negative_group : dict :=
  [("group_id", JStr "G7");
   ("transactions", JList [JDict [("amount", JFloat (FFin (-4 # 1000)))]])].

Definition small_negative_enriched : EnrichedGroup :=
  Eval vm_compute in enrich_sample small_negative_group.

(** The node of the group [G3] in [sample_network], highlighted as
    reported. *)
Definition highlighted_node : NetworkNode :=
  Eval vm_compute in
    nth 0 (response_nodes sample_network)
      (mkNetworkNode JNull JNull "" None None None false).

(** [str] on [None] and on booleans; the examples apply it to nothing
    else. *)
Definition str_of_plain (v : json) : string :=
  match v with
  | JBool true => "True"
  | JBool false => "False"
  | _ => "None"
  end.

(** A settings file with a title and two checks, one of them blank. *)
Definition settings_payload : json :=
  JDict [("ui", JDict [("title", JStr "AML desk")]);
         ("reporting",
          JDict [("checks", JList [JStr "  shared tax id "; JStr "   "])])].

Definition sample_settings : AppSettings :=
  Eval vm_compute in
    returned (mkAppSettings "" false false [])
      (from_payload str_of_plain settings_payload).

(** The sample service with a summary file that is missing, and what
    [submit_report] makes of it for the report on [G3]. *)
Definition sample_app : Service := mkService sample_service Missing None.

Definition sample_report : ReportCreateResponse :=
  Eval vm_compute in
    returned (mkReportCreateResponse JNull 0)
      (fst (submit_report log1p_approx fromisoformat_table sample_now
              sample_service sample_request)).

Definition sample_service_after : GroupService :=
  Eval vm_compute in
    snd (submit_report log1p_approx fromisoformat_table sample_now
           sample_service sample_request).

(** The graph of the group [G3] alone, the reported ids being [G3] and
    [G2]. *)
Definition reported_network : NetworkResponse :=
  Eval vm_compute in
    returned (mkNetworkResponse [] [])
      (build_network_payload float_of_decimal [negative_total_enriched]
         ["G3"; "G2"] true).

(** The models of the transactions of the group [G3]. *)
Definition negative_total_models : list TransactionModel :=
  Eval vm_compute in
    returned []
      (_convert_transactions fromisoformat_table reject_str
         (_transactions negative_total_enriched)).

(** A group with a transaction whose id is a list. *)
Definition list_id_group : dict :=
  [("group_id", JStr "G8");
   ("transactions",
    JList [JDict [("transaction_id", JList [JInt 1]); ("amount", JInt 5)]])].

Definition list_id_enriched : EnrichedGroup :=
  Eval vm_compute in enrich_sample list_id_group.

(** A service whose snapshot file holds an item that is no dict. *)
Definition mixed_snapshots_service : GroupService :=
  mkGroupService [spec_example_group]
    (Present (Some (JList [JDict [("record_id", JStr "r1")]; JInt 1])))
    Missing None None None.

(** The response of [get_dataset_summary] on the sample service, whose
    summary file is missing. *)
Definition sample_summary : DatasetSummaryResponse :=
  Eval vm_compute in
    returned (mkDatasetSummaryResponse [] all_absent 0 None [])
      (fst (get_dataset_summary log1p_approx fromisoformat_table reject_str
              str_of_plain sample_app)).

(** A service without groups whose summary file labels the run with a
    list. *)
Definition list_label_app : Service :=
  mkService (mkGroupService [] Missing Missing None None None)
    (Present (Some (JDict [("label", JList [JStr "x"])]))) None.

(* ================================================================== *)
(** ** Properties *)

Unset Implicit Arguments.

(** The example of section 8 of the specification, enriched. *)
Example spec_example_enriched :
  option_map (fun g => (outgoing_ratio (_metrics g), total_amount (_metrics g),
                        risk_score (_metrics g)))
    (match enrich_group log1p_approx fromisoformat_table spec_example_group with
     | Ok g => Some g | Raise _ => None end)
  = Some (FFin (1 # 2), FFin 150, 47).
Proof. vm_compute. reflexivity. Qed.

(* ------------------------------------------------------------------ *)
(** *** Results *)

Lemma bind_ok {A B : Type} (m : result A) (k : A -> result B) (b : B) :
  bind m k = Ok b -> exists a, m = Ok a /\ k a = Ok b.
Proof.
  destruct m as [a | e]; simpl; intros H; [exists a; auto | discriminate].
Qed.

(** Splits a hypothesis [x <- m ;; k = Ok b] into its two halves. *)
Ltac bind_inv H :=
  let a := fresh "v" in
  let Ha := fresh "E" in
  apply bind_ok in H; destruct H as [a [Ha H]].

Lemma foldM_app {A S : Type} (body : S -> A -> result S) (xs ys : list A) (s : S) :
  foldM body (xs ++ ys) s = bind (foldM body xs s) (foldM body ys).
Proof.
  revert s; induction xs as [| x xs IH]; intros s; simpl.
  - reflexivity.
  - destruct (body s x) as [s' | e]; simpl; [apply IH | reflexivity].
Qed.

(* ------------------------------------------------------------------ *)
(** *** Risk scorer *)

Lemma clamp_score_bounds (r : Z) : (1 <= clamp_score r <= 99)%Z.
Proof.
  unfold clamp_score.
  destruct (r <? 99)%Z eqn:Hhi.
  - apply Z.ltb_lt in Hhi.
    destruct (r >? 1)%Z eqn:Hlo; [apply Z.gtb_lt in Hlo |]; lia.
  - simpl. lia.
Qed.

Lemma fadd_infinity_r (a : pyfloat) (s : bool) :
  is_finite (fadd a (FInf s)) = false.
Proof.
  destruct a as [| t | q]; simpl; try reflexivity.
  destruct (Bool.eqb t s); reflexivity.
Qed.

Lemma fadd_not_finite_l (a b : pyfloat) :
  is_finite a = false -> is_finite (fadd a b) = false.
Proof.
  destruct a as [| s | q]; simpl; intros H; try discriminate.
  - reflexivity.
  - destruct b as [| t | r]; try reflexivity.
    destruct (Bool.eqb s t); reflexivity.
Qed.

Lemma py_round_not_finite (x : pyfloat) :
  is_finite x = false -> raises (py_round x) = true.
Proof. destruct x; simpl; intros H; [reflexivity | reflexivity | discriminate]. Qed.

Section RiskScorer.

Variable log1p_fin : Q -> Q.

(** Whenever the scorer returns, its result is within the clamp. *)
Lemma compute_risk_score_bounds (mc tc : Z) (total : pyfloat) (uc : Z)
  (ratio : pyfloat) (r : Z) :
  compute_risk_score log1p_fin mc tc total uc ratio = Ok r ->
  (1 <= r <= 99)%Z.
Proof.
  unfold compute_risk_score. intros H.
  repeat bind_inv H.
  injection H as <-. apply clamp_score_bounds.
Qed.

(** C1 fails on the code: with a total amount of positive infinity the
    scorer raises for every choice of the other four arguments, because
    [round] is applied to the unclamped infinite score. *)
Theorem compute_risk_score_infinite_amount_raises
  (member_count transaction_count unique_counterparties : Z)
  (outgoing_ratio : pyfloat) :
  raises (compute_risk_score log1p_fin member_count transaction_count
            (FInf false) unique_counterparties outgoing_ratio) = true.
Proof.
  unfold compute_risk_score. simpl.
  destruct (Qeq_bool (log1p_fin 250000) 0); [reflexivity |]. simpl.
  destruct (float_of_int member_count); [| reflexivity].
  destruct (float_of_int transaction_count); [| reflexivity].
  destruct (float_of_int unique_counterparties); [| reflexivity].
  simpl.
  match goal with
  | |- raises (bind (py_round ?x) _) = true =>
      assert (Hx : is_finite x = false)
        by (apply fadd_not_finite_l, fadd_infinity_r);
      apply py_round_not_finite in Hx;
      destruct (py_round x); [discriminate | reflexivity]
  end.
Qed.

End RiskScorer.

(* ------------------------------------------------------------------ *)
(** *** Enrichment: the outgoing ratio *)

Lemma py_iter_len (v : json) (items : list json) :
  py_iter v = Ok items -> py_len v = Ok (length items).
Proof.
  destruct v; simpl; intros H; try discriminate; injection H as <-.
  - rewrite length_map. f_equal.
    induction s as [| c s IH]; simpl; [reflexivity | now rewrite IH].
  - reflexivity.
  - now rewrite length_map.
Qed.

Lemma fnorm_unit_interval (q : Q) :
  (0 <= q)%Q -> (q <= 1)%Q -> fnorm q = FFin (Qred q).
Proof.
  intros H0 H1. unfold fnorm.
  destruct (Qle_bool (inject_Z FLOAT_OVERFLOW) (Qabs q)) eqn:E; [| reflexivity].
  exfalso. apply Qle_bool_iff in E.
  rewrite Qabs_pos in E by exact H0.
  assert (Hbig : (inject_Z 1 < inject_Z FLOAT_OVERFLOW)%Q).
  { rewrite <- Zlt_Qlt. reflexivity. }
  apply (Qlt_irrefl 1%Q).
  eapply Qlt_le_trans; [exact Hbig |].
  eapply Qle_trans; [exact E | exact H1].
Qed.

Lemma ratio_in_unit_interval (k n : nat) :
  (k <= n)%nat -> (0 < n)%nat ->
  (0 <= inject_Z (Z.of_nat k) / inject_Z (Z.of_nat n))%Q /\
  (inject_Z (Z.of_nat k) / inject_Z (Z.of_nat n) <= 1)%Q.
Proof.
  intros Hkn Hn.
  assert (Hpos : (0 < inject_Z (Z.of_nat n))%Q).
  { change 0%Q with (inject_Z 0). rewrite <- Zlt_Qlt. lia. }
  split.
  - apply Qle_shift_div_l; [exact Hpos |].
    rewrite Qmult_0_l. change 0%Q with (inject_Z 0). rewrite <- Zle_Qle. lia.
  - apply Qle_shift_div_r; [exact Hpos |].
    rewrite Qmult_1_l. change 1%Q with (inject_Z 1). rewrite <- Zle_Qle. lia.
Qed.

Lemma fle_unit_interval (q : Q) :
  (0 <= q)%Q -> (q <= 1)%Q ->
  fle fzero (FFin (Qred q)) = true /\ fle (FFin (Qred q)) (FFin 1) = true.
Proof.
  intros H0 H1. unfold fle, fzero.
  split; apply Qle_bool_iff; rewrite Qred_correct; assumption.
Qed.

Lemma int_truediv_ratio (k n : nat) :
  (k <= n)%nat -> (0 < n)%nat ->
  int_truediv (Z.of_nat k) (Z.of_nat n)
  = Ok (FFin (Qred (inject_Z (Z.of_nat k) / inject_Z (Z.of_nat n)))).
Proof.
  intros Hkn Hn. unfold int_truediv.
  destruct (Z.of_nat n =? 0)%Z eqn:E; [apply Z.eqb_eq in E; lia |].
  destruct (ratio_in_unit_interval k n Hkn Hn) as [H0 H1].
  now rewrite (fnorm_unit_interval _ H0 H1).
Qed.

Section Enrichment.

Variable log1p_fin : Q -> Q.
Variable fromisoformat : string -> option (Z * option Z).

(** What a successful pass of the loop body did. *)
Lemma enrich_tx_inv (acc acc' : EnrichAcc) (tx : json) :
  enrich_tx fromisoformat acc tx = Ok acc' ->
  exists fields total lo hi counterparties direction ts,
    tx = JDict fields /\
    ((is_number (dict_get fields "amount") = true /\
      exists a, float_of_number (dict_get fields "amount") = Ok a /\
        total = fadd (acc_total acc) a /\
        lo = Some (match acc_min acc with None => a | Some m => fmin m a end) /\
        hi = Some (match acc_max acc with None => a | Some m => fmax m a end))
     \/ (is_number (dict_get fields "amount") = false /\
         total = acc_total acc /\ lo = acc_min acc /\ hi = acc_max acc)) /\
    py_lower (py_or (dict_get fields "direction") (JStr "")) = Ok direction /\
    parse_iso_datetime fromisoformat (dict_get fields "timestamp") = Ok ts /\
    acc' = mkEnrichAcc total counterparties
             (if str_in direction OUTGOING
              then S (acc_outgoing acc) else acc_outgoing acc)
             (match ts with
              | Some t => acc_timestamps acc ++ [t]
              | None => acc_timestamps acc
              end)
             lo hi (acc_parsed acc ++ [mkParsedTx fields ts]).
Proof.
  unfold enrich_tx. intros H.
  destruct tx as [| | | | | | fields]; try discriminate H.
  cbn [py_get py_dict bind] in H.
  bind_inv H. destruct v as [[total lo] hi].
  bind_inv H. rename v into counterparties.
  bind_inv H. rename v into direction.
  bind_inv H. rename v into ts.
  injection H as <-.
  exists fields, total, lo, hi, counterparties, direction, ts.
  split; [reflexivity |]. split; [| auto].
  destruct (is_number (dict_get fields "amount")) eqn:Hnum.
  - left. split; [reflexivity |].
    bind_inv E. injection E as <- <- <-. exists v. auto.
  - right. injection E as <- <- <-. auto.
Qed.

Lemma py_lower_or_outgoing (d : json) (direction : string) (fields : dict) :
  dict_get fields "direction" = d ->
  py_lower (py_or d (JStr "")) = Ok direction ->
  str_in direction OUTGOING = tx_is_outgoing (JDict fields).
Proof.
  intros Hd H. unfold tx_is_outgoing. rewrite Hd. unfold py_or in H.
  destruct (truthy d) eqn:Ht.
  - destruct d; try discriminate H. now injection H as <-.
  - injection H as <-. destruct d; try reflexivity.
    destruct s; [reflexivity | discriminate Ht].
Qed.

Lemma enrich_tx_outgoing (acc acc' : EnrichAcc) (tx : json) :
  enrich_tx fromisoformat acc tx = Ok acc' ->
  acc_outgoing acc' =
  (acc_outgoing acc + (if tx_is_outgoing tx then 1 else 0))%nat.
Proof.
  intros H. apply enrich_tx_inv in H.
  destruct H as (fields & total & lo & hi & cps & direction & ts
                 & -> & _ & Hd & _ & ->).
  cbn [acc_outgoing].
  rewrite (py_lower_or_outgoing _ direction fields eq_refl Hd).
  destruct (tx_is_outgoing (JDict fields)); lia.
Qed.

Lemma enrich_loop_outgoing (items : list json) (acc acc' : EnrichAcc) :
  foldM (enrich_tx fromisoformat) items acc = Ok acc' ->
  acc_outgoing acc' =
  (acc_outgoing acc + length (filter tx_is_outgoing items))%nat.
Proof.
  revert acc; induction items as [| tx items IH]; intros acc H; simpl in H.
  - injection H as <-. simpl. lia.
  - bind_inv H. apply enrich_tx_outgoing in E. apply IH in H.
    rewrite H, E. simpl. destruct (tx_is_outgoing tx); simpl; lia.
Qed.

(** C8: the outgoing ratio of an enriched group is the number of its
    transactions whose case-normalized direction is out, outgoing or debit
    divided by the number of its transactions, is 0 when there is no
    transaction, and lies in [0, 1]. *)
Theorem enrich_group_outgoing_ratio (raw_group : dict) (group : EnrichedGroup) :
  enrich_group log1p_fin fromisoformat raw_group = Ok group ->
  let n := length (raw_transactions raw_group) in
  let k := outgoing_transactions raw_group in
  transaction_count (_metrics group) = n /\
  outgoing_ratio (_metrics group)
  = (if Nat.eqb n 0 then fzero
     else FFin (Qred (inject_Z (Z.of_nat k) / inject_Z (Z.of_nat n)))) /\
  fle fzero (outgoing_ratio (_metrics group)) = true /\
  fle (outgoing_ratio (_metrics group)) (FFin 1) = true.
Proof.
  unfold enrich_group, raw_transactions, outgoing_transactions, raw_transactions.
  intros H.
  bind_inv H. rename v into items. rewrite E.
  bind_inv H. rename v into acc.
  rewrite (py_iter_len _ _ E) in H. simpl in H.
  apply enrich_loop_outgoing in E0. simpl in E0.
  assert (Hk : (length (filter tx_is_outgoing items) <= length items)%nat)
    by apply filter_length_le.
  bind_inv H. rename v into ratio.
  bind_inv H. bind_inv H. bind_inv H.
  injection H as <-. simpl.
  split; [reflexivity |].
  rewrite E0 in E1.
  destruct (length items =? 0)%nat eqn:En; simpl in E1.
  - injection E1 as <-. repeat split; reflexivity.
  - apply Nat.eqb_neq in En.
    rewrite int_truediv_ratio in E1 by lia.
    injection E1 as <-.
    destruct (ratio_in_unit_interval (length (filter tx_is_outgoing items))
                (length items)) as [H0 H1]; [lia | lia |].
    destruct (fle_unit_interval _ H0 H1) as [Hlo Hhi]. auto.
Qed.

End Enrichment.

(** The theorem above at the example of the specification. *)
Lemma enrich_group_outgoing_ratio_witness :
  enrich_group log1p_approx fromisoformat_table spec_example_group
  = Ok spec_example_enriched_group /\
  (let n := length (raw_transactions spec_example_group) in
   let k := outgoing_transactions spec_example_group in
   transaction_count (_metrics spec_example_enriched_group) = n /\
   outgoing_ratio (_metrics spec_example_enriched_group)
   = (if Nat.eqb n 0 then fzero
      else FFin (Qred (inject_Z (Z.of_nat k) / inject_Z (Z.of_nat n)))) /\
   fle fzero (outgoing_ratio (_metrics spec_example_enriched_group)) = true /\
   fle (outgoing_ratio (_metrics spec_example_enriched_group)) (FFin 1) = true).
Proof.
  split.
  - vm_compute. reflexivity.
  - apply (enrich_group_outgoing_ratio log1p_approx fromisoformat_table
             spec_example_group).
    vm_compute. reflexivity.
Defined.

(* ------------------------------------------------------------------ *)
(** *** The order on floats *)

Lemma fle_not_nan (a b : pyfloat) :
  fle a b = true -> is_nan a = false /\ is_nan b = false.
Proof. destruct a as [| [] |], b as [| [] |]; simpl; intros H; auto; discriminate. Qed.

Lemma fle_refl (a : pyfloat) : is_nan a = false -> fle a a = true.
Proof.
  destruct a as [| [] | q]; simpl; intros H; try reflexivity; try discriminate.
  apply Qle_bool_iff, Qle_refl.
Qed.

Lemma fle_trans (a b c : pyfloat) :
  fle a b = true -> fle b c = true -> fle a c = true.
Proof.
  destruct a as [| [] | x], b as [| [] | y], c as [| [] | z]; simpl;
    intros H1 H2; try reflexivity; try discriminate.
  apply Qle_bool_iff. apply Qle_bool_iff in H1, H2.
  eapply Qle_trans; eassumption.
Qed.

Lemma flt_fle (a b : pyfloat) : flt a b = true -> fle a b = true.
Proof.
  destruct a as [| [] | x], b as [| [] | y]; simpl; intros H;
    try reflexivity; try discriminate.
  apply Qle_bool_iff. apply negb_true_iff in H.
  apply Qlt_le_weak, Qnot_le_lt. intros Hle.
  apply Qle_bool_iff in Hle. congruence.
Qed.

Lemma not_flt_fle (a b : pyfloat) :
  is_nan a = false -> is_nan b = false -> negb (flt a b) = fle b a.
Proof.
  destruct a as [| [] | x], b as [| [] | y]; simpl; intros Ha Hb;
    try reflexivity; try discriminate.
  apply negb_involutive.
Qed.

Lemma fmin_nan (a : pyfloat) : fmin FNaN a = FNaN.
Proof. unfold fmin. now destruct a as [| [] |]. Qed.

Lemma fmax_nan (a : pyfloat) : fmax FNaN a = FNaN.
Proof. unfold fmax, fgt. now destruct a as [| [] |]. Qed.

Lemma fmin_le (m a : pyfloat) :
  is_nan m = false -> is_nan (fmin m a) = false /\ fle (fmin m a) m = true.
Proof.
  intros Hm. unfold fmin. destruct (flt a m) eqn:E.
  - apply flt_fle in E. split; [apply (fle_not_nan _ _ E) | exact E].
  - split; [exact Hm | now apply fle_refl].
Qed.

Lemma fmax_ge (m a : pyfloat) :
  is_nan m = false -> is_nan (fmax m a) = false /\ fle m (fmax m a) = true.
Proof.
  intros Hm. unfold fmax, fgt. destruct (flt m a) eqn:E.
  - apply flt_fle in E. split; [apply (fle_not_nan _ _ E) | exact E].
  - split; [exact Hm | now apply fle_refl].
Qed.

Lemma fmin_list_nan (xs : list pyfloat) : fmin_list FNaN xs = FNaN.
Proof.
  unfold fmin_list. induction xs as [| a xs IH]; simpl;
    [reflexivity | now rewrite fmin_nan].
Qed.

Lemma fmax_list_nan (xs : list pyfloat) : fmax_list FNaN xs = FNaN.
Proof.
  unfold fmax_list. induction xs as [| a xs IH]; simpl;
    [reflexivity | now rewrite fmax_nan].
Qed.

Lemma fmin_list_le (xs : list pyfloat) (x : pyfloat) :
  is_nan x = false -> fle (fmin_list x xs) x = true.
Proof.
  unfold fmin_list. revert x.
  induction xs as [| a xs IH]; intros x Hx; simpl.
  - now apply fle_refl.
  - destruct (fmin_le x a Hx) as [Hn Hle].
    eapply fle_trans; [apply IH, Hn | exact Hle].
Qed.

Lemma fmax_list_ge (xs : list pyfloat) (x : pyfloat) :
  is_nan x = false -> fle x (fmax_list x xs) = true.
Proof.
  unfold fmax_list. revert x.
  induction xs as [| a xs IH]; intros x Hx; simpl.
  - now apply fle_refl.
  - destruct (fmax_ge x a Hx) as [Hn Hle].
    eapply fle_trans; [exact Hle | apply IH, Hn].
Qed.

Lemma ordered_or_nan_refl (a : pyfloat) : ordered_or_nan a a.
Proof.
  destruct (is_nan a) eqn:E.
  - destruct a; try discriminate. right. auto.
  - left. now apply fle_refl.
Qed.

(** The minimum of a list and the maximum of another are ordered like
    their first items. *)
Lemma min_max_ordered (lo hi : pyfloat) (los his : list pyfloat) :
  ordered_or_nan lo hi ->
  ordered_or_nan (fmin_list lo los) (fmax_list hi his).
Proof.
  intros [Hle | [-> ->]].
  - left. destruct (fle_not_nan _ _ Hle) as [Hlo Hhi].
    eapply fle_trans; [apply fmin_list_le, Hlo |].
    eapply fle_trans; [exact Hle | apply fmax_list_ge, Hhi].
  - right. now rewrite fmin_list_nan, fmax_list_nan.
Qed.

Lemma zmin_list_le (xs : list Z) (x : Z) : (zmin_list x xs <= x)%Z.
Proof.
  unfold zmin_list. revert x. induction xs as [| a xs IH]; intros x; simpl.
  - lia.
  - specialize (IH (zmin x a)). unfold zmin in *.
    destruct (a <? x)%Z eqn:E; [apply Z.ltb_lt in E |]; lia.
Qed.

Lemma zmax_list_ge (xs : list Z) (x : Z) : (x <= zmax_list x xs)%Z.
Proof.
  unfold zmax_list. revert x. induction xs as [| a xs IH]; intros x; simpl.
  - lia.
  - specialize (IH (zmax x a)). unfold zmax in *.
    destruct (a >? x)%Z eqn:E; [apply Z.gtb_lt in E |]; lia.
Qed.

Lemma zmin_zmax_paired (xs : list Z) : paired Z.le (zmin_of xs) (zmax_of xs).
Proof.
  destruct xs as [| x xs]; simpl; [exact I |].
  pose proof (zmin_list_le xs x). pose proof (zmax_list_ge xs x). lia.
Qed.

(* ------------------------------------------------------------------ *)
(** *** Enrichment: invariants of the metrics *)

Lemma mapM_Forall2 {A B : Type} (f : A -> result B) (xs : list A) (ys : list B) :
  mapM f xs = Ok ys -> Forall2 (fun x y => f x = Ok y) xs ys.
Proof.
  revert ys; induction xs as [| x xs IH]; intros ys H; simpl in H.
  - injection H as <-. constructor.
  - bind_inv H. bind_inv H. injection H as <-. constructor; auto.
Qed.

Lemma mapM_Forall {A B : Type} (f : A -> result B) (P : B -> Prop)
  (xs : list A) (ys : list B) :
  (forall x y, f x = Ok y -> P y) -> mapM f xs = Ok ys -> Forall P ys.
Proof.
  intros HP H. apply mapM_Forall2 in H.
  induction H; constructor; eauto.
Qed.

Section EnrichmentInvariants.

Variable log1p_fin : Q -> Q.
Variable fromisoformat : string -> option (Z * option Z).

Lemma enrich_tx_minmax (acc acc' : EnrichAcc) (tx : json) :
  enrich_tx fromisoformat acc tx = Ok acc' ->
  paired ordered_or_nan (acc_min acc) (acc_max acc) ->
  paired ordered_or_nan (acc_min acc') (acc_max acc').
Proof.
  intros H Hinv. apply enrich_tx_inv in H.
  destruct H as (fields & total & lo & hi & cps & direction & ts
                 & -> & Hamount & _ & _ & ->).
  cbn [acc_min acc_max].
  destruct Hamount as [[_ (a & _ & _ & -> & ->)] | (_ & _ & -> & ->)];
    [| exact Hinv].
  destruct (acc_min acc) as [m |], (acc_max acc) as [M |]; simpl in *;
    try contradiction.
  - now apply (min_max_ordered m M [a] [a]).
  - apply ordered_or_nan_refl.
Qed.

Lemma enrich_loop_minmax (items : list json) (acc acc' : EnrichAcc) :
  foldM (enrich_tx fromisoformat) items acc = Ok acc' ->
  paired ordered_or_nan (acc_min acc) (acc_max acc) ->
  paired ordered_or_nan (acc_min acc') (acc_max acc').
Proof.
  revert acc; induction items as [| tx items IH]; intros acc H Hinv;
    simpl in H.
  - now injection H as <-.
  - bind_inv H. eapply IH; [exact H |]. eapply enrich_tx_minmax; eassumption.
Qed.

(** The metrics of an enriched group: the score is within the clamp and the
    transaction amount bounds are ordered. *)
Lemma enrich_group_metrics (raw_group : dict) (group : EnrichedGroup) :
  enrich_group log1p_fin fromisoformat raw_group = Ok group ->
  (1 <= risk_score (_metrics group) <= 99)%Z /\
  paired ordered_or_nan (min_transaction_amount (_metrics group))
    (max_transaction_amount (_metrics group)).
Proof.
  unfold enrich_group. intros H.
  bind_inv H. bind_inv H. rename v0 into acc.
  bind_inv H. bind_inv H. bind_inv H. bind_inv H. rename v3 into score.
  bind_inv H. injection H as <-. simpl.
  split.
  - eapply compute_risk_score_bounds; eassumption.
  - eapply enrich_loop_minmax; [eassumption | exact I].
Qed.

End EnrichmentInvariants.

(* ------------------------------------------------------------------ *)
(** *** Aggregation *)

Lemma tx_values_paired (groups : list EnrichedGroup) :
  Forall (fun g => paired ordered_or_nan
                     (min_transaction_amount (_metrics g))
                     (max_transaction_amount (_metrics g))) groups ->
  paired ordered_or_nan (fmin_of (tx_min_values groups))
    (fmax_of (tx_max_values groups)).
Proof.
  induction 1 as [| g groups Hg _ IH]; simpl; [exact I |].
  unfold tx_min_values, tx_max_values in *. simpl.
  destruct (min_transaction_amount (_metrics g)) as [lo |],
           (max_transaction_amount (_metrics g)) as [hi |];
    simpl in *; try contradiction.
  - now apply min_max_ordered.
  - exact IH.
Qed.

Lemma totals_paired (totals : list pyfloat) :
  paired ordered_or_nan (fmin_of totals) (fmax_of totals).
Proof.
  destruct totals as [| t totals]; simpl; [exact I |].
  apply min_max_ordered, ordered_or_nan_refl.
Qed.

Section Aggregation.

Variable log1p_fin : Q -> Q.
Variable fromisoformat : string -> option (Z * option Z).

(** C7, amended: the summary of no group has every field absent; in the
    summary of enriched groups every pair of bounds that is present is
    ordered, where a pair of float bounds may also be NaN on both sides. *)
Theorem summarize_groups_bounds (raw_groups : list dict)
  (groups : list EnrichedGroup) :
  mapM (enrich_group log1p_fin fromisoformat) raw_groups = Ok groups ->
  summarize_groups [] = all_absent /\
  stats_ordered ordered_or_nan (summarize_groups groups).
Proof.
  intros H. split; [reflexivity |].
  assert (Hinv : Forall (fun g => paired ordered_or_nan
                                    (min_transaction_amount (_metrics g))
                                    (max_transaction_amount (_metrics g)))
                   groups).
  { eapply mapM_Forall; [| exact H].
    intros raw g Hg. now apply enrich_group_metrics in Hg. }
  destruct groups as [| g groups]; [repeat split; exact I |].
  unfold stats_ordered, summarize_groups.
  cbn [min_total_amount max_total_amount min_risk_stat max_risk_stat
       min_date max_date min_tx_amount max_tx_amount].
  repeat split.
  - apply totals_paired.
  - apply zmin_zmax_paired.
  - apply zmin_zmax_paired.
  - now apply tx_values_paired.
Qed.

End Aggregation.

(** The theorem above at the group of the specification's example. *)
Lemma summarize_groups_bounds_witness :
  mapM (enrich_group log1p_approx fromisoformat_table) [spec_example_group]
  = Ok [spec_example_enriched_group] /\
  (summarize_groups [] = all_absent /\
   stats_ordered ordered_or_nan (summarize_groups [spec_example_enriched_group])).
Proof.
  split.
  - vm_compute. reflexivity.
  - apply (summarize_groups_bounds log1p_approx fromisoformat_table
             [spec_example_group]).
    vm_compute. reflexivity.
Defined.

(** C7 fails on the code as stated: the group whose amounts [1e999] and
    [-1e999] total NaN is enriched without error, and the summary of that
    one group has NaN for both total-amount bounds, which are not related
    by [<=]. *)
Lemma summarize_groups_nan_counterexample :
  mapM (enrich_group log1p_approx fromisoformat_table) [nan_total_group]
  = Ok [nan_total_enriched] /\
  min_total_amount (summarize_groups [nan_total_enriched]) = Some FNaN /\
  max_total_amount (summarize_groups [nan_total_enriched]) = Some FNaN /\
  ~ stats_ordered float_le (summarize_groups [nan_total_enriched]).
Proof.
  split; [vm_compute; reflexivity |].
  split; [reflexivity |]. split; [reflexivity |].
  intros [H _]. simpl in H. discriminate H.
Qed.

(* ------------------------------------------------------------------ *)
(** *** Filtering *)

Section FilterLoop.

Variable filters : GroupFilters.
Variable reported_ids : list string.

Let body (filtered : list EnrichedGroup) (group : EnrichedGroup) :=
  keep <- group_kept filters reported_ids group ;;
  Ok (if keep then filtered ++ [group] else filtered).

(** The loop appends, in order, the groups on which the body decides to
    keep. *)
Lemma filter_loop_returns (p : EnrichedGroup -> bool)
  (groups filtered : list EnrichedGroup) :
  Forall (fun g => group_kept filters reported_ids g = Ok (p g)) groups ->
  foldM body groups filtered = Ok (filtered ++ filter p groups).
Proof.
  intros H. revert filtered.
  induction H as [| g groups Hg _ IH]; intros filtered; simpl.
  - now rewrite app_nil_r.
  - unfold body at 1. rewrite Hg. simpl. rewrite IH.
    destruct (p g); [now rewrite <- app_assoc | reflexivity].
Qed.

Lemma filter_loop_inv (groups filtered result : list EnrichedGroup) :
  foldM body groups filtered = Ok result ->
  Forall (fun g => group_kept filters reported_ids g
                   = Ok (kept filters reported_ids g)) groups.
Proof.
  revert filtered; induction groups as [| g groups IH]; intros filtered H;
    simpl in H; constructor.
  - apply bind_ok in H. destruct H as [filtered' [E _]].
    unfold body in E. apply bind_ok in E. destruct E as [keep [E _]].
    unfold kept. now rewrite E.
  - apply bind_ok in H. destruct H as [filtered' [_ H]].
    eapply IH; exact H.
Qed.

End FilterLoop.

Lemma filter_groups_returns (p : EnrichedGroup -> bool)
  (groups : list EnrichedGroup) (filters : GroupFilters)
  (reported_ids : list string) :
  Forall (fun g => group_kept filters reported_ids g = Ok (p g)) groups ->
  filter_groups groups filters reported_ids = Ok (filter p groups).
Proof.
  intros H. unfold filter_groups.
  now rewrite (filter_loop_returns filters reported_ids p groups [] H).
Qed.

Lemma filter_groups_inv (groups result : list EnrichedGroup)
  (filters : GroupFilters) (reported_ids : list string) :
  filter_groups groups filters reported_ids = Ok result ->
  result = filter (kept filters reported_ids) groups /\
  Forall (fun g => group_kept filters reported_ids g
                   = Ok (kept filters reported_ids g)) groups.
Proof.
  intros H. pose proof H as Hinv.
  unfold filter_groups in Hinv. apply filter_loop_inv in Hinv.
  split; [| exact Hinv].
  rewrite (filter_groups_returns _ _ _ _ Hinv) in H. now injection H.
Qed.

Lemma filter_all (A : Type) (xs : list A) : filter (fun _ => true) xs = xs.
Proof. induction xs as [| x xs IH]; simpl; [reflexivity | now rewrite IH]. Qed.

(** C9: filtering the output of [filter_groups] again, with the same
    filters and reported ids, returns that output. *)
Theorem filter_groups_idempotent (groups filtered : list EnrichedGroup)
  (filters : GroupFilters) (reported_ids : list string) :
  filter_groups groups filters reported_ids = Ok filtered ->
  filter_groups filtered filters reported_ids = Ok filtered.
Proof.
  intros H. apply filter_groups_inv in H. destruct H as [-> Hall].
  rewrite (filter_groups_returns (fun _ => true)).
  - now rewrite filter_all.
  - rewrite Forall_forall in *. intros g Hg.
    apply filter_In in Hg. destruct Hg as [Hin Hkept].
    rewrite (Hall g Hin). now rewrite Hkept.
Qed.

(** The body of the loop computes the filter predicate, for a group whose
    id can be looked up in the reported set. *)
Lemma group_kept_passes (filters : GroupFilters) (reported_ids : list string)
  (group : EnrichedGroup) :
  hashable_id group = true ->
  group_kept filters reported_ids group = Ok (passes filters reported_ids group).
Proof.
  unfold hashable_id, group_kept, passes, overlaps_range, in_str_set, set_mem,
    is_reported.
  intros Hh. rewrite Hh.
  rewrite (Z.leb_antisym (risk_score (_metrics group)) (min_risk filters)).
  destruct (risk_score (_metrics group) <? min_risk filters)%Z; simpl;
    [reflexivity |].
  destruct (flt (total_amount (_metrics group)) (min_total filters)); simpl;
    [reflexivity |].
  destruct (fgt (total_amount (_metrics group)) (max_total filters)); simpl;
    [reflexivity |].
  destruct (reported_only filters); simpl.
  - destruct (existsb _ _); simpl; [| reflexivity].
    destruct (start_date filters) as [s |], (end_date filters) as [e |],
      (first_seen (_metrics group)) as [a |],
      (last_seen (_metrics group)) as [b |]; simpl; try reflexivity;
      rewrite ?Z.leb_antisym, ?Z.gtb_ltb;
      repeat match goal with
             | |- context [(?x <? ?y)%Z] => destruct (x <? y)%Z
             end; reflexivity.
  - destruct (start_date filters) as [s |], (end_date filters) as [e |],
      (first_seen (_metrics group)) as [a |],
      (last_seen (_metrics group)) as [b |]; simpl; try reflexivity;
      rewrite ?Z.leb_antisym, ?Z.gtb_ltb;
      repeat match goal with
             | |- context [(?x <? ?y)%Z] => destruct (x <? y)%Z
             end; reflexivity.
Qed.

(** The two readings of the amount clause agree when no NaN is involved. *)
Lemma passes_closed_range_agree (filters : GroupFilters)
  (reported_ids : list string) (group : EnrichedGroup) :
  is_nan (total_amount (_metrics group)) = false ->
  is_nan (min_total filters) = false ->
  is_nan (max_total filters) = false ->
  passes filters reported_ids group
  = passes_closed_range filters reported_ids group.
Proof.
  intros Ht Hlo Hhi. unfold passes, passes_closed_range, fgt.
  now rewrite (not_flt_fle _ _ Ht Hlo), (not_flt_fle _ _ Hhi Ht).
Qed.

(** C5, amended: on groups with hashable ids [filter_groups] returns, in
    the order of the input, exactly the groups that satisfy [passes], whose
    amount clause is "neither below [min_total] nor above [max_total]";
    when neither a bound nor a total is NaN these are the groups with
    [min_total <= total_amount <= max_total]. *)
Theorem filter_groups_passes (groups : list EnrichedGroup)
  (filters : GroupFilters) (reported_ids : list string) :
  Forall (fun g => hashable_id g = true) groups ->
  filter_groups groups filters reported_ids
  = Ok (filter (passes filters reported_ids) groups) /\
  (is_nan (min_total filters) = false ->
   is_nan (max_total filters) = false ->
   Forall (fun g => is_nan (total_amount (_metrics g)) = false) groups ->
   filter_groups groups filters reported_ids
   = Ok (filter (passes_closed_range filters reported_ids) groups)).
Proof.
  intros H.
  assert (Hpasses : filter_groups groups filters reported_ids
                    = Ok (filter (passes filters reported_ids) groups)).
  { apply filter_groups_returns.
    eapply Forall_impl; [| exact H].
    intros g Hg. now apply group_kept_passes. }
  split; [exact Hpasses |].
  intros Hlo Hhi Htotals. rewrite Hpasses. f_equal.
  apply filter_ext_in. intros g Hg.
  rewrite Forall_forall in Htotals.
  now apply passes_closed_range_agree; [apply Htotals | |].
Qed.

(** The theorem of C9 on the three sample groups. *)
Lemma filter_groups_idempotent_witness :
  filter_groups sample_groups range_filters []
  = Ok [nan_total_enriched; spec_example_enriched_group] /\
  filter_groups [nan_total_enriched; spec_example_enriched_group]
    range_filters []
  = Ok [nan_total_enriched; spec_example_enriched_group].
Proof.
  split.
  - vm_compute. reflexivity.
  - apply (filter_groups_idempotent sample_groups).
    vm_compute. reflexivity.
Defined.

(** The theorem of C5 on the three sample groups. *)
Lemma filter_groups_passes_witness :
  Forall (fun g => hashable_id g = true) sample_groups /\
  (filter_groups sample_groups dated_filters ["G3"; "G2"]
   = Ok (filter (passes dated_filters ["G3"; "G2"]) sample_groups) /\
   (is_nan (min_total dated_filters) = false ->
    is_nan (max_total dated_filters) = false ->
    Forall (fun g => is_nan (total_amount (_metrics g)) = false)
      sample_groups ->
    filter_groups sample_groups dated_filters ["G3"; "G2"]
    = Ok (filter (passes_closed_range dated_filters ["G3"; "G2"])
            sample_groups))).
Proof.
  split.
  - repeat constructor.
  - apply filter_groups_passes. repeat constructor.
Defined.

Example filter_groups_dated :
  filter_groups sample_groups dated_filters ["G3"; "G2"]
  = Ok [negative_total_enriched].
Proof. vm_compute. reflexivity. Qed.

(** C5 fails on the code as stated: with [min_total = 100] and
    [max_total = 1000] the enriched group whose amounts [1e999] and
    [-1e999] total NaN is returned, although [100 <= NaN <= 1000] does not
    hold. *)
Lemma filter_groups_nan_counterexample :
  enrich_group log1p_approx fromisoformat_table nan_total_group
  = Ok nan_total_enriched /\
  filter_groups sample_groups range_filters []
  = Ok [nan_total_enriched; spec_example_enriched_group] /\
  filter (passes_closed_range range_filters []) sample_groups
  = [spec_example_enriched_group] /\
  total_amount (_metrics nan_total_enriched) = FNaN /\
  fle (min_total range_filters) (total_amount (_metrics nan_total_enriched))
  = false.
Proof. repeat split; vm_compute; reflexivity. Qed.

Lemma fgt_infinity (t : pyfloat) : fgt t (FInf false) = false.
Proof. now destruct t as [| [] |]. Qed.

Lemma not_negative_total (t : pyfloat) :
  negb (flt t fzero) = fle fzero t || is_nan t.
Proof.
  destruct t as [| [] | q]; try reflexivity.
  unfold flt, fle, fzero, is_nan. now rewrite negb_involutive, orb_false_r.
Qed.

Section DefaultFilters.

Variable log1p_fin : Q -> Q.
Variable fromisoformat : string -> option (Z * option Z).

(** C10, amended: under the default filters [filter_groups] returns, of
    the enriched groups, exactly those whose total amount is at least zero
    or NaN, a negative total being excluded; when no total is NaN these
    are the groups whose total amount is at least zero. *)
Theorem filter_groups_default (raw_groups : list dict)
  (groups : list EnrichedGroup) (reported_ids : list string) :
  mapM (enrich_group log1p_fin fromisoformat) raw_groups = Ok groups ->
  filter_groups groups default_filters reported_ids
  = Ok (filter nonnegative_or_nan_total groups) /\
  (Forall (fun g => is_nan (total_amount (_metrics g)) = false) groups ->
   filter_groups groups default_filters reported_ids
   = Ok (filter nonnegative_total groups)).
Proof.
  intros H.
  assert (Hdefault : filter_groups groups default_filters reported_ids
                     = Ok (filter nonnegative_or_nan_total groups)).
  { apply filter_groups_returns.
    eapply mapM_Forall; [| exact H].
    intros raw g Hg. apply enrich_group_metrics in Hg.
    destruct Hg as [Hrisk _].
    unfold group_kept, default_filters, nonnegative_or_nan_total.
    cbn [min_risk min_total max_total start_date end_date reported_only
         is_some orb bind].
    destruct (risk_score (_metrics g) <? 0)%Z eqn:E;
      [apply Z.ltb_lt in E; lia |].
    rewrite fgt_infinity, orb_false_r, <- not_negative_total.
    now destruct (flt (total_amount (_metrics g)) fzero). }
  split; [exact Hdefault |].
  intros Htotals. rewrite Hdefault. f_equal.
  apply filter_ext_in. intros g Hg. rewrite Forall_forall in Htotals.
  unfold nonnegative_or_nan_total, nonnegative_total.
  now rewrite (Htotals g Hg), orb_false_r.
Qed.

End DefaultFilters.

(** The theorem of C10 on the three sample groups: the group whose amounts
    total -20 came through enrichment and is left out. *)
Lemma filter_groups_default_witness :
  mapM (enrich_group log1p_approx fromisoformat_table)
    [negative_total_group; nan_total_group; spec_example_group]
  = Ok sample_groups /\
  (filter_groups sample_groups default_filters []
   = Ok (filter nonnegative_or_nan_total sample_groups) /\
   (Forall (fun g => is_nan (total_amount (_metrics g)) = false)
      sample_groups ->
    filter_groups sample_groups default_filters []
    = Ok (filter nonnegative_total sample_groups))).
Proof.
  split.
  - vm_compute. reflexivity.
  - apply (filter_groups_default log1p_approx fromisoformat_table
             [negative_total_group; nan_total_group; spec_example_group]).
    vm_compute. reflexivity.
Defined.

Example filter_groups_default_sample :
  filter_groups sample_groups default_filters []
  = Ok [nan_total_enriched; spec_example_enriched_group].
Proof. vm_compute. reflexivity. Qed.

(** C10 fails on the code as stated: under the default filters the
    enriched group whose total is NaN is returned, and its total is not
    at least zero. *)
Lemma filter_groups_default_nan_counterexample :
  mapM (enrich_group log1p_approx fromisoformat_table) [nan_total_group]
  = Ok [nan_total_enriched] /\
  filter_groups [nan_total_enriched] default_filters []
  = Ok [nan_total_enriched] /\
  nonnegative_total nan_total_enriched = false.
Proof. repeat split; vm_compute; reflexivity. Qed.

(* ------------------------------------------------------------------ *)
(** *** Report ledger *)

Lemma str_nonempty_false (s : string) : str_nonempty s = false <-> s = "".
Proof. destruct s; simpl; split; intros H; auto; discriminate. Qed.

Lemma find_existsb {A : Type} (p : A -> bool) (xs : list A) :
  existsb p xs = match find p xs with Some _ => true | None => false end.
Proof.
  induction xs as [| x xs IH]; simpl; [reflexivity |].
  destruct (p x); simpl; [reflexivity | exact IH].
Qed.

Lemma ledger_unfold (svc : GroupService) :
  ledger svc = match _reports_cache svc with
               | Some reports => reports
               | None => load_reports (ensure_reports_file (reports_file svc))
               end.
Proof. unfold ledger, _load_reports. now destruct (_reports_cache svc). Qed.

Lemma ensure_reports_file_idempotent (f : FileState) :
  ensure_reports_file (ensure_reports_file f) = ensure_reports_file f.
Proof. now destruct f. Qed.

Section ReportLedger.

Variable log1p_fin : Q -> Q.
Variable fromisoformat : string -> option (Z * option Z).

Lemma load_groups_keeps_reports (svc svc1 : GroupService)
  (r : result (list EnrichedGroup)) :
  _load_groups log1p_fin fromisoformat svc = (r, svc1) ->
  reports_file svc1 = reports_file svc /\
  _reports_cache svc1 = _reports_cache svc.
Proof.
  unfold _load_groups.
  destruct (_groups_cache svc); [intros H; injection H as <- <-; auto |].
  destruct (mapM _ _); intros H; injection H as <- <-; auto.
Qed.

(** C3, amended: once the groups load, [submit_report] raises exactly for
    a reason that is empty after trimming (InvalidInput) or, the reason
    being non-empty, for an id that no loaded group carries (NotFound), and
    then leaves the ledger as it was; otherwise it appends one record, made
    of the trimmed reason, the checks and the target's member count, total
    amount and risk score. *)
Theorem submit_report_ledger (now : string) (svc svc1 : GroupService)
  (request : ReportCreateRequest) (groups : list EnrichedGroup) :
  _load_groups log1p_fin fromisoformat svc = (Ok groups, svc1) ->
  report_contract groups request svc
    (submit_report log1p_fin fromisoformat now svc request).
Proof.
  intros Hload. unfold report_contract, submit_report. cbv zeta.
  destruct (str_nonempty (strip (request_reason request))) eqn:Hreason;
    cbn [negb fst snd].
  - assert (Hne : strip (request_reason request) <> "").
    { intros Hempty. apply str_nonempty_false in Hempty. congruence. }
    rewrite Hload.
    apply load_groups_keeps_reports in Hload. destruct Hload as [Hfile Hcache].
    unfold request_known. rewrite find_existsb.
    destruct (find _ groups) as [target |] eqn:Hfind.
    + destruct (_load_reports _) as [reports svc3] eqn:Hreports.
      cbn [fst snd].
      split; [exact Hne |]. split; [reflexivity |].
      exists target. split; [reflexivity |].
      assert (Hledger : reports = ledger svc).
      { unfold _load_reports in Hreports. rewrite !ledger_unfold.
        cbn [set_reports_file _reports_cache reports_file] in Hreports.
        rewrite Hcache in Hreports. rewrite Hfile in Hreports.
        destruct (_reports_cache svc) as [cached |].
        - now injection Hreports as <- _.
        - injection Hreports as <- _.
          cbn [set_reports_file reports_file].
          now rewrite ensure_reports_file_idempotent. }
      cbn [response_record total_reports].
      assert (Hafter : ledger (_update_reports_cache svc3
                                 (reports ++ [report_payload now request target]))
                       = reports ++ [report_payload now request target]).
      { now rewrite ledger_unfold. }
      rewrite Hafter, <- Hledger.
      repeat split.
      * rewrite length_app. simpl. lia.
    + cbn [fst snd]. repeat split; try assumption.
      * right. auto.
      * rewrite !ledger_unfold. now rewrite Hfile, Hcache.
  - apply str_nonempty_false in Hreason.
    repeat split. left. auto.
Qed.

End ReportLedger.

(** The theorem of C3 on the sample service: a report on group [G3]. *)
Lemma submit_report_ledger_witness :
  _load_groups log1p_approx fromisoformat_table sample_service
  = (Ok sample_groups, set_groups_cache sample_service (Some sample_groups)) /\
  report_contract sample_groups sample_request sample_service
    (submit_report log1p_approx fromisoformat_table sample_now sample_service
       sample_request).
Proof.
  split.
  - vm_compute. reflexivity.
  - apply (submit_report_ledger log1p_approx fromisoformat_table sample_now
             sample_service
             (set_groups_cache sample_service (Some sample_groups))).
    vm_compute. reflexivity.
Defined.

Example submit_report_sample :
  let outcome := submit_report log1p_approx fromisoformat_table sample_now
                   sample_service sample_request in
  ledger (snd outcome)
  = [JDict [("timestamp", JStr "2024-01-05T10:00:00Z");
            ("group_id", JStr "G3");
            ("reason", JStr "circular flow");
            ("checks", JList [JStr "shared tax id"]);
            ("snapshot", JDict [("num_members", JInt 1);
                                ("total_amount", JFloat (FFin (-20)));
                                ("risk_score", JInt 21)])]].
Proof. vm_compute. reflexivity. Qed.

Example submit_report_blank_reason :
  fst (submit_report log1p_approx fromisoformat_table sample_now sample_service
         (mkReportCreateRequest "G3" "   " []))
  = Raise InvalidInput.
Proof. vm_compute. reflexivity. Qed.

Example submit_report_unknown_group :
  fst (submit_report log1p_approx fromisoformat_table sample_now sample_service
         (mkReportCreateRequest "G9" "reason" []))
  = Raise (NotFound "G9").
Proof. vm_compute. reflexivity. Qed.

(* ------------------------------------------------------------------ *)
(** *** Equality of hashable values *)

Lemma feq_sym (a b : pyfloat) : feq a b = feq b a.
Proof.
  destruct a as [| s | x], b as [| t | y]; simpl; try reflexivity.
  - now destruct s, t.
  - destruct (Qeq_bool x y) eqn:E1, (Qeq_bool y x) eqn:E2; try reflexivity.
    + apply Qeq_bool_iff in E1. symmetry in E1.
      apply Qeq_bool_iff in E1. congruence.
    + apply Qeq_bool_iff in E2. symmetry in E2.
      apply Qeq_bool_iff in E2. congruence.
Qed.

Lemma feq_trans (a b c : pyfloat) :
  feq a b = true -> feq b c = true -> feq a c = true.
Proof.
  destruct a as [| s | x], b as [| t | y], c as [| u | z]; simpl;
    intros H1 H2; try discriminate.
  - apply Bool.eqb_prop in H1, H2. subst. apply Bool.eqb_reflx.
  - apply Qeq_bool_iff in H1, H2. apply Qeq_bool_iff.
    now rewrite H1.
Qed.

(** [==] on a hashable value: numbers by value, strings by content. *)
Lemma py_eqb_hashable (a b : json) :
  hashable a = true ->
  py_eqb a b =
  match numeric a, numeric b with
  | Some f, Some g => feq f g
  | None, None =>
      match a, b with
      | JNull, JNull => true
      | JStr s, JStr t => String.eqb s t
      | _, _ => false
      end
  | _, _ => false
  end.
Proof.
  destruct a; simpl; intros H; try discriminate; destruct b; reflexivity.
Qed.

Lemma py_eqb_sym (a b : json) :
  hashable a = true -> hashable b = true -> py_eqb a b = py_eqb b a.
Proof.
  intros Ha Hb. rewrite (py_eqb_hashable a b Ha), (py_eqb_hashable b a Hb).
  destruct (numeric a), (numeric b); try reflexivity.
  - apply feq_sym.
  - destruct a, b; try reflexivity. apply String.eqb_sym.
Qed.

Lemma py_eqb_trans (a b c : json) :
  hashable a = true -> hashable b = true ->
  py_eqb a b = true -> py_eqb b c = true -> py_eqb a c = true.
Proof.
  intros Ha Hb.
  rewrite (py_eqb_hashable a b Ha), (py_eqb_hashable b c Hb),
    (py_eqb_hashable a c Ha).
  destruct (numeric a) as [f |] eqn:Na, (numeric b) as [g |] eqn:Nb;
    try discriminate.
  - destruct (numeric c) as [h |]; try discriminate. apply feq_trans.
  - destruct (numeric c) as [h |] eqn:Nc; try discriminate.
    destruct a; try discriminate; destruct b; try discriminate;
      destruct c; try discriminate; try reflexivity.
    intros H1 H2. apply String.eqb_eq in H1, H2. subst. apply String.eqb_refl.
Qed.

Lemma set_mem_ok (x : json) (s : list json) (b : bool) :
  set_mem x s = Ok b -> hashable x = true /\ b = existsb (py_eqb x) s.
Proof.
  unfold set_mem. destruct (hashable x); intros H; [| discriminate].
  injection H as <-. auto.
Qed.

Lemma existsb_trans (x y : json) (s : list json) :
  hashable x = true -> hashable y = true ->
  py_eqb x y = true -> existsb (py_eqb y) s = true ->
  existsb (py_eqb x) s = true.
Proof.
  intros Hx Hy Hxy H. apply existsb_exists in H. destruct H as [z [Hz Hyz]].
  apply existsb_exists. exists z. split; [exact Hz |].
  eapply py_eqb_trans; eassumption.
Qed.

Lemma set_add_same_members (y : json) (s s' l : list json) :
  set_add y s = Ok s' ->
  same_members s l -> same_members s' (l ++ [y]).
Proof.
  unfold set_add. intros H Hsl.
  bind_inv H. apply set_mem_ok in E. destruct E as [Hy ->].
  injection H as <-. intros x Hx.
  rewrite existsb_app. simpl. rewrite orb_false_r.
  destruct (existsb (py_eqb y) s) eqn:Hin.
  - rewrite (Hsl x Hx).
    destruct (py_eqb x y) eqn:Hxy; [| now rewrite orb_false_r].
    rewrite orb_true_r. rewrite <- (Hsl x Hx).
    exact (existsb_trans x y s Hx Hy Hxy Hin).
  - rewrite existsb_app. simpl. rewrite orb_false_r. now rewrite (Hsl x Hx).
Qed.

Lemma set_add_loop_same_members (ys : list json) (s s' l : list json) :
  foldM (fun acc y => set_add y acc) ys s = Ok s' ->
  same_members s l -> same_members s' (l ++ ys).
Proof.
  revert s l; induction ys as [| y ys IH]; intros s l H Hsl; simpl in H.
  - injection H as <-. now rewrite app_nil_r.
  - bind_inv H. replace (l ++ y :: ys) with ((l ++ [y]) ++ ys)
      by now rewrite <- app_assoc.
    eapply IH; [exact H |]. eapply set_add_same_members; eassumption.
Qed.

(* ------------------------------------------------------------------ *)
(** *** Snapshot correlation *)

(** A loop that appends the items on which a test succeeds computes a
    filter. *)
Lemma foldM_filter {A : Type} (test : A -> result bool) (p : A -> bool)
  (xs acc res : list A) :
  (forall x b, In x xs -> test x = Ok b -> b = p x) ->
  foldM (fun acc x => b <- test x ;; Ok (if b then acc ++ [x] else acc)) xs acc
  = Ok res ->
  res = acc ++ filter p xs.
Proof.
  revert acc; induction xs as [| x xs IH]; intros acc Hp H; simpl in H.
  - injection H as <-. simpl. now rewrite app_nil_r.
  - apply bind_ok in H. destruct H as [acc' [E H]].
    apply bind_ok in E. destruct E as [b [Eb E]]. injection E as <-.
    apply IH in H; [| intros y c Hy; apply Hp; now right].
    rewrite H. simpl. rewrite <- (Hp x b (or_introl eq_refl) Eb).
    destruct b; [now rewrite <- app_assoc | reflexivity].
Qed.

Lemma collect_member_ids_loop (members ids ids' l : list json) :
  foldM (fun ids m =>
           rid <- py_get m "record_id" ;;
           if truthy rid then set_add rid ids else Ok ids)
        members ids = Ok ids' ->
  same_members ids l ->
  same_members ids' (l ++ flat_map record_ids_of members).
Proof.
  revert ids l; induction members as [| m members IH]; intros ids l H Hs;
    simpl in H.
  - injection H as <-. simpl. now rewrite app_nil_r.
  - apply bind_ok in H. destruct H as [ids1 [E H]].
    destruct m as [| | | | | | fields]; try discriminate E.
    cbn [py_get bind] in E. cbn [flat_map record_ids_of].
    rewrite app_assoc. eapply IH; [exact H |].
    destruct (truthy (dict_get fields "record_id")).
    + eapply set_add_same_members; eassumption.
    + injection E as <-. now rewrite app_nil_r.
Qed.

Lemma collect_signatures_loop (members sigs sigs' l : list json) :
  foldM (fun sigs member =>
           history <- py_get member "signature_history" ;;
           signatures <- py_iter (py_or history (JList [])) ;;
           foldM (fun acc signature => set_add signature acc) signatures sigs)
        members sigs = Ok sigs' ->
  same_members sigs l ->
  same_members sigs' (l ++ flat_map signatures_of members).
Proof.
  revert sigs l; induction members as [| m members IH]; intros sigs l H Hs;
    simpl in H.
  - injection H as <-. simpl. now rewrite app_nil_r.
  - apply bind_ok in H. destruct H as [sigs1 [E H]].
    destruct m as [| | | | | | fields]; try discriminate E.
    cbn [py_get bind] in E.
    apply bind_ok in E. destruct E as [signatures [Eiter E]].
    cbn [flat_map signatures_of]. rewrite Eiter.
    rewrite app_assoc. eapply IH; [exact H |].
    eapply set_add_loop_same_members; eassumption.
Qed.

Lemma same_members_nil : same_members [] [].
Proof. intros x _. reflexivity. Qed.

(** The test of the loop over the snapshots decides the matching rule. *)
Lemma snapshot_matched_relevant (group : EnrichedGroup)
  (member_ids signature_set : list json) (snapshot : json) (hit : bool) :
  same_members member_ids (member_record_ids group) ->
  same_members signature_set (signature_union group) ->
  snapshot_matched member_ids signature_set (canonical_tax_id group) snapshot
  = Ok hit ->
  hit = snapshot_relevant group snapshot.
Proof.
  intros Hids Hsigs. unfold snapshot_matched, snapshot_relevant.
  destruct snapshot as [| | | | | | fields];
    try (intros H; now injection H as <-).
  intros H.
  apply bind_ok in H. destruct H as [by_record [E1 H]].
  apply set_mem_ok in E1. destruct E1 as [Hh1 ->].
  rewrite (Hids _ Hh1) in H. 
  destruct (existsb (py_eqb (dict_get fields "record_id"))
              (member_record_ids group)); [now injection H as <- |].
  apply bind_ok in H. destruct H as [by_signature [E2 H]].
  apply set_mem_ok in E2. destruct E2 as [Hh2 ->].
  rewrite (Hsigs _ Hh2) in H.
  destruct (existsb (py_eqb (dict_get fields "signature"))
              (signature_union group)); [now injection H as <- |].
  cbn [orb].
  destruct (truthy (canonical_tax_id group)); [| now injection H as <-].
  cbn [andb].
  destruct (dict_get_default fields "normalized_attributes" (JDict []));
    try discriminate H.
  cbn [py_get bind] in H. now injection H as <-.
Qed.

Lemma py_slice_to_length {A : Type} (limit : Z) (xs : list A) :
  (0 <= limit)%Z -> (Z.of_nat (length (py_slice_to limit xs)) <= limit)%Z.
Proof.
  intros H. unfold py_slice_to.
  destruct (limit <? 0)%Z eqn:E; [apply Z.ltb_lt in E; lia |].
  pose proof (firstn_le_length (Z.to_nat limit) xs). 
  assert (Hn : (length (firstn (Z.to_nat limit) xs) <= Z.to_nat limit)%nat).
  { rewrite length_firstn. lia. }
  lia.
Qed.

Lemma py_slice_to_all {A : Type} (limit : Z) (xs : list A) :
  (Z.of_nat (length xs) <= limit)%Z -> py_slice_to limit xs = xs.
Proof.
  intros H. unfold py_slice_to.
  destruct (limit <? 0)%Z eqn:E; [apply Z.ltb_lt in E; lia |].
  apply firstn_all2. lia.
Qed.

Lemma firstn_In {A : Type} (n : nat) (xs : list A) (x : A) :
  In x (firstn n xs) -> In x xs.
Proof.
  intros H. rewrite <- (firstn_skipn n xs). apply in_or_app. now left.
Qed.

Lemma py_slice_to_In {A : Type} (limit : Z) (xs : list A) (x : A) :
  In x (py_slice_to limit xs) -> In x xs.
Proof.
  unfold py_slice_to. destruct (limit <? 0)%Z; apply firstn_In.
Qed.

(** C6, amended: when the correlator returns, it returns the first [limit]
    of the snapshots that satisfy the matching rule, in the order of the
    snapshot list and each at most once; these are at most [limit]
    snapshots for a non-negative [limit], all the matching snapshots when
    there are no more than [limit] of them, and matching snapshots only. *)
Theorem select_relevant_snapshots_prefix (svc : GroupService)
  (group : EnrichedGroup) (limit : Z) (matched : list json) :
  fst (_select_relevant_snapshots svc group limit) = Ok matched ->
  let relevant := filter (snapshot_relevant group) (service_snapshots svc) in
  matched = py_slice_to limit relevant /\
  ((0 <= limit)%Z -> (Z.of_nat (length matched) <= limit)%Z) /\
  ((Z.of_nat (length relevant) <= limit)%Z -> matched = relevant) /\
  (forall snapshot, In snapshot matched ->
                    In snapshot (service_snapshots svc) /\
                    snapshot_relevant group snapshot = true).
Proof.
  unfold _select_relevant_snapshots, service_snapshots.
  destruct (_load_snapshots svc) as [snapshots svc1]. cbn [fst].
  intros H.
  assert (Hmatched : matched = py_slice_to limit
                                 (filter (snapshot_relevant group) snapshots)).
  { destruct snapshots as [| s0 rest].
    - cbn [fst] in H. injection H as <-. unfold py_slice_to. simpl.
      destruct (limit <? 0)%Z; rewrite ?firstn_nil; reflexivity.
    - cbn [fst] in H. remember (s0 :: rest) as snapshots eqn:Hs. clear Hs.
      apply bind_ok in H. destruct H as [members [Emembers H]].
      apply bind_ok in H. destruct H as [member_ids [Eids H]].
      apply bind_ok in H. destruct H as [signature_set [Esigs H]].
      apply bind_ok in H. destruct H as [tax_id [Etax H]].
      apply bind_ok in H. destruct H as [found [Efound H]].
      injection H as <-. f_equal.
      assert (Hmembers : group_members group = members).
      { unfold group_members. now rewrite Emembers. }
      assert (Htax : tax_id = canonical_tax_id group).
      { unfold canonical_tax_id.
        destruct (dict_get_default (group_fields group)
                    "canonical_attributes" (JDict [])); try discriminate Etax.
        cbn [py_get] in Etax. now injection Etax as <-. }
      subst tax_id.
      apply collect_member_ids_loop with (l := []) in Eids;
        [| exact same_members_nil].
      apply collect_signatures_loop with (l := []) in Esigs;
        [| exact same_members_nil].
      cbn [app] in Eids, Esigs.
      apply (foldM_filter
               (snapshot_matched member_ids signature_set
                  (canonical_tax_id group))
               (snapshot_relevant group) snapshots [] found) in Efound;
        [exact Efound |].
      intros x b _ Hx.
      eapply snapshot_matched_relevant; [| | exact Hx].
      + unfold member_record_ids. now rewrite Hmembers.
      + unfold signature_union. now rewrite Hmembers. }
  split; [exact Hmatched |]. split; [| split].
  - intros Hlimit. rewrite Hmatched. now apply py_slice_to_length.
  - intros Hfew. rewrite Hmatched. now apply py_slice_to_all.
  - intros snapshot Hin. rewrite Hmatched in Hin.
    apply py_slice_to_In in Hin. now apply filter_In in Hin.
Qed.

(** The theorem of C6 on the sample service: of the snapshots [r1], [r9]
    and [r2], the first and the third belong to members of the example
    group. *)
Lemma select_relevant_snapshots_prefix_witness :
  fst (_select_relevant_snapshots sample_service spec_example_enriched_group
         DEFAULT_LIMIT)
  = Ok [JDict [("record_id", JStr "r1")]; JDict [("record_id", JStr "r2")]] /\
  (let relevant := filter (snapshot_relevant spec_example_enriched_group)
                     (service_snapshots sample_service) in
   [JDict [("record_id", JStr "r1")]; JDict [("record_id", JStr "r2")]]
   = py_slice_to DEFAULT_LIMIT relevant /\
   ((0 <= DEFAULT_LIMIT)%Z ->
    (Z.of_nat (length [JDict [("record_id", JStr "r1")];
                       JDict [("record_id", JStr "r2")]])
     <= DEFAULT_LIMIT)%Z) /\
   ((Z.of_nat (length relevant) <= DEFAULT_LIMIT)%Z ->
    [JDict [("record_id", JStr "r1")]; JDict [("record_id", JStr "r2")]]
    = relevant) /\
   (forall snapshot,
      In snapshot [JDict [("record_id", JStr "r1")];
                   JDict [("record_id", JStr "r2")]] ->
      In snapshot (service_snapshots sample_service) /\
      snapshot_relevant spec_example_enriched_group snapshot = true)).
Proof.
  split.
  - vm_compute. reflexivity.
  - apply (select_relevant_snapshots_prefix sample_service
             spec_example_enriched_group DEFAULT_LIMIT).
    vm_compute. reflexivity.
Defined.

(** C6 fails on the code as stated: of twenty-six snapshots that all carry
    the record id of a member, the default limit returns the first
    twenty-five; the last one satisfies the matching rule and is not
    included. *)
Lemma select_relevant_snapshots_cap_counterexample :
  fst (_select_relevant_snapshots crowded_service spec_example_enriched_group
         DEFAULT_LIMIT)
  = Ok (firstn 25 crowded_snapshots) /\
  In last_snapshot (service_snapshots crowded_service) /\
  snapshot_relevant spec_example_enriched_group last_snapshot = true /\
  ~ In last_snapshot (firstn 25 crowded_snapshots).
Proof.
  split; [vm_compute; reflexivity |].
  split; [vm_compute; tauto |].
  split; [vm_compute; reflexivity |].
  intros H. vm_compute in H.
  repeat (destruct H as [H | H]; [discriminate H |]).
  exact H.
Qed.

Example select_relevant_snapshots_limit_one :
  fst (_select_relevant_snapshots sample_service spec_example_enriched_group 1)
  = Ok [JDict [("record_id", JStr "r1")]].
Proof. vm_compute. reflexivity. Qed.

(* ------------------------------------------------------------------ *)
(** *** Dirty input data *)

Section DirtyData.

Variable log1p_fin : Q -> Q.
Variable float_of_str : string -> option pyfloat.
Variable fromisoformat : string -> option (Z * option Z).

(** C2 fails on the code: the group with a null [canonical_attributes] and
    the amount ["n/a"] is enriched without error, after which
    [build_network_payload] raises [ValueError] on [float("n/a")] and
    [_select_relevant_snapshots] raises [AttributeError] on [None.get]. *)
Theorem dirty_group_raises :
  float_of_str "n/a" = None ->
  enrich_group log1p_fin fromisoformat dirty_group = Ok dirty_enriched /\
  build_network_payload float_of_str [dirty_enriched] [] false
  = Raise (ValueError "could not convert string to float") /\
  fst (_select_relevant_snapshots one_snapshot_service dirty_enriched
         DEFAULT_LIMIT)
  = Raise AttributeError.
Proof.
  intros Hparse. split; [reflexivity |]. split; [| reflexivity].
  unfold build_network_payload. cbn. rewrite Hparse. reflexivity.
Qed.

(** Two more ways in which dirty data raises, these in [enrich_group]
    itself: an amount that reads as infinity, and a timestamp that is a
    number. *)
Lemma enrich_group_infinite_amount_raises :
  raises (enrich_group log1p_fin fromisoformat infinite_amount_group) = true.
Proof.
  unfold enrich_group. cbn.
  destruct (Qeq_bool (log1p_fin 250000) 0); reflexivity.
Qed.

Lemma enrich_group_numeric_timestamp_raises :
  enrich_group log1p_fin fromisoformat numeric_timestamp_group
  = Raise AttributeError.
Proof. reflexivity. Qed.

End DirtyData.

(** The theorem of C2 with the decimal reader in place of [float]. *)
Lemma dirty_group_raises_witness :
  float_of_decimal "n/a" = None /\
  (enrich_group log1p_approx fromisoformat_table dirty_group
   = Ok dirty_enriched /\
   build_network_payload float_of_decimal [dirty_enriched] [] false
   = Raise (ValueError "could not convert string to float") /\
   fst (_select_relevant_snapshots one_snapshot_service dirty_enriched
          DEFAULT_LIMIT)
   = Raise AttributeError).
Proof.
  split.
  - reflexivity.
  - apply (dirty_group_raises log1p_approx float_of_decimal
             fromisoformat_table).
    reflexivity.
Defined.

(* ------------------------------------------------------------------ *)
(** *** Network graph: the edge dict *)

Lemma key_eqb_sym (a b : EdgeKey) :
  hashable (fst a) = true -> hashable (snd a) = true ->
  hashable (fst b) = true -> hashable (snd b) = true ->
  key_eqb a b = key_eqb b a.
Proof.
  intros Ha1 Ha2 Hb1 Hb2. unfold key_eqb.
  now rewrite (py_eqb_sym _ _ Ha1 Hb1), (py_eqb_sym _ _ Ha2 Hb2).
Qed.

Lemma key_eqb_trans (a b c : EdgeKey) :
  hashable (fst a) = true -> hashable (snd a) = true ->
  hashable (fst b) = true -> hashable (snd b) = true ->
  key_eqb a b = true -> key_eqb b c = true -> key_eqb a c = true.
Proof.
  intros Ha1 Ha2 Hb1 Hb2. unfold key_eqb. intros H1 H2.
  apply andb_true_iff in H1, H2. destruct H1 as [H11 H12], H2 as [H21 H22].
  apply andb_true_iff. split.
  - exact (py_eqb_trans _ _ _ Ha1 Hb1 H11 H21).
  - exact (py_eqb_trans _ _ _ Ha2 Hb2 H12 H22).
Qed.

(** Two keys that a third one equals are equal. *)
Lemma key_eqb_common (a b c : EdgeKey) :
  proper_key a -> proper_key b -> proper_key c ->
  key_eqb c a = true -> key_eqb c b = true -> key_eqb b a = true.
Proof.
  intros (Ha1 & Ha2 & _) (Hb1 & Hb2 & _) (Hc1 & Hc2 & _) Hca Hcb.
  rewrite (key_eqb_sym c b Hc1 Hc2 Hb1 Hb2) in Hcb.
  exact (key_eqb_trans b c a Hb1 Hb2 Hc1 Hc2 Hcb Hca).
Qed.

Lemma accumulate_fresh (key : EdgeKey) (amount : pyfloat) (direction : string)
  (edges : list (EdgeKey * EdgeData)) :
  existsb (fun kd => key_eqb key (fst kd)) edges = false ->
  edges_accumulate key amount direction edges
  = edges ++ [(key, entry_update amount direction fresh_entry)].
Proof.
  induction edges as [| [k d] edges IH]; simpl; intros H; [reflexivity |].
  apply orb_false_iff in H. destruct H as [Hk H].
  rewrite Hk. now rewrite IH.
Qed.

Lemma accumulate_found (key : EdgeKey) (amount : pyfloat) (direction : string)
  (edges : list (EdgeKey * EdgeData)) :
  existsb (fun kd => key_eqb key (fst kd)) edges = true ->
  exists l1 k d l2,
    edges = l1 ++ (k, d) :: l2 /\
    key_eqb key k = true /\
    existsb (fun kd => key_eqb key (fst kd)) l1 = false /\
    edges_accumulate key amount direction edges
    = l1 ++ (k, entry_update amount direction d) :: l2.
Proof.
  induction edges as [| [k d] edges IH]; simpl; intros H; [discriminate |].
  destruct (key_eqb key k) eqn:Hk.
  - exists [], k, d, edges. auto.
  - simpl in H. destruct (IH H) as (l1 & k1 & d1 & l2 & -> & Hk1 & Hl1 & ->).
    exists ((k, d) :: l1), k1, d1, l2. simpl. rewrite Hk. auto.
Qed.

Lemma contributing_snoc (k : EdgeKey) (cs : list Contribution)
  (c : Contribution) :
  contributing k (cs ++ [c])
  = contributing k cs ++ (if key_eqb (c_key c) k then [c] else []).
Proof.
  unfold contributing. rewrite filter_app. simpl.
  now destruct (key_eqb (c_key c) k).
Qed.

Lemma entry_of_snoc (cs : list Contribution) (c : Contribution) :
  entry_of (cs ++ [c])
  = entry_update (c_amount c) (c_direction c) (entry_of cs).
Proof. unfold entry_of. now rewrite fold_left_app. Qed.

Lemma distinct_keys_snoc (ks : list EdgeKey) (k : EdgeKey) :
  distinct_keys ks ->
  (forall k', In k' ks -> key_eqb k k' = false) ->
  distinct_keys (ks ++ [k]).
Proof.
  induction ks as [| k0 ks IH]; simpl; intros Hd Hk.
  - split; [intros k' [] | exact I].
  - destruct Hd as [Hk0 Hd]. split.
    + intros k' Hin. apply in_app_or in Hin. destruct Hin as [Hin | [<- | []]].
      * now apply Hk0.
      * apply Hk. now left.
    + apply IH; [exact Hd |]. intros k' Hin. apply Hk. now right.
Qed.

Lemma distinct_keys_later (l1 l2 : list EdgeKey) (k : EdgeKey) :
  distinct_keys (l1 ++ k :: l2) ->
  forall k', In k' l2 -> key_eqb k' k = false.
Proof.
  induction l1 as [| k0 l1 IH]; simpl; intros [Hk Hd].
  - exact Hk.
  - exact (IH Hd).
Qed.

Lemma existsb_key_false (key : EdgeKey) (edges : list (EdgeKey * EdgeData))
  (kd : EdgeKey * EdgeData) :
  existsb (fun kd => key_eqb key (fst kd)) edges = false ->
  In kd edges -> key_eqb key (fst kd) = false.
Proof.
  intros H Hin. destruct (key_eqb key (fst kd)) eqn:E; [| reflexivity].
  assert (Ht : existsb (fun kd => key_eqb key (fst kd)) edges = true)
    by (apply existsb_exists; exists kd; auto).
  congruence.
Qed.

Lemma filter_none {A : Type} (f : A -> bool) (xs : list A) :
  (forall x, In x xs -> f x = false) -> filter f xs = [].
Proof.
  induction xs as [| x xs IH]; simpl; intros H; [reflexivity |].
  rewrite (H x (or_introl eq_refl)). apply IH. intros y Hy. apply H. now right.
Qed.

Lemma existsb_key_update (key k : EdgeKey) (d d' : EdgeData)
  (l1 l2 : list (EdgeKey * EdgeData)) :
  existsb (fun kd => key_eqb key (fst kd)) (l1 ++ (k, d') :: l2)
  = existsb (fun kd => key_eqb key (fst kd)) (l1 ++ (k, d) :: l2).
Proof. now rewrite !existsb_app. Qed.

(** Processing one more contribution keeps the invariant of the edge
    dict. *)
Lemma edges_invariant_step (edges : list (EdgeKey * EdgeData))
  (cs : list Contribution) (c : Contribution) :
  edges_invariant edges cs -> proper_key (c_key c) ->
  edges_invariant (accumulate_edge edges c) (cs ++ [c]).
Proof.
  intros (Hd & He & Hc) Hp. unfold accumulate_edge.
  assert (Hrefl : key_eqb (c_key c) (c_key c) = true) by apply Hp.
  destruct (existsb (fun kd => key_eqb (c_key c) (fst kd)) edges) eqn:Hex.
  - destruct (accumulate_found (c_key c) (c_amount c) (c_direction c) edges Hex)
      as (l1 & k & d & l2 & -> & Hk & Hl1 & ->).
    apply Forall_app in He. destruct He as [He1 He2].
    inversion He2 as [| kd0 l2' (Hpk & Hne & Hdata) He3]; subst.
    cbn [fst snd] in Hpk, Hne, Hdata.
    split; [| split].
    + rewrite map_app in *. exact Hd.
    + apply Forall_app. split; [| constructor].
      * rewrite Forall_forall in *. intros kd Hin.
        destruct (He1 kd Hin) as (Hpkd & Hnekd & Hdkd).
        rewrite contributing_snoc.
        rewrite (existsb_key_false (c_key c) l1 kd Hl1 Hin), app_nil_r. auto.
      * cbn [fst snd]. rewrite contributing_snoc, Hk.
        split; [exact Hpk |]. split.
        -- intros Habs. now apply app_eq_nil in Habs.
        -- rewrite entry_of_snoc. now rewrite <- Hdata.
      * rewrite Forall_forall in *. intros kd Hin.
        destruct (He3 kd Hin) as (Hpkd & Hnekd & Hdkd).
        rewrite contributing_snoc.
        destruct (key_eqb (c_key c) (fst kd)) eqn:Hkd;
          [| rewrite app_nil_r; auto].
        exfalso.
        pose proof (key_eqb_common k (fst kd) (c_key c) Hpk Hpkd Hp Hk Hkd)
          as Heq.
        rewrite map_app in Hd. cbn [map fst] in Hd.
        rewrite (distinct_keys_later _ _ _ Hd (fst kd)) in Heq;
          [discriminate | now apply in_map].
    + apply Forall_app. split; [| constructor; [| constructor]].
      * rewrite Forall_forall in *. intros c' Hin.
        destruct (Hc c' Hin) as [Hpc Hexc]. split; [exact Hpc |].
        now rewrite (existsb_key_update (c_key c') k d).
      * split; [exact Hp |].
        rewrite existsb_app. cbn [existsb fst]. rewrite Hk.
        now rewrite orb_true_r.
  - rewrite (accumulate_fresh _ _ _ _ Hex).
    split; [| split].
    + rewrite map_app. cbn [map fst]. apply distinct_keys_snoc; [exact Hd |].
      intros k' Hin. apply in_map_iff in Hin. destruct Hin as [kd [<- Hin]].
      exact (existsb_key_false _ _ _ Hex Hin).
    + apply Forall_app. split; [| constructor; [| constructor]].
      * rewrite Forall_forall in *. intros kd Hin.
        destruct (He kd Hin) as (Hpkd & Hnekd & Hdkd).
        rewrite contributing_snoc.
        rewrite (existsb_key_false _ _ _ Hex Hin), app_nil_r. auto.
      * cbn [fst snd]. rewrite contributing_snoc, Hrefl.
        assert (Hnone : contributing (c_key c) cs = []).
        { apply filter_none. intros c' Hin.
          rewrite Forall_forall in Hc. destruct (Hc c' Hin) as [Hpc Hexc].
          destruct (key_eqb (c_key c') (c_key c)) eqn:Hcc; [| reflexivity].
          exfalso. apply existsb_exists in Hexc.
          destruct Hexc as [kd [Hin' Hkd]].
          rewrite Forall_forall in He. destruct (He kd Hin') as (Hpkd & _).
          pose proof (key_eqb_common (fst kd) (c_key c) (c_key c')
                        Hpkd Hp Hpc Hkd Hcc) as Heq.
          rewrite (existsb_key_false _ _ _ Hex Hin') in Heq. discriminate. }
        rewrite Hnone. cbn [app].
        split; [exact Hp |]. split; [discriminate | reflexivity].
    + apply Forall_app. split; [| constructor; [| constructor]].
      * rewrite Forall_forall in *. intros c' Hin.
        destruct (Hc c' Hin) as [Hpc Hexc]. split; [exact Hpc |].
        rewrite existsb_app, Hexc. reflexivity.
      * split; [exact Hp |].
        rewrite existsb_app. cbn [existsb fst]. rewrite Hrefl.
        now rewrite orb_true_r.
Qed.

Lemma edges_invariant_fold (cs done : list Contribution)
  (edges : list (EdgeKey * EdgeData)) :
  edges_invariant edges done ->
  Forall (fun c => proper_key (c_key c)) cs ->
  edges_invariant (fold_left accumulate_edge cs edges) (done ++ cs).
Proof.
  revert done edges; induction cs as [| c cs IH]; intros done edges Hinv Hp;
    simpl.
  - now rewrite app_nil_r.
  - inversion Hp as [| c0 cs0 Hpc Hps]; subst.
    replace (done ++ c :: cs) with ((done ++ [c]) ++ cs)
      by now rewrite <- app_assoc.
    apply IH; [| exact Hps]. now apply edges_invariant_step.
Qed.

Lemma edges_invariant_nil : edges_invariant [] [].
Proof. repeat split; constructor. Qed.

(* ------------------------------------------------------------------ *)
(** *** Network graph: the loops *)

Lemma py_eqb_refl (v : json) :
  hashable v = true ->
  negb (match v with JFloat FNaN => true | _ => false end) = true ->
  py_eqb v v = true.
Proof.
  destruct v as [| b | z | f | s | l | d]; simpl; intros Hh Hn;
    try discriminate; try reflexivity.
  - destruct b; reflexivity.
  - apply Qeq_bool_refl.
  - destruct f as [| t | q]; simpl; [discriminate | | apply Qeq_bool_refl].
    apply Bool.eqb_reflx.
  - apply String.eqb_refl.
Qed.

(** A hashable value that equals some hashable value equals itself. *)
Lemma py_eqb_refl_of_equal (x z : json) :
  hashable x = true -> hashable z = true ->
  py_eqb x z = true -> py_eqb x x = true.
Proof.
  intros Hx Hz H. apply (py_eqb_trans x z x Hx Hz H).
  now rewrite (py_eqb_sym z x Hz Hx).
Qed.

Lemma nodes_store_keys (k : json) (node : NetworkNode)
  (nodes : list (json * NetworkNode)) :
  hashable k = true ->
  Forall (fun key => hashable key = true) (map fst nodes) ->
  Forall (fun key => hashable key = true) (map fst (nodes_store k node nodes)).
Proof.
  intros Hk. induction nodes as [| [k' n] nodes IH]; simpl; intros H.
  - constructor; [exact Hk | constructor].
  - inversion H as [| x xs Hk' Hrest]; subst.
    destruct (py_eqb k k'); simpl; constructor; auto.
Qed.

Section NetworkLoops.

Variable float_of_str : string -> option pyfloat.

Lemma network_tx_accumulates (group_id : json)
  (nodes nodes' : list (json * NetworkNode))
  (edges edges' : list (EdgeKey * EdgeData)) (tx : ParsedTx) :
  network_tx float_of_str group_id (nodes, edges) tx = Ok (nodes', edges') ->
  hashable group_id = true -> py_eqb group_id group_id = true ->
  Forall (fun key => hashable key = true) (map fst nodes) ->
  edges' = fold_left accumulate_edge (tx_contribution float_of_str group_id tx) edges /\
  Forall (fun c => proper_key (c_key c)) (tx_contribution float_of_str group_id tx) /\
  Forall (fun key => hashable key = true) (map fst nodes').
Proof.
  unfold network_tx, tx_contribution.
  intros H Hgid Hrefl Hnodes.
  destruct (truthy (dict_get (tx_fields tx) "counterparty_id")) eqn:Htruthy;
    cbn [negb] in H.
  - apply bind_ok in H. destruct H as [known [Eknown H]].
    apply set_mem_ok in Eknown. destruct Eknown as [Hcp ->].
    apply bind_ok in H. destruct H as [nodes1 [Enodes H]].
    apply bind_ok in H. destruct H as [amount [Eamount H]].
    apply bind_ok in H. destruct H as [direction [Edirection H]].
    injection H as <- <-.
    assert (Ha : tx_amount float_of_str tx = amount)
      by (unfold tx_amount; now rewrite Eamount).
    assert (Hd : tx_direction tx = direction)
      by (unfold tx_direction; now rewrite Edirection).
    rewrite Ha, Hd. cbn [fold_left]. unfold accumulate_edge.
    cbn [c_key c_amount c_direction].
    assert (Hself : py_eqb (dict_get (tx_fields tx) "counterparty_id")
                      (dict_get (tx_fields tx) "counterparty_id") = true
                    /\ Forall (fun key => hashable key = true)
                         (map fst nodes1)).
    { destruct (existsb _ (map fst nodes)) eqn:Hknown.
      - injection Enodes as <-. split; [| exact Hnodes].
        apply existsb_exists in Hknown. destruct Hknown as [z [Hz Hcz]].
        rewrite Forall_forall in Hnodes.
        exact (py_eqb_refl_of_equal _ z Hcp (Hnodes z Hz) Hcz).
      - apply bind_ok in Enodes. destruct Enodes as [label [Elabel Enodes]].
        injection Enodes as <-. split.
        + destruct (dict_get (tx_fields tx) "counterparty_id");
            try discriminate. apply String.eqb_refl.
        + rewrite map_app. apply Forall_app. split; [exact Hnodes |].
          constructor; [exact Hcp | constructor]. }
    destruct Hself as [Hself Hnodes1].
    split; [reflexivity |]. split; [| exact Hnodes1].
    constructor; [| constructor]. cbn [c_key].
    unfold proper_key, key_eqb.
    destruct (str_in direction INCOMING); cbn [fst snd];
      rewrite Hself, Hrefl; auto.
  - injection H as <- <-. cbn [fold_left]. auto.
Qed.

Lemma network_tx_loop (group_id : json) (txs : list ParsedTx)
  (nodes nodes' : list (json * NetworkNode))
  (edges edges' : list (EdgeKey * EdgeData)) :
  foldM (network_tx float_of_str group_id) txs (nodes, edges) = Ok (nodes', edges') ->
  hashable group_id = true -> py_eqb group_id group_id = true ->
  Forall (fun key => hashable key = true) (map fst nodes) ->
  edges' = fold_left accumulate_edge (flat_map (tx_contribution float_of_str group_id) txs)
             edges /\
  Forall (fun c => proper_key (c_key c)) (flat_map (tx_contribution float_of_str group_id) txs) /\
  Forall (fun key => hashable key = true) (map fst nodes').
Proof.
  revert nodes edges; induction txs as [| tx txs IH];
    intros nodes edges H Hgid Hrefl Hnodes; simpl in H.
  - injection H as <- <-. simpl. auto.
  - apply bind_ok in H. destruct H as [[nodes1 edges1] [Etx H]].
    destruct (network_tx_accumulates _ _ _ _ _ _ Etx Hgid Hrefl Hnodes)
      as (-> & Hp1 & Hnodes1).
    destruct (IH _ _ H Hgid Hrefl Hnodes1) as (-> & Hp2 & Hnodes2).
    cbn [flat_map]. rewrite fold_left_app.
    split; [reflexivity |]. split; [| exact Hnodes2].
    apply Forall_app. auto.
Qed.

Lemma network_group_loop (reported_set : list string) (highlight : bool)
  (groups : list EnrichedGroup)
  (nodes nodes' : list (json * NetworkNode))
  (edges edges' : list (EdgeKey * EdgeData)) :
  foldM (network_group float_of_str reported_set highlight) groups (nodes, edges)
  = Ok (nodes', edges') ->
  Forall (fun g => not_nan_id g = true) groups ->
  Forall (fun key => hashable key = true) (map fst nodes) ->
  edges' = fold_left accumulate_edge (contributions float_of_str groups) edges /\
  Forall (fun c => proper_key (c_key c)) (contributions float_of_str groups).
Proof.
  unfold contributions.
  revert nodes edges; induction groups as [| g groups IH];
    intros nodes edges H Hnan Hnodes; simpl in H.
  - injection H as <- <-. simpl. auto.
  - inversion Hnan as [| g0 gs0 Hg Hrest]; subst.
    apply bind_ok in H. destruct H as [[nodes1 edges1] [Eg H]].
    unfold network_group in Eg. cbn [flat_map].
    destruct (truthy (group_get g "group_id")) eqn:Htruthy; cbn [negb] in Eg.
    + apply bind_ok in Eg. destruct Eg as [flag [_ Eg]].
      apply bind_ok in Eg. destruct Eg as [nodes0 [Eset Eg]].
      unfold nodes_set in Eset.
      destruct (hashable (group_get g "group_id")) eqn:Hh;
        [| discriminate Eset].
      injection Eset as <-.
      pose proof (py_eqb_refl _ Hh Hg) as Hrefl.
      destruct (network_tx_loop _ _ _ _ _ _ Eg Hh Hrefl
                  (nodes_store_keys _ _ _ Hh Hnodes))
        as (-> & Hp1 & Hnodes1).
      destruct (IH _ _ H Hrest Hnodes1) as (-> & Hp2).
      rewrite fold_left_app. split; [reflexivity |].
      apply Forall_app. auto.
    + injection Eg as <- <-. cbn [app].
      exact (IH _ _ H Hrest Hnodes).
Qed.

End NetworkLoops.

(* ------------------------------------------------------------------ *)
(** *** Network graph: the emitted edges *)

Lemma data_amount_fold (cs : list Contribution) (d : EdgeData) :
  data_amount (fold_left accumulate_entry cs d)
  = fold_left fadd (map c_amount cs) (data_amount d).
Proof.
  revert d; induction cs as [| c cs IH]; intros d; simpl;
    [reflexivity | now rewrite IH].
Qed.

Lemma data_count_fold (cs : list Contribution) (d : EdgeData) :
  data_count (fold_left accumulate_entry cs d)
  = (data_count d + length cs)%nat.
Proof.
  revert d; induction cs as [| c cs IH]; intros d; simpl; [lia |].
  rewrite IH. simpl. lia.
Qed.

Lemma str_in_In (s : string) (xs : list string) :
  str_in s xs = true <-> In s xs.
Proof.
  unfold str_in. rewrite existsb_exists. split.
  - intros [x [Hx Heq]]. apply String.eqb_eq in Heq. now subst.
  - intros H. exists s. split; [exact H | apply String.eqb_refl].
Qed.

Lemma directions_add_NoDup (d : string) (ds : list string) :
  NoDup ds -> NoDup (directions_add d ds).
Proof.
  intros H. unfold directions_add. destruct (str_in d ds) eqn:E; [exact H |].
  apply NoDup_app; [exact H | constructor; [intros [] | constructor] |].
  intros x Hx [<- | []]. apply str_in_In in Hx. congruence.
Qed.

Lemma directions_add_In (d s : string) (ds : list string) :
  In s (directions_add d ds) <-> In s ds \/ s = d.
Proof.
  unfold directions_add. destruct (str_in d ds) eqn:E.
  - apply str_in_In in E. split; [auto | intros [H | ->]; assumption].
  - rewrite in_app_iff. simpl. split.
    + intros [H | [<- | []]]; auto.
    + intros [H | ->]; auto.
Qed.

Lemma data_directions_fold (cs : list Contribution) (d : EdgeData) :
  NoDup (data_directions d) ->
  NoDup (data_directions (fold_left accumulate_entry cs d)) /\
  forall s, In s (data_directions (fold_left accumulate_entry cs d)) <->
            In s (data_directions d) \/
            (s <> "" /\ exists c, In c cs /\ c_direction c = s).
Proof.
  revert d; induction cs as [| c cs IH]; intros d Hd; simpl.
  - split; [exact Hd |]. intros s. split; [auto |].
    intros [H | (_ & c & [] & _)]. exact H.
  - assert (Hstep : NoDup (data_directions (accumulate_entry d c))).
    { unfold accumulate_entry, entry_update. simpl.
      destruct (str_nonempty (c_direction c));
        [now apply directions_add_NoDup | exact Hd]. }
    destruct (IH _ Hstep) as [Hnodup Hin]. split; [exact Hnodup |].
    intros s. rewrite Hin. unfold accumulate_entry, entry_update. simpl.
    destruct (c_direction c) as [| a rest] eqn:Hdir; simpl.
    + split.
      * intros [H | (Hs & c' & Hc' & Heq)]; [auto |].
        right. split; [exact Hs |]. exists c'. auto.
      * intros [H | (Hs & c' & [<- | Hc'] & Heq)]; [auto | |].
        -- exfalso. apply Hs. now rewrite <- Heq, Hdir.
        -- right. split; [exact Hs |]. exists c'. auto.
    + rewrite directions_add_In. split.
      * intros [[H | ->] | (Hs & c' & Hc' & Heq)]; [auto | |].
        -- right. split; [discriminate |]. exists c. auto.
        -- right. split; [exact Hs |]. exists c'. auto.
      * intros [H | (Hs & c' & [<- | Hc'] & Heq)]; [auto | |].
        -- left. right. now rewrite <- Heq, Hdir.
        -- right. split; [exact Hs |]. exists c'. auto.
Qed.

Lemma insert_sorted_perm (s : string) (xs : list string) :
  Permutation (insert_sorted s xs) (s :: xs).
Proof.
  induction xs as [| x xs IH]; simpl; [reflexivity |].
  destruct (String.leb s x); [reflexivity |].
  rewrite IH. apply perm_swap.
Qed.

Lemma sorted_perm (xs : list string) : Permutation (sorted xs) xs.
Proof.
  unfold sorted. induction xs as [| x xs IH]; simpl; [reflexivity |].
  rewrite insert_sorted_perm. now constructor.
Qed.

Lemma insert_sorted_HdRel (a s : string) (xs : list string) :
  HdRel string_le a xs -> string_le a s ->
  HdRel string_le a (insert_sorted s xs).
Proof.
  intros H Has. destruct xs as [| x xs]; simpl.
  - now constructor.
  - destruct (String.leb s x); constructor; [exact Has |].
    now inversion H.
Qed.

Lemma insert_sorted_Sorted (s : string) (xs : list string) :
  Sorted string_le xs -> Sorted string_le (insert_sorted s xs).
Proof.
  induction 1 as [| x xs Hs IH Hhd]; simpl.
  - repeat constructor.
  - destruct (String.leb s x) eqn:E.
    + constructor; [now constructor | now constructor].
    + constructor; [exact IH |].
      apply insert_sorted_HdRel; [exact Hhd |].
      destruct (String.leb_total s x) as [H | H]; [congruence | exact H].
Qed.

Lemma sorted_Sorted (xs : list string) : Sorted string_le (sorted xs).
Proof.
  unfold sorted. induction xs as [| x xs IH]; simpl;
    [constructor | now apply insert_sorted_Sorted].
Qed.

Lemma edge_key_model (kd : EdgeKey * EdgeData) :
  edge_key (edge_model kd) = fst kd.
Proof. now destruct kd as [[src dst] d]. Qed.

(** The invariant of the edge dict, read on an emitted edge. *)
Lemma edge_model_summarizes (cs : list Contribution)
  (kd : EdgeKey * EdgeData) :
  contributing (fst kd) cs <> [] ->
  snd kd = entry_of (contributing (fst kd) cs) ->
  edge_summarizes cs (edge_model kd).
Proof.
  intros Hne Hdata. unfold edge_summarizes. rewrite edge_key_model.
  destruct kd as [[src dst] d]. cbn [fst snd] in *. subst d.
  cbn [edge_model edge_amount edge_count edge_directions].
  unfold entry_of.
  destruct (data_directions_fold (contributing (src, dst) cs) fresh_entry)
    as [Hnodup Hin]; [constructor |].
  split; [exact Hne |]. split; [| split; [| split; [| split]]].
  - now rewrite data_amount_fold.
  - now rewrite data_count_fold.
  - apply sorted_Sorted.
  - eapply Permutation_NoDup; [symmetry; apply sorted_perm | exact Hnodup].
  - intros s. split.
    + intros H. apply (Permutation_in _ (sorted_perm _)) in H.
      apply Hin in H. destruct H as [[] | H]. exact H.
    + intros H. apply (Permutation_in _ (Permutation_sym (sorted_perm _))).
      apply Hin. now right.
Qed.

Section NetworkEdges.

Variable float_of_str : string -> option pyfloat.

(** C4, amended: when [build_network_payload] returns on groups whose id
    is not NaN, the emitted edges have pairwise distinct ordered keys,
    every transaction with a counterparty (of a group with an id) has the
    edge of its key, which runs counterparty to group for an incoming
    direction and group to counterparty otherwise, and every edge carries
    the rounded sum, the number and the sorted set of the non-empty
    case-normalized directions of the contributions to its key. *)
Theorem build_network_payload_edges (groups : list EnrichedGroup)
  (reported_ids : list string) (highlight_reported : bool)
  (response : NetworkResponse) :
  build_network_payload float_of_str groups reported_ids highlight_reported
  = Ok response ->
  Forall (fun g => not_nan_id g = true) groups ->
  distinct_keys (map edge_key (response_edges response)) /\
  (forall c, In c (contributions float_of_str groups) ->
             exists e, In e (response_edges response) /\
                       key_eqb (c_key c) (edge_key e) = true) /\
  Forall (edge_summarizes (contributions float_of_str groups))
    (response_edges response).
Proof.
  unfold build_network_payload. intros H Hnan.
  apply bind_ok in H. destruct H as [[nodes edges] [Eloop H]].
  injection H as <-. cbn [response_edges].
  destruct (network_group_loop float_of_str _ _ _ _ _ _ _ Eloop Hnan
              (Forall_nil _)) as [-> Hproper].
  pose proof (edges_invariant_fold _ [] [] edges_invariant_nil Hproper)
    as (Hdistinct & Hedges & Hcs).
  cbn [app] in *.
  set (cs := contributions float_of_str groups) in *.
  set (edges := fold_left accumulate_edge cs []) in *.
  split; [| split].
  - rewrite map_map.
    rewrite (map_ext _ fst edge_key_model). exact Hdistinct.
  - intros c Hin. rewrite Forall_forall in Hcs.
    destruct (Hcs c Hin) as [_ Hex]. apply existsb_exists in Hex.
    destruct Hex as [kd [Hkd Hk]].
    exists (edge_model kd). split; [now apply in_map |].
    now rewrite edge_key_model.
  - apply Forall_map. eapply Forall_impl; [| exact Hedges].
    intros kd (_ & Hne & Hdata). now apply edge_model_summarizes.
Qed.

End NetworkEdges.

(** The theorem of C4 on two sample groups; the counterparty [C1] pays
    both of them, which gives the edges [C1 -> G3], [G3 -> C2] and
    [C1 -> G1]. *)
Lemma build_network_payload_edges_witness :
  build_network_payload float_of_decimal network_groups ["G3"] true
  = Ok sample_network /\
  Forall (fun g => not_nan_id g = true) network_groups /\
  (distinct_keys (map edge_key (response_edges sample_network)) /\
   (forall c, In c (contributions float_of_decimal network_groups) ->
              exists e, In e (response_edges sample_network) /\
                        key_eqb (c_key c) (edge_key e) = true) /\
   Forall (edge_summarizes (contributions float_of_decimal network_groups))
     (response_edges sample_network)).
Proof.
  split; [vm_compute; reflexivity |].
  split; [repeat constructor |].
  apply (build_network_payload_edges float_of_decimal network_groups
           ["G3"] true).
  - vm_compute. reflexivity.
  - repeat constructor.
Defined.

Example sample_network_edges :
  map (fun e => (edge_source e, edge_target e, edge_amount e, edge_count e,
                 edge_directions e))
      (response_edges sample_network)
  = [(JStr "C1", JStr "G3", FFin 30, 1%nat, ["in"]);
     (JStr "G3", JStr "C2", FFin (-50), 1%nat, ["debit"]);
     (JStr "C1", JStr "G1", FFin 50, 1%nat, ["in"])].
Proof. vm_compute. reflexivity. Qed.

(** C4 fails on the code as stated: the transaction of [G3] whose
    direction is written ["IN"] gives an edge whose directions list holds
    the lowered ["in"]; the observed string is not in the list. *)
Lemma build_network_payload_observed_counterexample :
  (r <- build_network_payload float_of_decimal [negative_total_enriched]
          [] false ;;
   Ok (response_edges r))
  = Ok [in_edge; debit_edge] /\
  map c_observed
      (contributing (edge_key in_edge)
         (contributions float_of_decimal [negative_total_enriched]))
  = [JStr "IN"] /\
  edge_directions in_edge = ["in"] /\
  ~ In "IN" (edge_directions in_edge).
Proof.
  split; [vm_compute; reflexivity |].
  split; [vm_compute; reflexivity |].
  split; [reflexivity |].
  intros [H | []]. discriminate H.
Qed.

(* ================================================================== *)
(** ** Further properties of the service *)

(* ------------------------------------------------------------------ *)
(** *** Enrichment: what the metrics and the transactions record *)

Lemma set_add_length (x : json) (s s' : list json) :
  set_add x s = Ok s' -> (length s' <= S (length s))%nat.
Proof.
  unfold set_add. intros H. apply bind_ok in H. destruct H as [b [_ H]].
  injection H as <-. destruct b; [lia |]. rewrite length_app. simpl. lia.
Qed.

Lemma fold_extend_min (xs : list pyfloat) (x : pyfloat) :
  fold_left extend_min xs (Some x) = Some (fmin_list x xs).
Proof.
  unfold fmin_list. revert x.
  induction xs as [| a xs IH]; intros x; simpl; [reflexivity | apply IH].
Qed.

Lemma fold_extend_max (xs : list pyfloat) (x : pyfloat) :
  fold_left extend_max xs (Some x) = Some (fmax_list x xs).
Proof.
  unfold fmax_list. revert x.
  induction xs as [| a xs IH]; intros x; simpl; [reflexivity | apply IH].
Qed.

Lemma fold_extend_min_of (xs : list pyfloat) :
  fold_left extend_min xs None = fmin_of xs.
Proof. destruct xs as [| x xs]; simpl; [reflexivity | apply fold_extend_min]. Qed.

Lemma fold_extend_max_of (xs : list pyfloat) :
  fold_left extend_max xs None = fmax_of xs.
Proof. destruct xs as [| x xs]; simpl; [reflexivity | apply fold_extend_max]. Qed.

Section EnrichmentRecords.

Variable log1p_fin : Q -> Q.
Variable fromisoformat : string -> option (Z * option Z).

(** Everything that one pass of the loop body changes. *)
Lemma enrich_tx_step (acc acc' : EnrichAcc) (tx : json) :
  enrich_tx fromisoformat acc tx = Ok acc' ->
  exists parsed,
    tx = JDict (tx_fields parsed) /\
    consistent_tx fromisoformat parsed /\
    acc_parsed acc' = acc_parsed acc ++ [parsed] /\
    acc_timestamps acc'
    = acc_timestamps acc ++ option_list (parsed_timestamp parsed) /\
    (length (acc_counterparties acc')
     <= S (length (acc_counterparties acc)))%nat /\
    acc_total acc'
    = fold_left fadd (option_list (numeric_amount parsed)) (acc_total acc) /\
    acc_min acc'
    = fold_left extend_min (option_list (numeric_amount parsed)) (acc_min acc) /\
    acc_max acc'
    = fold_left extend_max (option_list (numeric_amount parsed)) (acc_max acc).
Proof.
  unfold enrich_tx. intros H.
  destruct tx as [| | | | | | fields]; try discriminate H.
  cbn [py_get py_dict bind] in H.
  apply bind_ok in H. destruct H as [[[total lo] hi] [Eamount H]].
  apply bind_ok in H. destruct H as [counterparties [Ecp H]].
  apply bind_ok in H. destruct H as [direction [_ H]].
  apply bind_ok in H. destruct H as [ts [Ets H]].
  injection H as <-.
  exists (mkParsedTx fields ts).
  cbn [tx_fields parsed_timestamp acc_parsed acc_timestamps
       acc_counterparties acc_total acc_min acc_max].
  split; [reflexivity |].
  assert (Hcp : (length counterparties
                 <= S (length (acc_counterparties acc)))%nat).
  { destruct (truthy (dict_get fields "counterparty_id")).
    - exact (set_add_length _ _ _ Ecp).
    - injection Ecp as <-. lia. }
  unfold consistent_tx, numeric_amount. cbn [tx_fields parsed_timestamp].
  destruct (is_number (dict_get fields "amount")) eqn:Hnum.
  - apply bind_ok in Eamount. destruct Eamount as [a [Ea Eamount]].
    injection Eamount as <- <- <-. rewrite Ea. cbn [option_list fold_left].
    split; [split; [exact Ets | intros _; now exists a] |].
    split; [reflexivity |].
    split; [destruct ts; simpl; now rewrite ?app_nil_r |].
    split; [exact Hcp |]. repeat split.
  - injection Eamount as <- <- <-. cbn [option_list fold_left].
    split; [split; [exact Ets | discriminate] |].
    split; [reflexivity |].
    split; [destruct ts; simpl; now rewrite ?app_nil_r |].
    split; [exact Hcp |]. repeat split.
Qed.

Lemma enrich_loop_records (items : list json) (acc acc' : EnrichAcc) :
  foldM (enrich_tx fromisoformat) items acc = Ok acc' ->
  exists parsed,
    map (fun tx => JDict (tx_fields tx)) parsed = items /\
    Forall (consistent_tx fromisoformat) parsed /\
    acc_parsed acc' = acc_parsed acc ++ parsed /\
    acc_timestamps acc' = acc_timestamps acc ++ parsed_timestamps parsed /\
    (length (acc_counterparties acc')
     <= length (acc_counterparties acc) + length items)%nat /\
    acc_total acc' = fold_left fadd (numeric_amounts parsed) (acc_total acc) /\
    acc_min acc' = fold_left extend_min (numeric_amounts parsed) (acc_min acc) /\
    acc_max acc' = fold_left extend_max (numeric_amounts parsed) (acc_max acc).
Proof.
  revert acc; induction items as [| tx items IH]; intros acc H; simpl in H.
  - injection H as <-. exists []. simpl. rewrite !app_nil_r.
    repeat split; auto; try constructor; lia.
  - apply bind_ok in H. destruct H as [acc1 [Etx H]].
    apply enrich_tx_step in Etx.
    destruct Etx as (p & -> & Hc & Hp & Ht & Hcp & Htot & Hmin & Hmax).
    destruct (IH _ H) as (ps & <- & Hcs & Hps & Hts & Hcps & Htots & Hmins
                          & Hmaxs).
    exists (p :: ps).
    unfold numeric_amounts, parsed_timestamps in *. cbn [flat_map map].
    rewrite !fold_left_app.
    rewrite Hps, Hp, Hts, Ht, Htots, Htot, Hmins, Hmin, Hmaxs, Hmax.
    rewrite <- !app_assoc. cbn [app length].
    repeat split; auto; try (constructor; assumption); lia.
Qed.

(** What [enrich_group] returns, read off its loop. *)
Lemma enrich_group_records (raw_group : dict) (group : EnrichedGroup) :
  enrich_group log1p_fin fromisoformat raw_group = Ok group ->
  let txs := _transactions group in
  let m := _metrics group in
  map (fun tx => JDict (tx_fields tx)) txs = raw_transactions raw_group /\
  Forall (consistent_tx fromisoformat) txs /\
  transaction_count m = length txs /\
  (unique_counterparties m <= transaction_count m)%nat /\
  first_seen m = zmin_of (parsed_timestamps txs) /\
  last_seen m = zmax_of (parsed_timestamps txs) /\
  total_amount m = py_round2 (fsum (numeric_amounts txs)) /\
  min_transaction_amount m = fmin_of (numeric_amounts txs) /\
  max_transaction_amount m = fmax_of (numeric_amounts txs) /\
  (1 <= risk_score m <= 99)%Z.
Proof.
  unfold enrich_group, raw_transactions. intros H.
  apply bind_ok in H. destruct H as [items [Eitems H]]. rewrite Eitems.
  apply bind_ok in H. destruct H as [acc [Eloop H]].
  rewrite (py_iter_len _ _ Eitems) in H. cbn [bind] in H.
  apply bind_ok in H. destruct H as [ratio [_ H]].
  apply bind_ok in H. destruct H as [members [_ H]].
  apply bind_ok in H. destruct H as [score [Escore H]].
  apply bind_ok in H. destruct H as [name [_ H]].
  injection H as <-.
  cbn [_transactions _metrics transaction_count unique_counterparties
       first_seen last_seen total_amount min_transaction_amount
       max_transaction_amount risk_score].
  apply enrich_loop_records in Eloop.
  destruct Eloop as (parsed & Hitems & Hc & Hp & Ht & Hcp & Htot & Hmin & Hmax).
  cbn [enrich_init acc_parsed acc_timestamps acc_counterparties acc_total
       acc_min acc_max app length] in *.
  rewrite Hp, Ht, Htot, Hmin, Hmax, fold_extend_min_of, fold_extend_max_of.
  assert (Hlen : length items = length parsed)
    by (rewrite <- Hitems; now rewrite length_map).
  split; [exact Hitems |]. split; [exact Hc |]. split; [exact Hlen |].
  split; [lia |].
  split; [now destruct (parsed_timestamps parsed) |].
  split; [now destruct (parsed_timestamps parsed) |].
  split; [reflexivity |]. split; [reflexivity |]. split; [reflexivity |].
  exact (compute_risk_score_bounds _ _ _ _ _ _ _ Escore).
Qed.

End EnrichmentRecords.

Lemma zmin_list_lower (xs : list Z) (x y : Z) :
  In y (x :: xs) -> (zmin_list x xs <= y)%Z.
Proof.
  unfold zmin_list. revert x.
  induction xs as [| a xs IH]; intros x Hin; simpl.
  - destruct Hin as [<- | []]. lia.
  - pose proof (zmin_list_le xs (zmin x a)) as Hle. unfold zmin_list in Hle.
    assert (Hstep : (zmin x a <= x /\ zmin x a <= a)%Z).
    { unfold zmin. destruct (a <? x)%Z eqn:E;
        [apply Z.ltb_lt in E | apply Z.ltb_ge in E]; lia. }
    destruct Hin as [<- | [<- | Hin]]; try lia.
    apply IH. now right.
Qed.

Lemma zmax_list_upper (xs : list Z) (x y : Z) :
  In y (x :: xs) -> (y <= zmax_list x xs)%Z.
Proof.
  unfold zmax_list. revert x.
  induction xs as [| a xs IH]; intros x Hin; simpl.
  - destruct Hin as [<- | []]. lia.
  - pose proof (zmax_list_ge xs (zmax x a)) as Hle. unfold zmax_list in Hle.
    assert (Hstep : (x <= zmax x a /\ a <= zmax x a)%Z).
    { unfold zmax. rewrite Z.gtb_ltb. destruct (x <? a)%Z eqn:E;
        [apply Z.ltb_lt in E | apply Z.ltb_ge in E]; lia. }
    destruct Hin as [<- | [<- | Hin]]; try lia.
    apply IH. now right.
Qed.

Lemma parsed_timestamps_In (txs : list ParsedTx) (tx : ParsedTx) (t : datetime) :
  In tx txs -> parsed_timestamp tx = Some t -> In t (parsed_timestamps txs).
Proof.
  intros Hin Ht. unfold parsed_timestamps. apply in_flat_map.
  exists tx. split; [exact Hin |]. rewrite Ht. now left.
Qed.

Lemma flat_map_option_map {A B : Type} (f : A -> option B) (xs : list A) :
  flat_map (fun x => option_list (f x)) xs
  = flat_map (fun o => option_list o) (map f xs).
Proof.
  induction xs as [| x xs IH]; simpl; [reflexivity | now rewrite IH].
Qed.

(** A loop that appends the items on which a test succeeds, when the test
    never raises. *)
Lemma foldM_filter_returns {A : Type} (test : A -> result bool) (p : A -> bool)
  (xs acc : list A) :
  Forall (fun x => test x = Ok (p x)) xs ->
  foldM (fun acc x => b <- test x ;; Ok (if b then acc ++ [x] else acc)) xs acc
  = Ok (acc ++ filter p xs).
Proof.
  intros H. revert acc.
  induction H as [| x xs Hx _ IH]; intros acc; simpl.
  - now rewrite app_nil_r.
  - rewrite Hx. simpl. rewrite IH.
    destruct (p x); [now rewrite <- app_assoc | reflexivity].
Qed.

Section EnrichedViews.

Variable log1p_fin : Q -> Q.
Variable fromisoformat : string -> option (Z * option Z).
Variable coerce_str : json -> option string.

(** X1: every group that [enrich_group] returns has a risk score between 1
    and 99. *)
Theorem enriched_risk_score_in_range (raw_group : dict)
  (group : EnrichedGroup) :
  enrich_group log1p_fin fromisoformat raw_group = Ok group ->
  (1 <= risk_score (_metrics group) <= 99)%Z.
Proof. intros H. now apply enrich_group_records in H. Qed.

(** X2: [enrich_group] keeps every transaction of the raw group, in order
    and with its fields unchanged; [transaction_count] is their number, and
    [unique_counterparties] never exceeds it. *)
Theorem enrich_group_keeps_transactions (raw_group : dict)
  (group : EnrichedGroup) :
  enrich_group log1p_fin fromisoformat raw_group = Ok group ->
  map (fun tx => JDict (tx_fields tx)) (_transactions group)
  = raw_transactions raw_group /\
  transaction_count (_metrics group) = length (_transactions group) /\
  (unique_counterparties (_metrics group)
   <= transaction_count (_metrics group))%nat.
Proof.
  intros H. apply enrich_group_records in H.
  destruct H as (H1 & _ & H2 & H3 & _). auto.
Qed.

(** X3: [first_seen] and [last_seen] are both absent, and then no
    transaction has a parsed timestamp, or both present and ordered, and
    then every parsed timestamp of the group lies between them. *)
Theorem enrich_group_seen_interval (raw_group : dict) (group : EnrichedGroup) :
  enrich_group log1p_fin fromisoformat raw_group = Ok group ->
  match first_seen (_metrics group), last_seen (_metrics group) with
  | None, None =>
      forall tx, In tx (_transactions group) -> parsed_timestamp tx = None
  | Some first, Some last =>
      (first <= last)%Z /\
      In first (parsed_timestamps (_transactions group)) /\
      In last (parsed_timestamps (_transactions group)) /\
      forall tx t, In tx (_transactions group) ->
                   parsed_timestamp tx = Some t -> (first <= t <= last)%Z
  | _, _ => False
  end.
Proof.
  intros H. apply enrich_group_records in H.
  destruct H as (_ & _ & _ & _ & -> & -> & _).
  destruct (parsed_timestamps (_transactions group)) as [| t0 ts] eqn:Hts;
    simpl.
  - intros tx Hin. destruct (parsed_timestamp tx) as [t |] eqn:Ht;
      [| reflexivity].
    pose proof (parsed_timestamps_In _ _ _ Hin Ht) as Habs.
    rewrite Hts in Habs. destruct Habs.
  - pose proof (zmin_list_le ts t0). pose proof (zmax_list_ge ts t0).
    split; [lia |]. split; [| split].
    + clear. unfold zmin_list. revert t0.
      induction ts as [| a ts IH]; intros t0; simpl; [now left |].
      destruct (IH (zmin t0 a)) as [Heq | Hin]; [| now right; right].
      unfold zmin in Heq at 1.
      destruct (a <? t0)%Z; [right; left | left]; exact Heq.
    + clear. unfold zmax_list. revert t0.
      induction ts as [| a ts IH]; intros t0; simpl; [now left |].
      destruct (IH (zmax t0 a)) as [Heq | Hin]; [| now right; right].
      unfold zmax in Heq at 1.
      destruct (a >? t0)%Z; [right; left | left]; exact Heq.
    + intros tx t Hin Ht.
      pose proof (parsed_timestamps_In _ _ _ Hin Ht) as Hmem.
      rewrite Hts in Hmem.
      split; [now apply zmin_list_lower | now apply zmax_list_upper].
Qed.

Lemma validate_optional_str_plain (v : json) :
  str_or_none v = true ->
  exists s, validate_optional_str coerce_str v = Ok s.
Proof. destruct v; try discriminate; intros _; eexists; reflexivity. Qed.

Lemma tx_timestamp_consistent (tx : ParsedTx) :
  consistent_tx fromisoformat tx ->
  tx_timestamp fromisoformat tx = Ok (parsed_timestamp tx).
Proof.
  intros [Hts _]. unfold tx_timestamp. destruct (parsed_timestamp tx); auto.
Qed.

Lemma converted_amount_consistent (tx : ParsedTx) :
  consistent_tx fromisoformat tx ->
  (if is_number (dict_get (tx_fields tx) "amount")
   then a <- float_of_number (dict_get (tx_fields tx) "amount") ;; Ok (Some a)
   else Ok None)
  = Ok (numeric_amount tx).
Proof.
  intros [_ Hamount]. unfold numeric_amount.
  destruct (is_number (dict_get (tx_fields tx) "amount")); [| reflexivity].
  destruct (Hamount eq_refl) as [a Hfloat]. now rewrite Hfloat.
Qed.

Lemma convert_transaction_inv (tx : ParsedTx) (model : TransactionModel) :
  consistent_tx fromisoformat tx ->
  convert_transaction fromisoformat coerce_str tx = Ok model ->
  tm_amount model = numeric_amount tx /\
  tm_timestamp model = parsed_timestamp tx.
Proof.
  intros Htx H. unfold convert_transaction in H.
  rewrite (tx_timestamp_consistent tx Htx) in H. cbn [bind] in H.
  rewrite (converted_amount_consistent tx Htx) in H. cbn [bind] in H.
  apply bind_ok in H. destruct H as [transaction_id [_ H]].
  apply bind_ok in H. destruct H as [direction [_ H]].
  apply bind_ok in H. destruct H as [counterparty_id [_ H]].
  apply bind_ok in H. destruct H as [currency [_ H]].
  injection H as <-. split; reflexivity.
Qed.

Lemma convert_transaction_returns (tx : ParsedTx) :
  consistent_tx fromisoformat tx -> text_fields tx = true ->
  exists model, convert_transaction fromisoformat coerce_str tx = Ok model.
Proof.
  intros Htx Htext. unfold convert_transaction.
  rewrite (tx_timestamp_consistent tx Htx). cbn [bind].
  rewrite (converted_amount_consistent tx Htx). cbn [bind].
  unfold text_fields in Htext.
  apply andb_prop in Htext. destruct Htext as [Htext Hcurrency].
  apply andb_prop in Htext. destruct Htext as [Htext Hcounterparty].
  apply andb_prop in Htext. destruct Htext as [Hid Hdirection].
  destruct (validate_optional_str_plain _ Hid) as [x1 ->].
  destruct (validate_optional_str_plain _ Hdirection) as [x2 ->].
  destruct (validate_optional_str_plain _ Hcounterparty) as [x3 ->].
  destruct (validate_optional_str_plain _ Hcurrency) as [x4 ->].
  cbn [bind]. eexists. reflexivity.
Qed.

Lemma convert_transactions_inv (txs : list ParsedTx)
  (models : list TransactionModel) :
  Forall (consistent_tx fromisoformat) txs ->
  _convert_transactions fromisoformat coerce_str txs = Ok models ->
  map tm_amount models = map numeric_amount txs /\
  map tm_timestamp models = map parsed_timestamp txs.
Proof.
  unfold _convert_transactions. intros Hc. revert models.
  induction Hc as [| tx txs Htx _ IH]; intros models H; cbn [mapM] in H.
  - injection H as <-. auto.
  - apply bind_ok in H. destruct H as [model [Emodel H]].
    apply bind_ok in H. destruct H as [rest [Erest H]].
    injection H as <-.
    destruct (convert_transaction_inv tx model Htx Emodel) as [Ha Ht].
    destruct (IH rest Erest) as [Has Hts].
    cbn [map]. now rewrite Ha, Ht, Has, Hts.
Qed.

Lemma convert_transactions_returns (txs : list ParsedTx) :
  Forall (consistent_tx fromisoformat) txs ->
  Forall (fun tx => text_fields tx = true) txs ->
  exists models, _convert_transactions fromisoformat coerce_str txs = Ok models.
Proof.
  unfold _convert_transactions.
  induction 1 as [| tx txs Htx _ IH]; intros Htext.
  - exists []. reflexivity.
  - inversion Htext as [| ? ? Hhead Htail]; subst.
    destruct (convert_transaction_returns tx Htx Hhead) as [model Hmodel].
    destruct (IH Htail) as [models Hmodels].
    exists (model :: models). cbn [mapM]. rewrite Hmodel. cbn [bind].
    rewrite Hmodels. reflexivity.
Qed.

(** X4: the transactions of an enriched group convert with
    [_convert_transactions] whenever their transaction id, direction,
    counterparty id and currency are strings or absent; and whenever they
    convert, there is one model per transaction, in order and with the
    parsed timestamps, and the metrics agree with the converted amounts:
    [total_amount] is their sum rounded to 2 decimals,
    [min_transaction_amount] and [max_transaction_amount] are their minimum
    and maximum (absent when no amount is a number). *)
Theorem converted_amounts_match_metrics (raw_group : dict)
  (group : EnrichedGroup) :
  enrich_group log1p_fin fromisoformat raw_group = Ok group ->
  (Forall (fun tx => text_fields tx = true) (_transactions group) ->
   exists models,
     _convert_transactions fromisoformat coerce_str (_transactions group)
     = Ok models) /\
  (forall models,
     _convert_transactions fromisoformat coerce_str (_transactions group)
     = Ok models ->
     length models = transaction_count (_metrics group) /\
     map tm_timestamp models = map parsed_timestamp (_transactions group) /\
     total_amount (_metrics group) = py_round2 (fsum (model_amounts models)) /\
     min_transaction_amount (_metrics group) = fmin_of (model_amounts models) /\
     max_transaction_amount (_metrics group) = fmax_of (model_amounts models)).
Proof.
  intros H. apply enrich_group_records in H.
  destruct H as (_ & Hc & Hcount & _ & _ & _ & Htotal & Hmin & Hmax & _).
  split; [now apply convert_transactions_returns |].
  intros models Hmodels.
  destruct (convert_transactions_inv _ _ Hc Hmodels) as [Ha Ht].
  assert (Hamounts : model_amounts models
                     = numeric_amounts (_transactions group)).
  { unfold model_amounts, numeric_amounts.
    rewrite (flat_map_option_map tm_amount), (flat_map_option_map numeric_amount).
    now rewrite Ha. }
  rewrite Hamounts, Hcount.
  split; [| auto].
  rewrite <- (length_map tm_amount), Ha. apply length_map.
Qed.

Lemma transaction_kept_passes (lo hi : pyfloat) (start finish : option datetime)
  (tx : ParsedTx) :
  consistent_tx fromisoformat tx ->
  transaction_kept fromisoformat (aware_filters lo hi start finish) tx
  = Ok (tx_passes lo hi start finish tx).
Proof.
  intros Htx.
  pose proof (tx_timestamp_consistent tx Htx) as Hstamp.
  destruct Htx as [_ Hamount].
  unfold transaction_kept, tx_passes, filter_amount, numeric_amount,
    aware_filters.
  cbn [min_amount max_amount tx_start_date tx_end_date].
  assert (Hdates : forall (amount : pyfloat),
    (if flt amount lo || fgt amount hi then Ok false
     else
       ts <- tx_timestamp fromisoformat tx ;;
       early <- match option_map AwareBound start with
                | Some bound =>
                    match ts with
                    | None => Ok true
                    | Some t => ts_before t bound
                    end
                | None => Ok false
                end ;;
       if early then Ok false
       else
         late <- match option_map AwareBound finish with
                 | Some bound =>
                     match ts with
                     | None => Ok true
                     | Some t => ts_after t bound
                     end
                 | None => Ok false
                 end ;;
         if late then Ok false else Ok true)
    = Ok (negb (flt amount lo) && negb (fgt amount hi) &&
          match start with
          | Some bound =>
              match parsed_timestamp tx with
              | Some t => (bound <=? t)%Z
              | None => false
              end
          | None => true
          end &&
          match finish with
          | Some bound =>
              match parsed_timestamp tx with
              | Some t => (t <=? bound)%Z
              | None => false
              end
          | None => true
          end)).
  { intros amount.
    destruct (flt amount lo); cbn [orb negb andb]; [reflexivity |].
    destruct (fgt amount hi); cbn [orb negb andb]; [reflexivity |].
    rewrite Hstamp. cbn [bind].
    destruct start as [s0 |], finish as [f0 |],
      (parsed_timestamp tx) as [t |];
      cbn [option_map ts_before ts_after bind andb]; try reflexivity;
      rewrite ?Z.leb_antisym, ?Z.gtb_ltb;
      repeat match goal with
             | |- context [(?x <? ?y)%Z] => destruct (x <? y)%Z
             end; reflexivity. }
  destruct (is_number (dict_get (tx_fields tx) "amount")) eqn:Hnum.
  - destruct (Hamount eq_refl) as [a Hfloat]. rewrite Hfloat. cbn [bind].
    apply Hdates.
  - cbn [bind]. apply Hdates.
Qed.

(** X5: on an enriched group and with date bounds that are timezone-aware,
    [_apply_transaction_filters] does not raise and returns, in order,
    exactly the transactions whose amount (0 when it is not a number) is
    neither below [min_amount] nor above [max_amount] and whose parsed
    timestamp meets the date bounds that are given; a transaction without
    a parsed timestamp passes no date bound. *)
Theorem apply_transaction_filters_enriched (raw_group : dict)
  (group : EnrichedGroup) (lo hi : pyfloat) (start finish : option datetime) :
  enrich_group log1p_fin fromisoformat raw_group = Ok group ->
  _apply_transaction_filters fromisoformat group
    (aware_filters lo hi start finish)
  = Ok (filter (tx_passes lo hi start finish) (_transactions group)).
Proof.
  intros H. apply enrich_group_records in H. destruct H as (_ & Hc & _).
  unfold _apply_transaction_filters.
  rewrite (foldM_filter_returns
             (transaction_kept fromisoformat (aware_filters lo hi start finish))
             (tx_passes lo hi start finish)).
  - reflexivity.
  - eapply Forall_impl; [| exact Hc].
    intros tx Htx. now apply transaction_kept_passes.
Qed.

(** X6: with the default [TransactionFilters] the detail view of an
    enriched group leaves out exactly the transactions whose numeric amount
    is negative; an amount that is not a number counts as 0 and stays. *)
Theorem apply_default_transaction_filters (raw_group : dict)
  (group : EnrichedGroup) :
  enrich_group log1p_fin fromisoformat raw_group = Ok group ->
  _apply_transaction_filters fromisoformat group default_transaction_filters
  = Ok (filter shown_by_default (_transactions group)).
Proof.
  intros H. apply enrich_group_records in H. destruct H as (_ & Hc & _).
  unfold _apply_transaction_filters.
  rewrite (foldM_filter_returns
             (transaction_kept fromisoformat default_transaction_filters)
             shown_by_default).
  - reflexivity.
  - eapply Forall_impl; [| exact Hc].
    intros tx Htx.
    change default_transaction_filters
      with (aware_filters fzero (FInf false) None None).
    rewrite (transaction_kept_passes _ _ _ _ _ Htx). f_equal.
    unfold tx_passes, shown_by_default, filter_amount.
    rewrite fgt_infinity, !andb_true_r.
    destruct (numeric_amount tx) as [a |]; [apply not_negative_total |].
    reflexivity.
Qed.

End EnrichedViews.

(** The theorems above at the group [G3]. *)
Lemma enriched_risk_score_in_range_witness :
  enrich_group log1p_approx fromisoformat_table negative_total_group
  = Ok negative_total_enriched /\
  (1 <= risk_score (_metrics negative_total_enriched) <= 99)%Z.
Proof.
  split; [vm_compute; reflexivity |].
  apply (enriched_risk_score_in_range log1p_approx fromisoformat_table
           negative_total_group negative_total_enriched).
  vm_compute; reflexivity.
Defined.

Lemma enrich_group_keeps_transactions_witness :
  enrich_group log1p_approx fromisoformat_table negative_total_group
  = Ok negative_total_enriched /\
  map (fun tx => JDict (tx_fields tx)) (_transactions negative_total_enriched)
  = raw_transactions negative_total_group /\
  transaction_count (_metrics negative_total_enriched)
  = length (_transactions negative_total_enriched) /\
  (unique_counterparties (_metrics negative_total_enriched)
   <= transaction_count (_metrics negative_total_enriched))%nat.
Proof.
  split; [vm_compute; reflexivity |].
  apply (enrich_group_keeps_transactions log1p_approx fromisoformat_table
           negative_total_group negative_total_enriched).
  vm_compute; reflexivity.
Defined.

Lemma enrich_group_seen_interval_witness :
  enrich_group log1p_approx fromisoformat_table negative_total_group
  = Ok negative_total_enriched /\
  (1704067200000000 <= 1704153600000000)%Z /\
  In 1704067200000000%Z
     (parsed_timestamps (_transactions negative_total_enriched)) /\
  In 1704153600000000%Z
     (parsed_timestamps (_transactions negative_total_enriched)) /\
  forall tx t, In tx (_transactions negative_total_enriched) ->
               parsed_timestamp tx = Some t ->
               (1704067200000000 <= t <= 1704153600000000)%Z.
Proof.
  split; [vm_compute; reflexivity |].
  apply (enrich_group_seen_interval log1p_approx fromisoformat_table
           negative_total_group negative_total_enriched).
  vm_compute; reflexivity.
Defined.

Lemma converted_amounts_match_metrics_witness :
  enrich_group log1p_approx fromisoformat_table negative_total_group
  = Ok negative_total_enriched /\
  (Forall (fun tx => text_fields tx = true)
     (_transactions negative_total_enriched) ->
   exists models,
     _convert_transactions fromisoformat_table reject_str
       (_transactions negative_total_enriched) = Ok models) /\
  (forall models,
     _convert_transactions fromisoformat_table reject_str
       (_transactions negative_total_enriched) = Ok models ->
     length models = transaction_count (_metrics negative_total_enriched) /\
     map tm_timestamp models
     = map parsed_timestamp (_transactions negative_total_enriched) /\
     total_amount (_metrics negative_total_enriched)
     = py_round2 (fsum (model_amounts models)) /\
     min_transaction_amount (_metrics negative_total_enriched)
     = fmin_of (model_amounts models) /\
     max_transaction_amount (_metrics negative_total_enriched)
     = fmax_of (model_amounts models)).
Proof.
  split; [vm_compute; reflexivity |].
  apply (converted_amounts_match_metrics log1p_approx fromisoformat_table
           reject_str negative_total_group negative_total_enriched).
  vm_compute; reflexivity.
Defined.

(** The transactions of the group [G3] do convert, and a transaction whose
    id is a list does not. *)
Example convert_transactions_sample :
  Forall (fun tx => text_fields tx = true)
    (_transactions negative_total_enriched) /\
  _convert_transactions fromisoformat_table reject_str
    (_transactions negative_total_enriched)
  = Ok negative_total_models.
Proof. split; [repeat constructor | vm_compute; reflexivity]. Qed.

Example convert_transactions_list_id :
  enrich_group log1p_approx fromisoformat_table list_id_group
  = Ok list_id_enriched /\
  _convert_transactions fromisoformat_table reject_str
    (_transactions list_id_enriched)
  = Raise ValidationError.
Proof. split; vm_compute; reflexivity. Qed.

Lemma apply_transaction_filters_enriched_witness :
  enrich_group log1p_approx fromisoformat_table negative_total_group
  = Ok negative_total_enriched /\
  _apply_transaction_filters fromisoformat_table negative_total_enriched
    recent_transactions
  = Ok (filter (tx_passes (FFin (-100)) (FFin 100) (Some noon) None)
          (_transactions negative_total_enriched)) /\
  length recent_of_negative_total = 1%nat.
Proof.
  split; [vm_compute; reflexivity |].
  split; [| vm_compute; reflexivity].
  apply (apply_transaction_filters_enriched log1p_approx fromisoformat_table
           negative_total_group negative_total_enriched
           (FFin (-100)) (FFin 100) (Some noon) None).
  vm_compute; reflexivity.
Defined.

(** With the same bound given as a naive datetime the comparison with the
    timestamp of the first transaction raises. *)
Example apply_transaction_filters_naive_bound :
  _apply_transaction_filters fromisoformat_table negative_total_enriched
    naive_transactions
  = Raise TypeError.
Proof. vm_compute. reflexivity. Qed.

Lemma apply_default_transaction_filters_witness :
  enrich_group log1p_approx fromisoformat_table negative_total_group
  = Ok negative_total_enriched /\
  _apply_transaction_filters fromisoformat_table negative_total_enriched
    default_transaction_filters
  = Ok (filter shown_by_default (_transactions negative_total_enriched)).
Proof.
  split; [vm_compute; reflexivity |].
  apply (apply_default_transaction_filters log1p_approx fromisoformat_table
           negative_total_group negative_total_enriched).
  vm_compute; reflexivity.
Defined.

(* ------------------------------------------------------------------ *)
(** *** Aggregation: the bounds enclose the groups *)

Lemma fold_left_choice {A : Type} (f : A -> A -> A) (xs : list A) (x : A) :
  (forall a b, f a b = a \/ f a b = b) -> In (fold_left f xs x) (x :: xs).
Proof.
  intros Hf. revert x.
  induction xs as [| a xs IH]; intros x; simpl; [now left |].
  destruct (IH (f x a)) as [Heq | Hin]; [| right; right; exact Hin].
  rewrite <- Heq. destruct (Hf x a) as [E | E]; rewrite E; auto.
Qed.

Lemma fmin_choice (a b : pyfloat) : fmin a b = a \/ fmin a b = b.
Proof. unfold fmin. destruct (flt b a); auto. Qed.

Lemma fmax_choice (a b : pyfloat) : fmax a b = a \/ fmax a b = b.
Proof. unfold fmax. destruct (fgt b a); auto. Qed.

Lemma zmin_of_lower (xs : list Z) (y : Z) :
  In y xs -> exists lo, zmin_of xs = Some lo /\ (lo <= y)%Z.
Proof.
  destruct xs as [| x xs]; [intros [] |]. intros Hin.
  eexists. split; [reflexivity |]. now apply zmin_list_lower.
Qed.

Lemma zmax_of_upper (xs : list Z) (y : Z) :
  In y xs -> exists hi, zmax_of xs = Some hi /\ (y <= hi)%Z.
Proof.
  destruct xs as [| x xs]; [intros [] |]. intros Hin.
  eexists. split; [reflexivity |]. now apply zmax_list_upper.
Qed.

Lemma fmin_list_lower (xs : list pyfloat) (x y : pyfloat) :
  Forall (fun a => is_nan a = false) (x :: xs) ->
  In y (x :: xs) -> fle (fmin_list x xs) y = true.
Proof.
  unfold fmin_list. revert x.
  induction xs as [| a xs IH]; intros x Hnan Hin.
  - destruct Hin as [<- | []]. apply fle_refl. now inversion Hnan.
  - inversion Hnan as [| ? ? Hx Hrest]; subst.
    inversion Hrest as [| ? ? Ha Hxs]; subst.
    simpl.
    assert (Hstep : is_nan (fmin x a) = false /\
                    fle (fmin x a) x = true /\ fle (fmin x a) a = true).
    { unfold fmin. destruct (flt a x) eqn:E.
      - split; [exact Ha |]. split; [now apply flt_fle | now apply fle_refl].
      - split; [exact Hx |]. split; [now apply fle_refl |].
        rewrite <- (not_flt_fle a x Ha Hx), E. reflexivity. }
    destruct Hstep as (Hm & Hmx & Hma).
    pose proof (fmin_list_le xs (fmin x a) Hm) as Hle.
    unfold fmin_list in Hle.
    destruct Hin as [<- | [<- | Hin]].
    + exact (fle_trans _ _ _ Hle Hmx).
    + exact (fle_trans _ _ _ Hle Hma).
    + apply IH; [constructor; assumption | now right].
Qed.

Lemma fmax_list_upper (xs : list pyfloat) (x y : pyfloat) :
  Forall (fun a => is_nan a = false) (x :: xs) ->
  In y (x :: xs) -> fle y (fmax_list x xs) = true.
Proof.
  unfold fmax_list. revert x.
  induction xs as [| a xs IH]; intros x Hnan Hin.
  - destruct Hin as [<- | []]. apply fle_refl. now inversion Hnan.
  - inversion Hnan as [| ? ? Hx Hrest]; subst.
    inversion Hrest as [| ? ? Ha Hxs]; subst.
    simpl.
    assert (Hstep : is_nan (fmax x a) = false /\
                    fle x (fmax x a) = true /\ fle a (fmax x a) = true).
    { unfold fmax, fgt. destruct (flt x a) eqn:E.
      - split; [exact Ha |]. split; [now apply flt_fle | now apply fle_refl].
      - split; [exact Hx |]. split; [now apply fle_refl |].
        rewrite <- (not_flt_fle x a Hx Ha), E. reflexivity. }
    destruct Hstep as (Hm & Hmx & Hma).
    pose proof (fmax_list_ge xs (fmax x a) Hm) as Hle.
    unfold fmax_list in Hle.
    destruct Hin as [<- | [<- | Hin]].
    + exact (fle_trans _ _ _ Hmx Hle).
    + exact (fle_trans _ _ _ Hma Hle).
    + apply IH; [constructor; assumption | now right].
Qed.

Lemma summarize_groups_fields (groups : list EnrichedGroup) :
  let totals := map (fun g => total_amount (_metrics g)) groups in
  let risks := map (fun g => risk_score (_metrics g)) groups in
  summarize_groups groups
  = mkSummaryStats (fmin_of totals) (fmax_of totals)
      (zmin_of risks) (zmax_of risks)
      (zmin_of (pooled_dates groups)) (zmax_of (pooled_dates groups))
      (fmin_of (tx_min_values groups)) (fmax_of (tx_max_values groups)).
Proof. destruct groups; reflexivity. Qed.

(** X7: the statistics of [summarize_groups] enclose every group of the
    list: its risk score lies between [min_risk] and [max_risk], and each of
    its [first_seen] and [last_seen] that is present lies between [min_date]
    and [max_date]. *)
Theorem summarize_groups_encloses (groups : list EnrichedGroup)
  (group : EnrichedGroup) :
  In group groups ->
  let stats := summarize_groups groups in
  (exists lo hi,
     min_risk_stat stats = Some lo /\ max_risk_stat stats = Some hi /\
     (lo <= risk_score (_metrics group) <= hi)%Z) /\
  (forall t,
     first_seen (_metrics group) = Some t \/
     last_seen (_metrics group) = Some t ->
     exists lo hi,
       min_date stats = Some lo /\ max_date stats = Some hi /\
       (lo <= t <= hi)%Z).
Proof.
  intros Hin stats. subst stats. rewrite summarize_groups_fields.
  cbn [min_risk_stat max_risk_stat min_date max_date]. split.
  - assert (Hmem : In (risk_score (_metrics group))
                     (map (fun g => risk_score (_metrics g)) groups)).
    { apply in_map_iff. now exists group. }
    destruct (zmin_of_lower _ _ Hmem) as (lo & -> & Hlo).
    destruct (zmax_of_upper _ _ Hmem) as (hi & -> & Hhi).
    exists lo, hi. auto.
  - intros t Ht.
    assert (Hmem : In t (pooled_dates groups)).
    { unfold pooled_dates. apply in_flat_map. exists group.
      split; [exact Hin |]. apply in_or_app.
      destruct Ht as [-> | ->]; [left | right]; now left. }
    destruct (zmin_of_lower _ _ Hmem) as (lo & -> & Hlo).
    destruct (zmax_of_upper _ _ Hmem) as (hi & -> & Hhi).
    exists lo, hi. auto.
Qed.

(** X8: when no total of the list is NaN, [min_total_amount] and
    [max_total_amount] are present for a non-empty list and the total of
    every group lies between them. *)
Theorem summarize_groups_encloses_totals (groups : list EnrichedGroup)
  (group : EnrichedGroup) :
  Forall (fun g => is_nan (total_amount (_metrics g)) = false) groups ->
  In group groups ->
  exists lo hi,
    min_total_amount (summarize_groups groups) = Some lo /\
    max_total_amount (summarize_groups groups) = Some hi /\
    fle lo (total_amount (_metrics group)) = true /\
    fle (total_amount (_metrics group)) hi = true.
Proof.
  intros Hnan Hin. rewrite summarize_groups_fields.
  cbn [min_total_amount max_total_amount].
  assert (Hmem : In (total_amount (_metrics group))
                   (map (fun g => total_amount (_metrics g)) groups)).
  { apply in_map_iff. now exists group. }
  assert (Hall : Forall (fun a => is_nan a = false)
                   (map (fun g => total_amount (_metrics g)) groups)).
  { apply Forall_map. exact Hnan. }
  destruct (map (fun g => total_amount (_metrics g)) groups) as [| x xs];
    [destruct Hmem |].
  exists (fmin_list x xs), (fmax_list x xs). simpl.
  split; [reflexivity |]. split; [reflexivity |].
  split; [now apply fmin_list_lower | now apply fmax_list_upper].
Qed.

Lemma group_kept_bounds (filters : GroupFilters) (reported_ids : list string)
  (group : EnrichedGroup) :
  group_kept filters reported_ids group = Ok true ->
  (min_risk filters <= risk_score (_metrics group))%Z /\
  flt (total_amount (_metrics group)) (min_total filters) = false /\
  fgt (total_amount (_metrics group)) (max_total filters) = false.
Proof.
  unfold group_kept. intros H.
  destruct (risk_score (_metrics group) <? min_risk filters)%Z eqn:Hrisk;
    [discriminate |].
  apply Z.ltb_ge in Hrisk.
  destruct (flt (total_amount (_metrics group)) (min_total filters));
    [discriminate |].
  destruct (fgt (total_amount (_metrics group)) (max_total filters));
    [discriminate |].
  auto.
Qed.

(** X9: the statistics of a filtered list, as [list_groups] computes them,
    stay within the filter: [min_risk] of the statistics is not below the
    filter's [min_risk], and neither [min_total_amount] nor
    [max_total_amount] is below the filter's [min_total] or above its
    [max_total]. *)
Theorem filtered_summary_within_filter (groups filtered : list EnrichedGroup)
  (filters : GroupFilters) (reported_ids : list string) :
  filter_groups groups filters reported_ids = Ok filtered ->
  let stats := summarize_groups filtered in
  (forall lo, min_risk_stat stats = Some lo -> (min_risk filters <= lo)%Z) /\
  (forall a, min_total_amount stats = Some a \/
             max_total_amount stats = Some a ->
             flt a (min_total filters) = false /\
             fgt a (max_total filters) = false).
Proof.
  intros H stats. subst stats.
  apply filter_groups_inv in H. destruct H as [Hres _].
  assert (Hkept : Forall (fun g =>
                    (min_risk filters <= risk_score (_metrics g))%Z /\
                    flt (total_amount (_metrics g)) (min_total filters) = false /\
                    fgt (total_amount (_metrics g)) (max_total filters) = false)
                    filtered).
  { subst filtered. apply Forall_forall. intros g Hg.
    apply filter_In in Hg. destruct Hg as [_ Hg].
    apply (group_kept_bounds filters reported_ids).
    unfold kept in Hg.
    destruct (group_kept filters reported_ids g) as [[|] | e];
      [reflexivity | discriminate | discriminate]. }
  clear Hres. rewrite summarize_groups_fields.
  cbn [min_risk_stat min_total_amount max_total_amount].
  rewrite Forall_forall in Hkept.
  destruct filtered as [| g rest]; simpl.
  - split; [discriminate | intros a [Ha | Ha]; discriminate].
  - split.
    + intros lo Hlo. injection Hlo as <-.
      pose proof (fold_left_choice zmin
                    (map (fun g => risk_score (_metrics g)) rest)
                    (risk_score (_metrics g))) as Hpick.
      fold (zmin_list (risk_score (_metrics g))
              (map (fun g => risk_score (_metrics g)) rest)) in Hpick.
      assert (Hmem : In (zmin_list (risk_score (_metrics g))
                          (map (fun g => risk_score (_metrics g)) rest))
                       (map (fun g => risk_score (_metrics g)) (g :: rest))).
      { apply Hpick. intros a b. unfold zmin. destruct (b <? a)%Z; auto. }
      apply in_map_iff in Hmem. destruct Hmem as (g' & <- & Hg').
      now apply Hkept.
    + intros a Ha.
      assert (Hmem : In a (map (fun g => total_amount (_metrics g))
                             (g :: rest))).
      { destruct Ha as [Ha | Ha]; injection Ha as <-.
        - apply (fold_left_choice fmin). exact fmin_choice.
        - apply (fold_left_choice fmax). exact fmax_choice. }
      apply in_map_iff in Hmem. destruct Hmem as (g' & <- & Hg').
      now apply Hkept.
Qed.

(** The three theorems above on the sample groups. *)
Lemma summarize_groups_encloses_witness :
  In negative_total_enriched sample_groups /\
  (exists lo hi,
     min_risk_stat (summarize_groups sample_groups) = Some lo /\
     max_risk_stat (summarize_groups sample_groups) = Some hi /\
     (lo <= risk_score (_metrics negative_total_enriched) <= hi)%Z) /\
  (forall t,
     first_seen (_metrics negative_total_enriched) = Some t \/
     last_seen (_metrics negative_total_enriched) = Some t ->
     exists lo hi,
       min_date (summarize_groups sample_groups) = Some lo /\
       max_date (summarize_groups sample_groups) = Some hi /\
       (lo <= t <= hi)%Z).
Proof.
  split; [simpl; auto |].
  apply (summarize_groups_encloses sample_groups negative_total_enriched).
  simpl; auto.
Defined.

Lemma summarize_groups_encloses_totals_witness :
  Forall (fun g => is_nan (total_amount (_metrics g)) = false) network_groups /\
  In spec_example_enriched_group network_groups /\
  exists lo hi,
    min_total_amount (summarize_groups network_groups) = Some lo /\
    max_total_amount (summarize_groups network_groups) = Some hi /\
    fle lo (total_amount (_metrics spec_example_enriched_group)) = true /\
    fle (total_amount (_metrics spec_example_enriched_group)) hi = true.
Proof.
  split; [repeat constructor |].
  split; [simpl; auto |].
  apply (summarize_groups_encloses_totals network_groups
           spec_example_enriched_group).
  - repeat constructor.
  - simpl; auto.
Defined.

Lemma filtered_summary_within_filter_witness :
  filter_groups sample_groups range_filters []
  = Ok [nan_total_enriched; spec_example_enriched_group] /\
  (forall lo,
     min_risk_stat
       (summarize_groups [nan_total_enriched; spec_example_enriched_group])
     = Some lo -> (min_risk range_filters <= lo)%Z) /\
  (forall a,
     min_total_amount
       (summarize_groups [nan_total_enriched; spec_example_enriched_group])
     = Some a \/
     max_total_amount
       (summarize_groups [nan_total_enriched; spec_example_enriched_group])
     = Some a ->
     flt a (min_total range_filters) = false /\
     fgt a (max_total range_filters) = false).
Proof.
  split; [vm_compute; reflexivity |].
  apply (filtered_summary_within_filter sample_groups
           [nan_total_enriched; spec_example_enriched_group]
           range_filters []).
  vm_compute; reflexivity.
Defined.

(* ------------------------------------------------------------------ *)
(** *** Network graph: the nodes *)

Lemma endpoint_incl (keys keys' : list json) (e : json) :
  incl keys keys' -> endpoint keys e -> endpoint keys' e.
Proof.
  intros Hincl (Hh & k & Hk & Hs). split; [exact Hh |].
  exists k. split; [now apply Hincl | exact Hs].
Qed.

Lemma edges_accumulate_keys (key : EdgeKey) (amount : pyfloat)
  (direction : string) (edges : list (EdgeKey * EdgeData))
  (kd : EdgeKey * EdgeData) :
  In kd (edges_accumulate key amount direction edges) ->
  fst kd = key \/ In (fst kd) (map fst edges).
Proof.
  induction edges as [| [k data] edges IH]; simpl.
  - intros [<- | []]. now left.
  - destruct (key_eqb key k).
    + intros [<- | Hin]; [right; now left |].
      right; right. now apply in_map.
    + intros [<- | Hin]; [right; now left |].
      destruct (IH Hin); auto.
Qed.

Lemma edges_accumulate_count (key : EdgeKey) (amount : pyfloat)
  (direction : string) (edges : list (EdgeKey * EdgeData)) :
  list_sum (map (fun kd => data_count (snd kd))
              (edges_accumulate key amount direction edges))
  = S (list_sum (map (fun kd => data_count (snd kd)) edges)).
Proof.
  induction edges as [| [k data] edges IH]; simpl; [reflexivity |].
  destruct (key_eqb key k); simpl; [reflexivity |].
  rewrite IH. lia.
Qed.

Lemma nodes_store_map_fst (k : json) (node : NetworkNode)
  (nodes : list (json * NetworkNode)) :
  map fst (nodes_store k node nodes)
  = if existsb (py_eqb k) (map fst nodes) then map fst nodes
    else map fst nodes ++ [k].
Proof.
  induction nodes as [| [k' n] nodes IH]; simpl; [reflexivity |].
  destruct (py_eqb k k'); simpl; [reflexivity |].
  rewrite IH. now destruct (existsb (py_eqb k) (map fst nodes)).
Qed.

Lemma nodes_store_Forall (P : json * NetworkNode -> Prop) (k : json)
  (node : NetworkNode) (nodes : list (json * NetworkNode)) :
  Forall P nodes ->
  (forall k' n', In (k', n') nodes -> py_eqb k k' = true -> P (k', node)) ->
  P (k, node) ->
  Forall P (nodes_store k node nodes).
Proof.
  intros Hall Hfound Hnew.
  induction nodes as [| [k' n] nodes IH]; simpl.
  - constructor; [exact Hnew | constructor].
  - inversion Hall as [| ? ? Hhead Htail]; subst.
    destruct (py_eqb k k') eqn:E.
    + constructor; [| exact Htail].
      apply (Hfound k' n); [now left | exact E].
    + constructor; [exact Hhead |].
      apply IH; [exact Htail |].
      intros k'' n' Hin. apply (Hfound k'' n'). now right.
Qed.

Lemma ForallOrdPairs_snoc {A : Type} (R : A -> A -> Prop) (l : list A) (x : A) :
  ForallOrdPairs R l -> Forall (fun a => R a x) l ->
  ForallOrdPairs R (l ++ [x]).
Proof.
  induction 1 as [| a l Ha _ IH]; intros Hx; simpl.
  - constructor; constructor.
  - inversion Hx as [| ? ? Hax Hlx]; subst.
    constructor; [| now apply IH].
    apply Forall_app. split; [exact Ha |]. constructor; [exact Hax | constructor].
Qed.

Lemma existsb_py_eqb_fresh (x : json) (keys : list json) :
  hashable x = true ->
  Forall (fun k => hashable k = true) keys ->
  existsb (py_eqb x) keys = false ->
  Forall (fun k => py_eqb k x = false) keys.
Proof.
  intros Hx Hkeys Hfresh. rewrite Forall_forall in *. intros k Hk.
  rewrite (py_eqb_sym k x (Hkeys k Hk) Hx).
  destruct (py_eqb x k) eqn:E; [| reflexivity].
  assert (Ht : existsb (py_eqb x) keys = true)
    by (apply existsb_exists; exists k; auto).
  congruence.
Qed.

Lemma py_same_join (e k i : json) :
  hashable e = true -> hashable k = true -> hashable i = true ->
  py_same e k -> py_same i k -> py_same e i.
Proof.
  intros He Hk Hi [-> | Hek] [-> | Hik].
  - now left.
  - right. now rewrite (py_eqb_sym k i Hk Hi).
  - now right.
  - right. apply (py_eqb_trans e k i He Hk Hek).
    now rewrite (py_eqb_sym k i Hk Hi).
Qed.

Lemma py_same_apart (ka kb ia ib : json) :
  hashable ka = true -> hashable kb = true ->
  hashable ia = true -> hashable ib = true ->
  py_same ia ka -> py_same ib kb ->
  py_eqb ka kb = false -> py_eqb ia ib = false.
Proof.
  intros Hka Hkb Hia Hib Ha Hb Hk.
  destruct (py_eqb ia ib) eqn:E; [| reflexivity].
  assert (Hkab : py_eqb ka kb = true); [| congruence].
  assert (Hka_ib : py_eqb ka ib = true).
  { destruct Ha as [<- | Ha]; [exact E |].
    apply (py_eqb_trans ka ia ib Hka Hia); [| exact E].
    now rewrite (py_eqb_sym ka ia Hka Hia). }
  destruct Hb as [<- | Hb]; [exact Hka_ib |].
  exact (py_eqb_trans ka ib kb Hka Hib Hka_ib Hb).
Qed.

Section NetworkNodes.

Variable float_of_str : string -> option pyfloat.
Variable reported_ids : list string.
Variable highlight_reported : bool.
Variable groups : list EnrichedGroup.

Lemma network_tx_inv (group_id : json)
  (nodes nodes' : list (json * NetworkNode))
  (edges edges' : list (EdgeKey * EdgeData)) (tx : ParsedTx) :
  network_tx float_of_str group_id (nodes, edges) tx = Ok (nodes', edges') ->
  let counterparty := dict_get (tx_fields tx) "counterparty_id" in
  (truthy counterparty = false /\ nodes' = nodes /\ edges' = edges) \/
  (truthy counterparty = true /\ hashable counterparty = true /\
   ((existsb (py_eqb counterparty) (map fst nodes) = true /\ nodes' = nodes) \/
    (existsb (py_eqb counterparty) (map fst nodes) = false /\
     exists label,
       py_take 24 counterparty = Ok label /\
       nodes' = nodes ++ [(counterparty,
                           mkNetworkNode counterparty label "counterparty"
                             None None None false)])) /\
   exists amount direction,
     edges' = edges_accumulate
                (if str_in direction INCOMING
                 then (counterparty, group_id) else (group_id, counterparty))
                amount direction edges).
Proof.
  intros H. cbv zeta. unfold network_tx in H.
  destruct (truthy (dict_get (tx_fields tx) "counterparty_id")) eqn:Htruthy;
    cbn [negb] in H.
  - right.
    apply bind_ok in H. destruct H as [known [Eknown H]].
    apply set_mem_ok in Eknown. destruct Eknown as [Hcp ->].
    apply bind_ok in H. destruct H as [nodes1 [Enodes H]].
    apply bind_ok in H. destruct H as [amount [Eamount H]].
    apply bind_ok in H. destruct H as [direction [Edirection H]].
    injection H as <- <-.
    split; [reflexivity |]. split; [exact Hcp |]. split.
    + destruct (existsb _ (map fst nodes)) eqn:Hknown.
      * injection Enodes as <-. left. auto.
      * apply bind_ok in Enodes. destruct Enodes as [label [Elabel Enodes]].
        injection Enodes as <-. right. split; [reflexivity |].
        exists label. auto.
    + exists amount, direction. reflexivity.
  - left. injection H as <- <-. auto.
Qed.

Lemma network_tx_invariant (group : EnrichedGroup) (tx : ParsedTx)
  (nodes nodes' : list (json * NetworkNode))
  (edges edges' : list (EdgeKey * EdgeData)) :
  In group groups -> truthy (group_get group "group_id") = true ->
  In tx (_transactions group) ->
  network_tx float_of_str (group_get group "group_id") (nodes, edges) tx
  = Ok (nodes', edges') ->
  network_invariant reported_ids highlight_reported groups (nodes, edges) ->
  endpoint (map fst nodes) (group_get group "group_id") ->
  network_invariant reported_ids highlight_reported groups (nodes', edges') /\
  endpoint (map fst nodes') (group_get group "group_id").
Proof.
  intros Hgroup Hid Htx H (Hnodes & Hkeys & Hedges) Hgid.
  cbn [fst snd] in Hnodes, Hkeys, Hedges.
  apply network_tx_inv in H. cbv zeta in H.
  destruct H as [(_ & -> & ->) | (Htruthy & Hcp & Hstore & amount & direction & ->)].
  { split; [| exact Hgid]. repeat split; assumption. }
  assert (Hstep :
    Forall (fun kn => hashable (fst kn) = true /\
                      hashable (node_id (snd kn)) = true /\
                      py_same (node_id (snd kn)) (fst kn) /\
                      node_origin reported_ids highlight_reported groups
                        (snd kn)) nodes' /\
    ForallOrdPairs (fun a b => py_eqb a b = false) (map fst nodes') /\
    incl (map fst nodes) (map fst nodes') /\
    endpoint (map fst nodes') (dict_get (tx_fields tx) "counterparty_id")).
  { destruct Hstore as [(Hknown & ->) | (Hfresh & label & Hlabel & ->)].
    - split; [exact Hnodes |]. split; [exact Hkeys |].
      split; [apply incl_refl |]. split; [exact Hcp |].
      apply existsb_exists in Hknown. destruct Hknown as (k & Hk & Heq).
      exists k. split; [exact Hk | now right].
    - rewrite map_app. cbn [map fst]. split; [| split; [| split]].
      + apply Forall_app. split; [exact Hnodes |].
        constructor; [| constructor]. cbn [fst snd node_id].
        split; [exact Hcp |]. split; [exact Hcp |]. split; [now left |].
        right. exists group, tx.
        split; [exact Hgroup |]. split; [exact Hid |].
        split; [exact Htx |]. split; [exact Htruthy |].
        exists label. auto.
      + apply ForallOrdPairs_snoc; [exact Hkeys |].
        apply existsb_py_eqb_fresh; [exact Hcp | | exact Hfresh].
        apply Forall_map. eapply Forall_impl; [| exact Hnodes].
        intros kn Hkn. apply Hkn.
      + apply incl_appl, incl_refl.
      + split; [exact Hcp |].
        exists (dict_get (tx_fields tx) "counterparty_id").
        split; [apply in_or_app; right; now left | now left]. }
  destruct Hstep as (Hnodes' & Hkeys' & Hincl & Hcounterparty).
  assert (Hgid' : endpoint (map fst nodes') (group_get group "group_id"))
    by exact (endpoint_incl _ _ _ Hincl Hgid).
  split; [| exact Hgid'].
  split; [exact Hnodes' |]. split; [exact Hkeys' |]. cbn [fst snd].
  apply Forall_forall. intros kd Hkd. cbv beta.
  apply edges_accumulate_keys in Hkd. destruct kd as [[src dst] data].
  cbn [fst snd] in Hkd |- *. destruct Hkd as [Hnew | Hold].
  - destruct (str_in direction INCOMING); injection Hnew as -> ->; auto.
  - apply in_map_iff in Hold. destruct Hold as ([[src' dst'] data'] & Heq & Hin).
    rewrite Forall_forall in Hedges.
    destruct (Hedges _ Hin) as [Hs Hd].
    cbn [fst snd] in Heq, Hs, Hd. injection Heq as -> ->.
    split; eapply endpoint_incl; eassumption.
Qed.

Lemma network_tx_loop_invariant (group : EnrichedGroup) (txs : list ParsedTx)
  (nodes nodes' : list (json * NetworkNode))
  (edges edges' : list (EdgeKey * EdgeData)) :
  In group groups -> truthy (group_get group "group_id") = true ->
  incl txs (_transactions group) ->
  foldM (network_tx float_of_str (group_get group "group_id")) txs
    (nodes, edges) = Ok (nodes', edges') ->
  network_invariant reported_ids highlight_reported groups (nodes, edges) ->
  endpoint (map fst nodes) (group_get group "group_id") ->
  network_invariant reported_ids highlight_reported groups (nodes', edges').
Proof.
  intros Hgroup Hid. revert nodes edges.
  induction txs as [| tx txs IH]; intros nodes edges Hincl H Hinv Hgid;
    simpl in H.
  - injection H as <- <-. exact Hinv.
  - apply bind_ok in H. destruct H as [[nodes1 edges1] [Etx H]].
    destruct (network_tx_invariant group tx nodes nodes1 edges edges1
                Hgroup Hid (Hincl tx (or_introl eq_refl)) Etx Hinv Hgid)
      as [Hinv1 Hgid1].
    apply (IH nodes1 edges1); try assumption.
    intros x Hx. apply Hincl. now right.
Qed.

Lemma network_group_invariant (group : EnrichedGroup)
  (nodes nodes' : list (json * NetworkNode))
  (edges edges' : list (EdgeKey * EdgeData)) :
  In group groups ->
  network_group float_of_str reported_ids highlight_reported (nodes, edges)
    group = Ok (nodes', edges') ->
  network_invariant reported_ids highlight_reported groups (nodes, edges) ->
  network_invariant reported_ids highlight_reported groups (nodes', edges').
Proof.
  intros Hgroup H Hinv. unfold network_group in H.
  destruct (truthy (group_get group "group_id")) eqn:Hid; cbn [negb] in H.
  2: { injection H as <- <-. exact Hinv. }
  apply bind_ok in H. destruct H as [highlight [Ehighlight H]].
  apply bind_ok in H. destruct H as [nodes0 [Eset H]].
  unfold nodes_set in Eset.
  destruct (hashable (group_get group "group_id")) eqn:Hh;
    [| discriminate Eset].
  injection Eset as <-.
  destruct Hinv as (Hnodes & Hkeys & Hedges).
  cbn [fst snd] in Hnodes, Hkeys, Hedges.
  assert (Hhash : Forall (fun k => hashable k = true) (map fst nodes)).
  { apply Forall_map. eapply Forall_impl; [| exact Hnodes].
    intros kn Hkn. apply Hkn. }
  assert (Horigin : node_origin reported_ids highlight_reported groups
                      (mkNetworkNode (group_get group "group_id")
                         (py_or (_display_name group)
                            (group_get group "group_id"))
                         "group" (Some (risk_score (_metrics group)))
                         (Some (member_count (_metrics group)))
                         (Some (total_amount (_metrics group))) highlight)).
  { left. exists group. split; [exact Hgroup |]. split; [exact Hid |].
    exists highlight. auto. }
  apply (network_tx_loop_invariant group (_transactions group) _ nodes'
           edges edges' Hgroup Hid (incl_refl _) H).
  - split; [| split]; cbn [fst snd].
    + apply nodes_store_Forall; [exact Hnodes | |].
      * intros k' n' Hin Heq. cbn [fst snd node_id].
        rewrite Forall_forall in Hnodes.
        destruct (Hnodes (k', n') Hin) as (Hk' & _).
        split; [exact Hk' |]. split; [exact Hh |].
        split; [now right | exact Horigin].
      * cbn [fst snd node_id]. split; [exact Hh |]. split; [exact Hh |].
        split; [now left | exact Horigin].
    + rewrite nodes_store_map_fst.
      destruct (existsb (py_eqb (group_get group "group_id")) (map fst nodes))
        eqn:Hknown; [exact Hkeys |].
      apply ForallOrdPairs_snoc; [exact Hkeys |].
      now apply existsb_py_eqb_fresh.
    + eapply Forall_impl; [| exact Hedges].
      intros kd [Hs Hd].
      assert (Hincl : incl (map fst nodes)
                        (map fst (nodes_store (group_get group "group_id")
                                    (mkNetworkNode (group_get group "group_id")
                                       (py_or (_display_name group)
                                          (group_get group "group_id"))
                                       "group"
                                       (Some (risk_score (_metrics group)))
                                       (Some (member_count (_metrics group)))
                                       (Some (total_amount (_metrics group)))
                                       highlight) nodes))).
      { rewrite nodes_store_map_fst.
        destruct (existsb _ (map fst nodes));
          [apply incl_refl | apply incl_appl, incl_refl]. }
      split; eapply endpoint_incl; eassumption.
  - split; [exact Hh |]. rewrite nodes_store_map_fst.
    destruct (existsb (py_eqb (group_get group "group_id")) (map fst nodes))
      eqn:Hknown.
    + apply existsb_exists in Hknown. destruct Hknown as (k & Hk & Heq).
      exists k. split; [exact Hk | now right].
    + exists (group_get group "group_id").
      split; [apply in_or_app; right; now left | now left].
Qed.

Lemma network_group_loop_invariant (gs : list EnrichedGroup)
  (nodes nodes' : list (json * NetworkNode))
  (edges edges' : list (EdgeKey * EdgeData)) :
  incl gs groups ->
  foldM (network_group float_of_str reported_ids highlight_reported) gs
    (nodes, edges) = Ok (nodes', edges') ->
  network_invariant reported_ids highlight_reported groups (nodes, edges) ->
  network_invariant reported_ids highlight_reported groups (nodes', edges').
Proof.
  revert nodes edges.
  induction gs as [| g gs IH]; intros nodes edges Hincl H Hinv; simpl in H.
  - injection H as <- <-. exact Hinv.
  - apply bind_ok in H. destruct H as [[nodes1 edges1] [Eg H]].
    apply (IH nodes1 edges1); [| exact H |].
    + intros x Hx. apply Hincl. now right.
    + apply (network_group_invariant g nodes nodes1 edges edges1);
        [apply Hincl; now left | exact Eg | exact Hinv].
Qed.

Lemma build_network_invariant (response : NetworkResponse) :
  build_network_payload float_of_str groups reported_ids highlight_reported
  = Ok response ->
  exists nodes edges,
    response = mkNetworkResponse (map snd nodes) (map edge_model edges) /\
    foldM (network_group float_of_str reported_ids highlight_reported) groups
      ([], []) = Ok (nodes, edges) /\
    network_invariant reported_ids highlight_reported groups (nodes, edges).
Proof.
  unfold build_network_payload. intros H.
  apply bind_ok in H. destruct H as [[nodes edges] [Eloop H]].
  injection H as <-. exists nodes, edges.
  split; [reflexivity |]. split; [exact Eloop |].
  apply (network_group_loop_invariant groups [] nodes [] edges
           (incl_refl _) Eloop).
  split; [constructor |]. split; constructor.
Qed.

End NetworkNodes.

Section NetworkCounts.

Variable float_of_str : string -> option pyfloat.

Lemma network_tx_count (group_id : json)
  (nodes nodes' : list (json * NetworkNode))
  (edges edges' : list (EdgeKey * EdgeData)) (tx : ParsedTx) :
  network_tx float_of_str group_id (nodes, edges) tx = Ok (nodes', edges') ->
  list_sum (map (fun kd => data_count (snd kd)) edges')
  = (list_sum (map (fun kd => data_count (snd kd)) edges)
     + length (tx_contribution float_of_str group_id tx))%nat.
Proof.
  intros H. apply network_tx_inv in H. cbv zeta in H.
  unfold tx_contribution.
  destruct H as [(-> & _ & ->) | (-> & _ & _ & amount & direction & ->)].
  - simpl. lia.
  - rewrite edges_accumulate_count. simpl. lia.
Qed.

Lemma network_tx_loop_count (group_id : json) (txs : list ParsedTx)
  (nodes nodes' : list (json * NetworkNode))
  (edges edges' : list (EdgeKey * EdgeData)) :
  foldM (network_tx float_of_str group_id) txs (nodes, edges)
  = Ok (nodes', edges') ->
  list_sum (map (fun kd => data_count (snd kd)) edges')
  = (list_sum (map (fun kd => data_count (snd kd)) edges)
     + length (flat_map (tx_contribution float_of_str group_id) txs))%nat.
Proof.
  revert nodes edges.
  induction txs as [| tx txs IH]; intros nodes edges H; simpl in H.
  - injection H as <- <-. simpl. lia.
  - apply bind_ok in H. destruct H as [[nodes1 edges1] [Etx H]].
    apply network_tx_count in Etx. apply IH in H.
    cbn [flat_map]. rewrite length_app. lia.
Qed.

Lemma network_group_loop_count (reported_ids : list string)
  (highlight_reported : bool) (groups : list EnrichedGroup)
  (nodes nodes' : list (json * NetworkNode))
  (edges edges' : list (EdgeKey * EdgeData)) :
  foldM (network_group float_of_str reported_ids highlight_reported) groups
    (nodes, edges) = Ok (nodes', edges') ->
  list_sum (map (fun kd => data_count (snd kd)) edges')
  = (list_sum (map (fun kd => data_count (snd kd)) edges)
     + length (contributions float_of_str groups))%nat.
Proof.
  unfold contributions. revert nodes edges.
  induction groups as [| g groups IH]; intros nodes edges H; simpl in H.
  - injection H as <- <-. simpl. lia.
  - apply bind_ok in H. destruct H as [[nodes1 edges1] [Eg H]].
    apply IH in H. cbn [flat_map]. rewrite length_app, H.
    unfold network_group in Eg.
    destruct (truthy (group_get g "group_id")); cbn [negb] in Eg.
    + apply bind_ok in Eg. destruct Eg as [flag [_ Eg]].
      apply bind_ok in Eg. destruct Eg as [nodes0 [_ Eg]].
      apply network_tx_loop_count in Eg. lia.
    + injection Eg as <- <-. simpl. lia.
Qed.

End NetworkCounts.

Section NetworkGraph.

Variable float_of_str : string -> option pyfloat.

(** X10: every node of the graph has an origin in the input: it is the
    node of a group of the list that has an id, with that id, the display
    name or else the id as label, the kind ["group"], the three metrics of
    the group and the highlight flag, or it is the node of the counterparty
    of a transaction of such a group, labelled with the first 24 characters
    of the counterparty id and without metrics or highlight. *)
Theorem network_nodes_have_origin (groups : list EnrichedGroup)
  (reported_ids : list string) (highlight_reported : bool)
  (response : NetworkResponse) :
  build_network_payload float_of_str groups reported_ids highlight_reported
  = Ok response ->
  Forall (node_origin reported_ids highlight_reported groups)
    (response_nodes response).
Proof.
  intros H. apply build_network_invariant in H.
  destruct H as (nodes & edges & -> & _ & Hnodes & _).
  cbn [response_nodes fst] in *. apply Forall_map.
  eapply Forall_impl; [| exact Hnodes].
  intros kn Hkn. apply Hkn.
Qed.

(** X11: no two nodes of the graph have equal ids. *)
Theorem network_node_ids_distinct (groups : list EnrichedGroup)
  (reported_ids : list string) (highlight_reported : bool)
  (response : NetworkResponse) :
  build_network_payload float_of_str groups reported_ids highlight_reported
  = Ok response ->
  ForallOrdPairs (fun a b => py_eqb (node_id a) (node_id b) = false)
    (response_nodes response).
Proof.
  intros H. apply build_network_invariant in H.
  destruct H as (nodes & edges & -> & _ & Hnodes & Hkeys & _).
  cbn [response_nodes fst] in *.
  induction nodes as [| [k n] nodes IH]; simpl; [constructor |].
  inversion Hnodes as [| ? ? (Hk & Hn & Hsame & _) Hrest]; subst.
  simpl in Hkeys. inversion Hkeys as [| ? ? Hhead Htail]; subst.
  cbn [fst snd] in *.
  constructor; [| now apply IH].
  apply Forall_map. rewrite Forall_forall in Hrest, Hhead.
  apply Forall_forall. intros [k' n'] Hin. cbn [snd].
  destruct (Hrest _ Hin) as (Hk' & Hn' & Hsame' & _). cbn [fst snd] in *.
  apply (py_same_apart k k' (node_id n) (node_id n')); try assumption.
  apply Hhead. apply in_map_iff. exists (k', n'). auto.
Qed.

(** X12: both ends of every edge of the graph are nodes of the graph: the
    source and the target are the id of a node, or equal to it. *)
Theorem network_edges_join_nodes (groups : list EnrichedGroup)
  (reported_ids : list string) (highlight_reported : bool)
  (response : NetworkResponse) (edge : NetworkEdge) :
  build_network_payload float_of_str groups reported_ids highlight_reported
  = Ok response ->
  In edge (response_edges response) ->
  exists source target,
    In source (response_nodes response) /\
    In target (response_nodes response) /\
    py_same (edge_source edge) (node_id source) /\
    py_same (edge_target edge) (node_id target).
Proof.
  intros H Hedge. apply build_network_invariant in H.
  destruct H as (nodes & edges & -> & _ & Hnodes & _ & Hedges).
  cbn [response_nodes response_edges fst snd] in *.
  apply in_map_iff in Hedge. destruct Hedge as ([[src dst] data] & <- & Hin).
  rewrite Forall_forall in Hedges, Hnodes.
  destruct (Hedges _ Hin) as [Hs Hd]. cbn [fst snd] in Hs, Hd.
  cbn [edge_model edge_source edge_target].
  assert (Hfind : forall e, endpoint (map fst nodes) e ->
                  exists n, In n (map snd nodes) /\ py_same e (node_id n)).
  { intros e (He & k & Hk & Hsame).
    apply in_map_iff in Hk. destruct Hk as ([k' n] & <- & Hkn).
    destruct (Hnodes _ Hkn) as (Hk' & Hn & Hid & _). cbn [fst snd] in *.
    exists n. split; [apply in_map_iff; exists (k', n); auto |].
    exact (py_same_join e k' (node_id n) He Hk' Hn Hsame Hid). }
  destruct (Hfind src Hs) as (source & Hsource & Hsrc).
  destruct (Hfind dst Hd) as (target & Htarget & Hdst).
  exists source, target. auto.
Qed.

(** X13: a node is highlighted only when [highlight_reported] is set, the
    node is a group node and its id is in [reported_ids]; the node of a
    counterparty carries no metrics. *)
Theorem network_highlight_reported (groups : list EnrichedGroup)
  (reported_ids : list string) (highlight_reported : bool)
  (response : NetworkResponse) (node : NetworkNode) :
  build_network_payload float_of_str groups reported_ids highlight_reported
  = Ok response ->
  In node (response_nodes response) ->
  (node_highlight node = true ->
   highlight_reported = true /\ node_kind node = "group" /\
   in_str_set (node_id node) reported_ids = Ok true) /\
  (node_kind node = "group" \/
   node_kind node = "counterparty" /\ node_risk_score node = None /\
   node_member_count node = None /\ node_total_amount node = None).
Proof.
  intros H Hnode. apply build_network_invariant in H.
  destruct H as (nodes & edges & -> & _ & Hnodes & _).
  cbn [response_nodes fst] in *.
  apply in_map_iff in Hnode. destruct Hnode as ([k n] & <- & Hin).
  rewrite Forall_forall in Hnodes.
  destruct (Hnodes _ Hin) as (_ & _ & _ & Horigin). cbn [snd] in *.
  destruct Horigin as [(g & _ & _ & highlight & Hflag & ->)
                      | (g & tx & _ & _ & _ & _ & label & _ & ->)];
    cbn [node_highlight node_kind node_id node_risk_score node_member_count
         node_total_amount].
  - split; [| now left]. intros ->.
    destruct highlight_reported; [auto | discriminate].
  - split; [discriminate | right; auto].
Qed.

(** X14: the counts of the edges add up to the number of transactions that
    have a counterparty, over the groups that have an id. *)
Theorem network_edge_counts_total (groups : list EnrichedGroup)
  (reported_ids : list string) (highlight_reported : bool)
  (response : NetworkResponse) :
  build_network_payload float_of_str groups reported_ids highlight_reported
  = Ok response ->
  list_sum (map edge_count (response_edges response))
  = length (contributions float_of_str groups).
Proof.
  intros H. apply build_network_invariant in H.
  destruct H as (nodes & edges & -> & Hloop & _).
  apply network_group_loop_count in Hloop.
  cbn [response_edges]. rewrite map_map.
  rewrite (map_ext (fun kd => edge_count (edge_model kd))
             (fun kd => data_count (snd kd))).
  - rewrite Hloop. reflexivity.
  - intros [[src dst] data]. reflexivity.
Qed.

End NetworkGraph.

(** The five theorems above at the graph of the groups [G3] and [G1]. *)
Lemma network_nodes_have_origin_witness :
  build_network_payload float_of_decimal network_groups ["G3"] true
  = Ok sample_network /\
  Forall (node_origin ["G3"] true network_groups)
    (response_nodes sample_network).
Proof.
  split; [vm_compute; reflexivity |].
  apply (network_nodes_have_origin float_of_decimal network_groups ["G3"]
           true sample_network).
  vm_compute; reflexivity.
Defined.

Lemma network_node_ids_distinct_witness :
  build_network_payload float_of_decimal network_groups ["G3"] true
  = Ok sample_network /\
  ForallOrdPairs (fun a b => py_eqb (node_id a) (node_id b) = false)
    (response_nodes sample_network).
Proof.
  split; [vm_compute; reflexivity |].
  apply (network_node_ids_distinct float_of_decimal network_groups ["G3"]
           true sample_network).
  vm_compute; reflexivity.
Defined.

Lemma network_edges_join_nodes_witness :
  build_network_payload float_of_decimal network_groups ["G3"] true
  = Ok sample_network /\
  In debit_edge (response_edges sample_network) /\
  exists source target,
    In source (response_nodes sample_network) /\
    In target (response_nodes sample_network) /\
    py_same (edge_source debit_edge) (node_id source) /\
    py_same (edge_target debit_edge) (node_id target).
Proof.
  split; [vm_compute; reflexivity |].
  split; [vm_compute; auto |].
  apply (network_edges_join_nodes float_of_decimal network_groups ["G3"]
           true sample_network debit_edge).
  - vm_compute; reflexivity.
  - vm_compute; auto.
Defined.

Lemma network_highlight_reported_witness :
  build_network_payload float_of_decimal network_groups ["G3"] true
  = Ok sample_network /\
  In highlighted_node (response_nodes sample_network) /\
  (node_highlight highlighted_node = true ->
   true = true /\ node_kind highlighted_node = "group" /\
   in_str_set (node_id highlighted_node) ["G3"] = Ok true) /\
  (node_kind highlighted_node = "group" \/
   node_kind highlighted_node = "counterparty" /\
   node_risk_score highlighted_node = None /\
   node_member_count highlighted_node = None /\
   node_total_amount highlighted_node = None).
Proof.
  split; [vm_compute; reflexivity |].
  split; [vm_compute; auto |].
  apply (network_highlight_reported float_of_decimal network_groups ["G3"]
           true sample_network highlighted_node).
  - vm_compute; reflexivity.
  - vm_compute; auto.
Defined.

Lemma network_edge_counts_total_witness :
  build_network_payload float_of_decimal network_groups ["G3"] true
  = Ok sample_network /\
  list_sum (map edge_count (response_edges sample_network))
  = length (contributions float_of_decimal network_groups).
Proof.
  split; [vm_compute; reflexivity |].
  apply (network_edge_counts_total float_of_decimal network_groups ["G3"]
           true sample_network).
  vm_compute; reflexivity.
Defined.

(* ------------------------------------------------------------------ *)
(** *** Settings *)

Lemma rstrip_cons (c : ascii) (rest : string) :
  rstrip (String c rest)
  = match rstrip rest with
    | EmptyString => if is_space c then EmptyString else String c EmptyString
    | r => String c r
    end.
Proof. reflexivity. Qed.

Lemma rstrip_idempotent (s : string) : rstrip (rstrip s) = rstrip s.
Proof.
  induction s as [| c rest IH]; [reflexivity |].
  rewrite rstrip_cons. destruct (rstrip rest) as [| c' r] eqn:E.
  - destruct (is_space c) eqn:Hc; [reflexivity |].
    rewrite rstrip_cons. cbn [rstrip]. now rewrite Hc.
  - rewrite rstrip_cons, IH. reflexivity.
Qed.

Lemma lstrip_head (s : string) :
  lstrip s = EmptyString \/
  exists c r, lstrip s = String c r /\ is_space c = false.
Proof.
  induction s as [| c rest IH]; [now left |].
  cbn [lstrip]. destruct (is_space c) eqn:Hc; [exact IH |].
  right. exists c, rest. auto.
Qed.

Lemma strip_idempotent (s : string) : strip (strip s) = strip s.
Proof.
  unfold strip.
  assert (Hl : lstrip (rstrip (lstrip s)) = rstrip (lstrip s)).
  { destruct (lstrip_head s) as [-> | (c & r & -> & Hc)]; [reflexivity |].
    rewrite rstrip_cons. destruct (rstrip r); [rewrite Hc |]; cbn [lstrip];
      now rewrite Hc. }
  rewrite Hl. apply rstrip_idempotent.
Qed.

Lemma stripped_checks_clean (strings : list string) :
  Forall (fun c => str_nonempty c = true /\ strip c = c)
    (map strip (filter (fun item => str_nonempty (strip item)) strings)).
Proof.
  apply Forall_map. apply Forall_forall. intros item Hin.
  apply filter_In in Hin. destruct Hin as [_ Hitem].
  split; [exact Hitem | apply strip_idempotent].
Qed.

Lemma default_checks_clean :
  Forall (fun c => str_nonempty c = true /\ strip c = c) DEFAULT_REPORT_CHECKS.
Proof. repeat constructor. Qed.

Section Settings.

Variable str_of : json -> string.

(** X15: the settings that [from_payload] returns always offer report
    checks: the list is never empty, and every check is a non-empty string
    without surrounding whitespace. *)
Theorem from_payload_checks (payload : json) (settings : AppSettings) :
  from_payload str_of payload = Ok settings ->
  report_checks settings <> [] /\
  Forall (fun c => str_nonempty c = true /\ strip c = c)
    (report_checks settings).
Proof.
  unfold from_payload. intros H.
  apply bind_ok in H. destruct H as [title [_ H]].
  apply bind_ok in H. destruct H as [highlight [_ H]].
  apply bind_ok in H. destruct H as [show_summaries [_ H]].
  injection H as <-. cbn [report_checks].
  assert (Hdefault : DEFAULT_REPORT_CHECKS <> [] /\
                     Forall (fun c => str_nonempty c = true /\ strip c = c)
                       DEFAULT_REPORT_CHECKS)
    by (split; [discriminate | exact default_checks_clean]).
  assert (Hraw : forall raw,
            let checks :=
              match raw with
              | JList items =>
                  match all_strings items with
                  | Some strings =>
                      match map strip
                              (filter (fun item => str_nonempty (strip item))
                                 strings)
                      with
                      | [] => DEFAULT_REPORT_CHECKS
                      | c :: rest => c :: rest
                      end
                  | None => DEFAULT_REPORT_CHECKS
                  end
              | _ => DEFAULT_REPORT_CHECKS
              end in
            checks <> [] /\
            Forall (fun c => str_nonempty c = true /\ strip c = c) checks).
  { intros raw. cbv zeta.
    destruct raw as [| | | | | items |]; try exact Hdefault.
    destruct (all_strings items) as [strings |]; [| exact Hdefault].
    pose proof (stripped_checks_clean strings) as Hclean.
    destruct (map strip
                (filter (fun item => str_nonempty (strip item)) strings))
      as [| c checks]; [exact Hdefault |].
    split; [discriminate | exact Hclean]. }
  apply Hraw.
Qed.

(** X16: [from_payload] raises exactly when the payload is a dict whose
    ["ui"] entry is not a dict; a payload that is not a dict, and a
    ["reporting"] entry of any type, are accepted. *)
Theorem from_payload_raises (payload : json) :
  raises (from_payload str_of payload)
  = match payload with
    | JDict d =>
        match dict_get_default d "ui" (JDict []) with
        | JDict _ => false
        | _ => true
        end
    | _ => false
    end.
Proof.
  unfold from_payload.
  destruct payload as [| | | | | |d]; try reflexivity.
  destruct (dict_get_default d "ui" (JDict [])); reflexivity.
Qed.

End Settings.

(** The theorem of X15 on a settings file with a blank check. *)
Lemma from_payload_checks_witness :
  from_payload str_of_plain settings_payload = Ok sample_settings /\
  report_checks sample_settings <> [] /\
  Forall (fun c => str_nonempty c = true /\ strip c = c)
    (report_checks sample_settings).
Proof.
  split; [vm_compute; reflexivity |].
  apply (from_payload_checks str_of_plain settings_payload sample_settings).
  vm_compute; reflexivity.
Defined.

Example from_payload_sample :
  report_checks sample_settings = ["shared tax id"].
Proof. vm_compute. reflexivity. Qed.

(* ------------------------------------------------------------------ *)
(** *** Snapshot listing and the caches *)

Lemma validate_dicts (coerce_dict : json -> option dict) (items : list json) :
  Forall (fun v => is_dict v = true) items ->
  exists dicts,
    mapM (validate_dict coerce_dict) items = Ok dicts /\
    map JDict dicts = items.
Proof.
  induction 1 as [| v items Hv _ (dicts & Hdicts & Hmap)].
  - exists []. auto.
  - destruct v as [| | | | | | d]; try discriminate Hv.
    exists (d :: dicts). cbn [mapM validate_dict bind]. rewrite Hdicts.
    cbn [bind map]. now rewrite Hmap.
Qed.

(** X17: when the snapshots to list are dicts, [list_snapshots] returns;
    its response reports the number of all snapshots as [total], echoes
    [limit], and holds a prefix of the snapshots: the first [limit] of
    them, or all when there are fewer, for a limit of at least zero, and
    all but the last [-limit] for a negative one. *)
Theorem list_snapshots_page (coerce_dict : json -> option dict)
  (svc : GroupService) (limit : Z) :
  Forall (fun v => is_dict v = true)
    (py_slice_to limit (service_snapshots svc)) ->
  exists response,
    fst (list_snapshots coerce_dict svc limit) = Ok response /\
    snapshot_total response = length (service_snapshots svc) /\
    snapshot_limit response = limit /\
    map JDict (snapshot_items response)
    = py_slice_to limit (service_snapshots svc) /\
    (exists rest,
       service_snapshots svc = map JDict (snapshot_items response) ++ rest) /\
    length (snapshot_items response)
    = if (limit <? 0)%Z
      then (length (service_snapshots svc) - Z.to_nat (- limit))%nat
      else Nat.min (Z.to_nat limit) (length (service_snapshots svc)).
Proof.
  unfold list_snapshots, service_snapshots.
  destruct (_load_snapshots svc) as [snapshots svc1].
  cbn [fst snd]. intros Hdicts.
  destruct (validate_dicts coerce_dict _ Hdicts) as (dicts & -> & Hmap).
  cbn [bind]. eexists. split; [reflexivity |].
  cbn [snapshot_total snapshot_limit snapshot_items].
  split; [reflexivity |]. split; [reflexivity |].
  split; [exact Hmap |]. rewrite Hmap.
  assert (Hlen : length dicts = length (py_slice_to limit snapshots))
    by (rewrite <- Hmap; symmetry; apply length_map).
  rewrite Hlen. unfold py_slice_to. split.
  - destruct (limit <? 0)%Z; eexists; symmetry; apply firstn_skipn.
  - destruct (limit <? 0)%Z; rewrite length_firstn; lia.
Qed.

(** The theorem of X17 on the first two snapshots of the sample service;
    a snapshot file with an item that is no dict is not listed. *)
Lemma list_snapshots_page_witness :
  Forall (fun v => is_dict v = true)
    (py_slice_to 2 (service_snapshots sample_service)) /\
  exists response,
    fst (list_snapshots reject_dict sample_service 2) = Ok response /\
    snapshot_total response = length (service_snapshots sample_service) /\
    snapshot_limit response = 2%Z /\
    map JDict (snapshot_items response)
    = py_slice_to 2 (service_snapshots sample_service) /\
    (exists rest,
       service_snapshots sample_service
       = map JDict (snapshot_items response) ++ rest) /\
    length (snapshot_items response)
    = Nat.min (Z.to_nat 2) (length (service_snapshots sample_service)).
Proof.
  split; [repeat constructor |].
  apply (list_snapshots_page reject_dict sample_service 2).
  repeat constructor.
Defined.

Example list_snapshots_sample :
  fst (list_snapshots reject_dict sample_service 2)
  = Ok (mkSnapshotListResponse
          [[("record_id", JStr "r1")]; [("record_id", JStr "r9")]] 3 2).
Proof. vm_compute. reflexivity. Qed.

Example list_snapshots_mixed_items :
  fst (list_snapshots reject_dict mixed_snapshots_service 2)
  = Raise ValidationError.
Proof. vm_compute. reflexivity. Qed.

(** X18: once the snapshots have been loaded they are served from the
    cache, whatever becomes of the snapshot file, until [refresh]; after
    [refresh] they are read from the file again. *)
Theorem snapshots_cached_until_refresh (s : Service) (file : FileState) :
  let svc1 := snd (_load_snapshots (core s)) in
  let changed :=
    mkService
      (mkGroupService (entities svc1) file (reports_file svc1)
         (_groups_cache svc1) (_snapshots_cache svc1) (_reports_cache svc1))
      (summary_file s) (_summary_cache s) in
  fst (_load_snapshots (core changed)) = fst (_load_snapshots (core s)) /\
  fst (_load_snapshots (core (refresh changed))) = load_snapshots file.
Proof.
  unfold _load_snapshots, refresh, clear_caches.
  destruct (_snapshots_cache (core s)) eqn:Hcache;
    cbn [fst snd core _snapshots_cache set_snapshots_cache snapshots_file];
    rewrite ?Hcache; split; reflexivity.
Qed.

Section Caches.

Variable log1p_fin : Q -> Q.
Variable fromisoformat : string -> option (Z * option Z).
Variable coerce_str : json -> option string.
Variable str_of : json -> string.

(** X19: the enriched groups are computed once and then served from the
    cache, whatever becomes of the group files, until [refresh], after
    which the current files are enriched; a load that raises leaves the
    service as it was, so that the next call tries again. *)
Theorem groups_cached_until_refresh (s : Service) (files : list dict) :
  match _load_groups log1p_fin fromisoformat (core s) with
  | (Ok groups, svc1) =>
      let changed :=
        mkService
          (mkGroupService files (snapshots_file svc1) (reports_file svc1)
             (_groups_cache svc1) (_snapshots_cache svc1)
             (_reports_cache svc1))
          (summary_file s) (_summary_cache s) in
      fst (_load_groups log1p_fin fromisoformat (core changed)) = Ok groups /\
      fst (_load_groups log1p_fin fromisoformat (core (refresh changed)))
      = mapM (enrich_group log1p_fin fromisoformat) files
  | (Raise e, svc1) => svc1 = core s
  end.
Proof.
  unfold _load_groups at 1.
  destruct (_groups_cache (core s)) as [cached |] eqn:Hcache.
  - cbv zeta. unfold _load_groups, refresh, clear_caches.
    cbn [core _groups_cache entities]. rewrite Hcache.
    split; [reflexivity |].
    destruct (mapM (enrich_group log1p_fin fromisoformat) files); reflexivity.
  - destruct (mapM (enrich_group log1p_fin fromisoformat) (entities (core s)))
      as [groups | e]; [| reflexivity].
    cbv zeta. unfold _load_groups, refresh, clear_caches.
    cbn [core _groups_cache entities set_groups_cache].
    split; [reflexivity |].
    destruct (mapM (enrich_group log1p_fin fromisoformat) files); reflexivity.
Qed.

Lemma submit_report_ok_inv (now : string) (svc svc' : GroupService)
  (request : ReportCreateRequest) (response : ReportCreateResponse) :
  submit_report log1p_fin fromisoformat now svc request = (Ok response, svc') ->
  exists target svc3,
    response_record response = report_payload now request target /\
    svc' = _update_reports_cache svc3
             (ledger svc ++ [report_payload now request target]).
Proof.
  unfold submit_report. intros H.
  destruct (str_nonempty (strip (request_reason request)));
    cbn [negb] in H; [| discriminate H].
  destruct (_load_groups log1p_fin fromisoformat svc) as [[groups | e] svc1]
    eqn:Hload; [| discriminate H].
  apply load_groups_keeps_reports in Hload. destruct Hload as [Hfile Hcache].
  destruct (find _ groups) as [target |]; [| discriminate H].
  destruct (_load_reports _) as [reports svc3] eqn:Hreports.
  injection H as <- <-. exists target, svc3.
  split; [reflexivity |].
  assert (Hledger : reports = ledger svc).
  { unfold _load_reports in Hreports. rewrite ledger_unfold.
    cbn [set_reports_file _reports_cache reports_file] in Hreports.
    rewrite Hcache in Hreports. rewrite Hfile in Hreports.
    destruct (_reports_cache svc) as [cached |].
    - now injection Hreports as <- _.
    - injection Hreports as <- _.
      cbn [set_reports_file reports_file].
      now rewrite ensure_reports_file_idempotent. }
  now rewrite Hledger.
Qed.

(** X20: a report that [submit_report] has recorded survives [refresh]:
    the ledger read back from the reports file is the ledger that the
    service held, the earlier reports followed by the new record. *)
Theorem submitted_report_survives_refresh (now : string) (s : Service)
  (svc' : GroupService) (request : ReportCreateRequest)
  (response : ReportCreateResponse) :
  submit_report log1p_fin fromisoformat now (core s) request
  = (Ok response, svc') ->
  let after := refresh (mkService svc' (summary_file s) (_summary_cache s)) in
  _reports_cache (core after) = None /\
  ledger (core after) = ledger (core s) ++ [response_record response] /\
  ledger (core after) = ledger svc'.
Proof.
  intros H. apply submit_report_ok_inv in H.
  destruct H as (target & svc3 & -> & ->).
  cbv zeta. rewrite !ledger_unfold.
  unfold refresh, clear_caches, _update_reports_cache.
  cbn [core _reports_cache reports_file set_reports_file set_reports_cache
       write_reports ensure_reports_file load_reports safe_read_json].
  auto.
Qed.

Lemma reported_ids_unfold (svc : GroupService) :
  fst (_reported_ids svc) = reported_ids_of (ledger svc).
Proof.
  unfold _reported_ids, ledger.
  now destruct (_load_reports svc) as [reports svc1].
Qed.

(** X21: after [submit_report] has recorded a report, [_reported_ids]
    returns the ids it returned before, followed by the id of the request
    unless that id is the empty string. *)
Theorem reported_ids_after_submit (now : string) (svc svc' : GroupService)
  (request : ReportCreateRequest) (response : ReportCreateResponse)
  (ids : list json) :
  submit_report log1p_fin fromisoformat now svc request = (Ok response, svc') ->
  fst (_reported_ids svc) = Ok ids ->
  fst (_reported_ids svc')
  = Ok (ids ++ if str_nonempty (request_group_id request)
               then [JStr (request_group_id request)] else []).
Proof.
  intros H Hids. apply submit_report_ok_inv in H.
  destruct H as (target & svc3 & _ & ->).
  rewrite reported_ids_unfold in *.
  rewrite ledger_unfold. unfold _update_reports_cache.
  cbn [_reports_cache set_reports_file set_reports_cache].
  unfold reported_ids_of in *. rewrite foldM_app, Hids.
  cbn [bind foldM]. unfold report_payload. cbn [py_get].
  change (dict_get _ "group_id") with (JStr (request_group_id request)).
  cbn [bind truthy].
  destruct (str_nonempty (request_group_id request));
    [reflexivity | now rewrite app_nil_r].
Qed.

(** X22: when the groups fail to load, [get_dataset_summary] raises the
    same exception before the summary is read; when they load and the
    summary payload is empty, it returns with the single run
    ["Current dataset"]; and whenever it returns, its [runs] are not empty,
    [total_groups] is the number of loaded groups, [aggregated] is
    [summarize_groups] of them, the summary payload is passed on as
    metadata, and [total_records] is reported only when the payload holds
    an integer under that key. *)
Theorem get_dataset_summary_response (s : Service) :
  (forall e,
     fst (_load_groups log1p_fin fromisoformat (core s)) = Raise e ->
     fst (get_dataset_summary log1p_fin fromisoformat coerce_str str_of s)
     = Raise e /\
     _summary_cache
       (snd (get_dataset_summary log1p_fin fromisoformat coerce_str str_of s))
     = _summary_cache s) /\
  (forall groups,
     fst (_load_groups log1p_fin fromisoformat (core s)) = Ok groups ->
     (fst (_load_summary s) = [] ->
      exists response,
        fst (get_dataset_summary log1p_fin fromisoformat coerce_str str_of s)
        = Ok response /\
        summary_runs response
        = [mkRunOptionModel "Current dataset" "current_run" []]) /\
     (forall response,
        fst (get_dataset_summary log1p_fin fromisoformat coerce_str str_of s)
        = Ok response ->
        summary_runs response <> [] /\
        total_groups response = length groups /\
        summary_aggregated response = summarize_groups groups /\
        summary_metadata response = fst (_load_summary s) /\
        total_records response
        = int_value (dict_get (fst (_load_summary s)) "total_records"))).
Proof.
  unfold get_dataset_summary.
  destruct (_load_groups log1p_fin fromisoformat (core s))
    as [[loaded | e0] core1]; cbn [fst snd].
  2: { split; [| intros groups H; discriminate H].
       intros e H. injection H as <-. split; reflexivity. }
  split; [intros e H; discriminate H |].
  intros groups H. injection H as <-.
  assert (Hsummary :
            fst (_load_summary
                   (mkService core1 (summary_file s) (_summary_cache s)))
            = fst (_load_summary s)).
  { unfold _load_summary. cbn [_summary_cache summary_file].
    now destruct (_summary_cache s). }
  destruct (_load_summary
              (mkService core1 (summary_file s) (_summary_cache s)))
    as [summary_payload s1].
  cbn [fst snd] in Hsummary |- *. subst summary_payload.
  split.
  - intros ->. cbn. eexists. split; reflexivity.
  - intros response H.
    apply bind_ok in H. destruct H as [runs [_ H]].
    injection H as <-.
    cbn [summary_runs total_groups summary_aggregated summary_metadata
         total_records].
    split; [| auto].
    destruct runs; discriminate.
Qed.

End Caches.

(** The theorems of X20 and X21 on the report on [G3]. *)
Lemma submitted_report_survives_refresh_witness :
  submit_report log1p_approx fromisoformat_table sample_now (core sample_app)
    sample_request
  = (Ok sample_report, sample_service_after) /\
  (let after := refresh (mkService sample_service_after
                           (summary_file sample_app)
                           (_summary_cache sample_app)) in
   _reports_cache (core after) = None /\
   ledger (core after)
   = ledger (core sample_app) ++ [response_record sample_report] /\
   ledger (core after) = ledger sample_service_after).
Proof.
  split; [vm_compute; reflexivity |].
  apply (submitted_report_survives_refresh log1p_approx fromisoformat_table
           sample_now sample_app sample_service_after sample_request
           sample_report).
  vm_compute; reflexivity.
Defined.

Lemma reported_ids_after_submit_witness :
  submit_report log1p_approx fromisoformat_table sample_now sample_service
    sample_request
  = (Ok sample_report, sample_service_after) /\
  fst (_reported_ids sample_service) = Ok [] /\
  fst (_reported_ids sample_service_after) = Ok [JStr "G3"].
Proof.
  split; [vm_compute; reflexivity |].
  split; [vm_compute; reflexivity |].
  apply (reported_ids_after_submit log1p_approx fromisoformat_table sample_now
           sample_service sample_service_after sample_request sample_report
           []).
  - vm_compute; reflexivity.
  - vm_compute; reflexivity.
Defined.

(* ------------------------------------------------------------------ *)
(** *** Timestamps and the scorer at the edges *)

Lemma replace_Z_idempotent (s : string) : replace_Z (replace_Z s) = replace_Z s.
Proof.
  induction s as [| c rest IH]; [reflexivity |].
  cbn [replace_Z]. destruct (Ascii.eqb c "Z"%char) eqn:Hc.
  - cbn. now rewrite IH.
  - cbn [replace_Z]. now rewrite Hc, IH.
Qed.

Lemma replace_Z_nonempty (s : string) :
  str_nonempty (replace_Z s) = str_nonempty s.
Proof.
  destruct s as [| c rest]; [reflexivity |].
  cbn [replace_Z]. now destruct (Ascii.eqb c "Z"%char).
Qed.

Section Timestamps.

Variable log1p_fin : Q -> Q.
Variable fromisoformat : string -> option (Z * option Z).

(** X23: [parse_iso_datetime] raises exactly on a value that is truthy and
    not a string; [None], the empty string and every other falsy value give
    [None], and a string that [fromisoformat] rejects gives [None] too. *)
Theorem parse_iso_datetime_raises (raw : json) :
  raises (parse_iso_datetime fromisoformat raw)
  = truthy raw && negb (is_str raw) /\
  (truthy raw = false -> parse_iso_datetime fromisoformat raw = Ok None) /\
  (forall s, raw = JStr s -> fromisoformat (replace_Z s) = None ->
             parse_iso_datetime fromisoformat raw = Ok None).
Proof.
  unfold parse_iso_datetime. split; [| split].
  - destruct raw as [| b | z | f | s | items | fields];
      cbn [negb andb is_str].
    + reflexivity.
    + cbn [truthy]. now destruct b.
    + cbn [truthy]. now destruct (z =? 0)%Z.
    + cbn [truthy]. now destruct (float_truthy f).
    + rewrite andb_false_r. destruct (truthy (JStr s)); [| reflexivity].
      cbn [negb].
      destruct (fromisoformat (replace_Z s)) as [[wall [offset |]] |];
        reflexivity.
    + cbn [truthy]. now destruct items.
    + cbn [truthy]. now destruct fields.
  - intros ->. reflexivity.
  - intros s -> Hreject. rewrite Hreject.
    now destruct (truthy (JStr s)).
Qed.

(** X24: a timestamp written with [Z] parses to the same instant as the
    timestamp in which every [Z] is written [+00:00]. *)
Theorem parse_iso_datetime_zulu (s : string) :
  parse_iso_datetime fromisoformat (JStr (replace_Z s))
  = parse_iso_datetime fromisoformat (JStr s).
Proof.
  unfold parse_iso_datetime. cbn [truthy].
  now rewrite replace_Z_nonempty, replace_Z_idempotent.
Qed.

(** X25: a total amount that is not above zero, be it negative, zero or
    NaN, adds nothing to the risk score: the scorer answers as it does
    for a total of zero. *)
Theorem compute_risk_score_without_exposure
  (member_count transaction_count : Z) (total_amount : pyfloat)
  (unique_counterparties : Z) (outgoing_ratio : pyfloat) :
  fgt total_amount fzero = false ->
  compute_risk_score log1p_fin member_count transaction_count total_amount
    unique_counterparties outgoing_ratio
  = compute_risk_score log1p_fin member_count transaction_count fzero
      unique_counterparties outgoing_ratio.
Proof.
  intros H. unfold compute_risk_score. now rewrite H.
Qed.

End Timestamps.

(** The theorem of X25 at a total of -20. *)
Lemma compute_risk_score_without_exposure_witness :
  fgt (FFin (-20)) fzero = false /\
  compute_risk_score log1p_approx 1 2 (FFin (-20)) 2 (FFin (1 # 2))
  = compute_risk_score log1p_approx 1 2 fzero 2 (FFin (1 # 2)).
Proof.
  split; [vm_compute; reflexivity |].
  apply (compute_risk_score_without_exposure log1p_approx 1 2 (FFin (-20)) 2
           (FFin (1 # 2))).
  vm_compute; reflexivity.
Defined.

(* ------------------------------------------------------------------ *)
(** *** Compositions of the views *)

Lemma Forall2_transfer {A B : Type} (R : A -> B -> Prop) (P : A -> Prop)
  (Q : B -> Prop) (xs : list A) (ys : list B) :
  (forall x y, R x y -> P x -> Q y) ->
  Forall2 R xs ys -> Forall P xs -> Forall Q ys.
Proof.
  intros Hstep H. induction H as [| x y xs ys Hxy _ IH]; intros HP.
  - constructor.
  - inversion HP; subst. constructor; [eapply Hstep; eassumption | auto].
Qed.

Lemma group_kept_reported (filters : GroupFilters) (reported_ids : list string)
  (group : EnrichedGroup) :
  group_kept filters reported_ids group = Ok true ->
  reported_only filters = true ->
  in_str_set (group_get group "group_id") reported_ids = Ok true.
Proof.
  unfold group_kept. intros H Honly. rewrite Honly in H.
  destruct (risk_score (_metrics group) <? min_risk filters)%Z;
    [discriminate |].
  destruct (flt (total_amount (_metrics group)) (min_total filters)
            || fgt (total_amount (_metrics group)) (max_total filters));
    [discriminate |].
  apply bind_ok in H. destruct H as [unreported [Eunreported H]].
  apply bind_ok in Eunreported. destruct Eunreported as [listed [Elisted E]].
  injection E as <-. rewrite Elisted.
  destruct listed; [reflexivity | discriminate H].
Qed.

(** X26: in the graph of a filtered list, as [get_network] builds it, every
    group node stays within the filter: its risk score is not below
    [min_risk], its total amount is neither below [min_total] nor above
    [max_total], and under [reported_only] it is highlighted exactly when
    [highlight_reported] is set. *)
Theorem network_of_filtered_groups (float_of_str : string -> option pyfloat)
  (groups filtered : list EnrichedGroup) (filters : GroupFilters)
  (reported_ids : list string) (highlight_reported : bool)
  (response : NetworkResponse) (node : NetworkNode) :
  filter_groups groups filters reported_ids = Ok filtered ->
  build_network_payload float_of_str filtered reported_ids highlight_reported
  = Ok response ->
  In node (response_nodes response) ->
  node_kind node = "group" ->
  (exists risk total,
     node_risk_score node = Some risk /\
     node_total_amount node = Some total /\
     (min_risk filters <= risk)%Z /\
     flt total (min_total filters) = false /\
     fgt total (max_total filters) = false) /\
  (reported_only filters = true -> node_highlight node = highlight_reported).
Proof.
  intros Hfilter Hbuild Hnode Hkind.
  apply filter_groups_inv in Hfilter. destruct Hfilter as [-> _].
  apply build_network_invariant in Hbuild.
  destruct Hbuild as (nodes & edges & -> & _ & Hnodes & _).
  cbn [response_nodes fst] in *.
  apply in_map_iff in Hnode. destruct Hnode as ([k n] & <- & Hin).
  rewrite Forall_forall in Hnodes.
  destruct (Hnodes _ Hin) as (_ & _ & _ & Horigin). cbn [snd] in *.
  destruct Horigin as [(g & Hg & _ & highlight & Hflag & ->)
                      | (g & tx & _ & _ & _ & _ & label & _ & ->)];
    [| discriminate Hkind].
  apply filter_In in Hg. destruct Hg as [_ Hg].
  assert (Hkept : group_kept filters reported_ids g = Ok true).
  { unfold kept in Hg.
    destruct (group_kept filters reported_ids g) as [[|] | e];
      [reflexivity | discriminate | discriminate]. }
  cbn [node_risk_score node_total_amount node_highlight].
  split.
  - destruct (group_kept_bounds _ _ _ Hkept) as (Hrisk & Hlo & Hhi).
    eexists. eexists. split; [reflexivity |]. split; [reflexivity |]. auto.
  - intros Honly.
    pose proof (group_kept_reported _ _ _ Hkept Honly) as Hlisted.
    destruct highlight_reported; [| now injection Hflag as <-].
    rewrite Hlisted in Hflag. now injection Hflag as <-.
Qed.

Section DetailView.

Variable log1p_fin : Q -> Q.
Variable fromisoformat : string -> option (Z * option Z).
Variable coerce_str : json -> option string.

(** X27: the transactions of the detail view, which [get_group_detail]
    filters with [_apply_transaction_filters] and then passes to
    [_convert_transactions]: for an enriched group whose transactions have
    strings or nothing as transaction id, direction, counterparty id and
    currency, and with date bounds that are timezone-aware, both steps
    return, with one model per transaction that passed, and every model
    stays within the filter: its amount (0 when absent) is neither below
    [min_amount] nor above [max_amount], and it has a timestamp that meets
    each date bound that is given. *)
Theorem detail_transactions_within_filters (raw_group : dict)
  (group : EnrichedGroup) (lo hi : pyfloat) (start finish : option datetime) :
  enrich_group log1p_fin fromisoformat raw_group = Ok group ->
  Forall (fun tx => text_fields tx = true) (_transactions group) ->
  exists filtered models,
    _apply_transaction_filters fromisoformat group
      (aware_filters lo hi start finish) = Ok filtered /\
    _convert_transactions fromisoformat coerce_str filtered = Ok models /\
    length models = length filtered /\
    Forall (fun model =>
              let amount := match tm_amount model with
                            | Some a => a
                            | None => fzero
                            end in
              flt amount lo = false /\
              fgt amount hi = false /\
              match start with
              | Some bound =>
                  exists t, tm_timestamp model = Some t /\ (bound <= t)%Z
              | None => True
              end /\
              match finish with
              | Some bound =>
                  exists t, tm_timestamp model = Some t /\ (t <= bound)%Z
              | None => True
              end)
           models.
Proof.
  intros H Htext. apply enrich_group_records in H. destruct H as (_ & Hc & _).
  exists (filter (tx_passes lo hi start finish) (_transactions group)).
  assert (Hfiltered : Forall (consistent_tx fromisoformat)
                        (filter (tx_passes lo hi start finish)
                           (_transactions group))).
  { rewrite Forall_forall in *. intros tx Htx.
    apply filter_In in Htx. now apply Hc. }
  assert (Hplain : Forall (fun tx => text_fields tx = true)
                     (filter (tx_passes lo hi start finish)
                        (_transactions group))).
  { rewrite Forall_forall in *. intros tx Htx.
    apply filter_In in Htx. now apply Htext. }
  destruct (convert_transactions_returns fromisoformat coerce_str _
              Hfiltered Hplain) as (models & Hmodels).
  destruct (convert_transactions_inv fromisoformat coerce_str _ _
              Hfiltered Hmodels) as [Ha _].
  exists models.
  split.
  { unfold _apply_transaction_filters.
    rewrite (foldM_filter_returns
               (transaction_kept fromisoformat
                  (aware_filters lo hi start finish))
               (tx_passes lo hi start finish));
      [reflexivity |].
    eapply Forall_impl; [| exact Hc].
    intros tx Htx. now apply transaction_kept_passes. }
  split; [exact Hmodels |].
  split.
  { rewrite <- (length_map tm_amount), Ha. apply length_map. }
  unfold _convert_transactions in Hmodels. apply mapM_Forall2 in Hmodels.
  apply (Forall2_transfer
           (fun tx model =>
              convert_transaction fromisoformat coerce_str tx = Ok model)
           (fun tx => consistent_tx fromisoformat tx /\
                      tx_passes lo hi start finish tx = true)
           _ _ _ ) with (2 := Hmodels).
  - intros tx model Hconv [Htx Hpass].
    destruct (convert_transaction_inv fromisoformat coerce_str tx model
                Htx Hconv) as [Hamount Hstamp].
    cbv zeta. rewrite Hamount, Hstamp.
    unfold tx_passes, filter_amount in Hpass.
    apply andb_prop in Hpass. destruct Hpass as [Hpass Hend].
    apply andb_prop in Hpass. destruct Hpass as [Hpass Hstart].
    apply andb_prop in Hpass. destruct Hpass as [Hlo Hhi].
    apply negb_true_iff in Hlo, Hhi.
    split; [exact Hlo |]. split; [exact Hhi |]. split.
    + destruct start as [bound |]; [| exact I].
      destruct (parsed_timestamp tx) as [t |]; [| discriminate].
      exists t. split; [reflexivity | now apply Z.leb_le].
    + destruct finish as [bound |]; [| exact I].
      destruct (parsed_timestamp tx) as [t |]; [| discriminate].
      exists t. split; [reflexivity | now apply Z.leb_le].
  - rewrite Forall_forall in *. intros tx Htx. split; [now apply Hfiltered |].
    apply filter_In in Htx. apply Htx.
Qed.

End DetailView.

(** The theorem of X26 on the sample groups filtered to the reported ones,
    and the theorem of X27 on the group [G3]. *)
Lemma network_of_filtered_groups_witness :
  filter_groups sample_groups dated_filters ["G3"; "G2"]
  = Ok [negative_total_enriched] /\
  build_network_payload float_of_decimal [negative_total_enriched]
    ["G3"; "G2"] true = Ok reported_network /\
  In highlighted_node (response_nodes reported_network) /\
  node_kind highlighted_node = "group" /\
  (exists risk total,
     node_risk_score highlighted_node = Some risk /\
     node_total_amount highlighted_node = Some total /\
     (min_risk dated_filters <= risk)%Z /\
     flt total (min_total dated_filters) = false /\
     fgt total (max_total dated_filters) = false) /\
  (reported_only dated_filters = true ->
   node_highlight highlighted_node = true).
Proof.
  split; [vm_compute; reflexivity |].
  split; [vm_compute; reflexivity |].
  split; [vm_compute; auto |].
  split; [vm_compute; reflexivity |].
  apply (network_of_filtered_groups float_of_decimal sample_groups
           [negative_total_enriched] dated_filters ["G3"; "G2"] true
           reported_network highlighted_node).
  - vm_compute; reflexivity.
  - vm_compute; reflexivity.
  - vm_compute; auto.
  - vm_compute; reflexivity.
Defined.

Lemma detail_transactions_within_filters_witness :
  enrich_group log1p_approx fromisoformat_table negative_total_group
  = Ok negative_total_enriched /\
  Forall (fun tx => text_fields tx = true)
    (_transactions negative_total_enriched) /\
  exists filtered models,
    _apply_transaction_filters fromisoformat_table negative_total_enriched
      recent_transactions = Ok filtered /\
    _convert_transactions fromisoformat_table reject_str filtered
    = Ok models /\
    length models = length filtered /\
    Forall (fun model =>
              let amount := match tm_amount model with
                            | Some a => a
                            | None => fzero
                            end in
              flt amount (FFin (-100)) = false /\
              fgt amount (FFin 100) = false /\
              (exists t, tm_timestamp model = Some t /\ (noon <= t)%Z) /\
              True)
           models.
Proof.
  split; [vm_compute; reflexivity |].
  split; [repeat constructor |].
  apply (detail_transactions_within_filters log1p_approx fromisoformat_table
           reject_str negative_total_group negative_total_enriched
           (FFin (-100)) (FFin 100) (Some noon) None).
  - vm_compute; reflexivity.
  - repeat constructor.
Defined.

(* ------------------------------------------------------------------ *)
(** *** The views on the sample service *)

(** The theorem of X22 on the sample service, whose summary file is
    missing; a summary whose label is a list is not accepted. *)
Lemma get_dataset_summary_response_witness :
  fst (_load_groups log1p_approx fromisoformat_table (core sample_app))
  = Ok sample_groups /\
  fst (get_dataset_summary log1p_approx fromisoformat_table reject_str
         str_of_plain sample_app) = Ok sample_summary /\
  summary_runs sample_summary <> [] /\
  total_groups sample_summary = length sample_groups /\
  summary_aggregated sample_summary = summarize_groups sample_groups /\
  summary_metadata sample_summary = fst (_load_summary sample_app) /\
  total_records sample_summary
  = int_value (dict_get (fst (_load_summary sample_app)) "total_records").
Proof.
  split; [vm_compute; reflexivity |].
  split; [vm_compute; reflexivity |].
  apply (proj2 (proj2 (get_dataset_summary_response log1p_approx
                         fromisoformat_table reject_str str_of_plain
                         sample_app)
                  sample_groups ltac:(vm_compute; reflexivity))
           sample_summary).
  vm_compute; reflexivity.
Defined.

Example get_dataset_summary_list_label :
  fst (get_dataset_summary log1p_approx fromisoformat_table reject_str
         str_of_plain list_label_app)
  = Raise ValidationError.
Proof. vm_compute. reflexivity. Qed.

(** C3 fails on the code as stated: on a service one of whose group files
    does not enrich, a request with a reason raises the exception of the
    loader, which is neither InvalidInput nor NotFound, so that no list of
    loaded groups meets the contract. *)
Lemma submit_report_unloadable_counterexample :
  strip (request_reason sample_request) <> "" /\
  submit_report log1p_approx fromisoformat_table sample_now
    unloadable_service sample_request
  = (Raise OverflowError, unloadable_service) /\
  OverflowError <> InvalidInput /\
  OverflowError <> NotFound (request_group_id sample_request) /\
  forall groups,
    ~ report_contract groups sample_request unloadable_service
        (submit_report log1p_approx fromisoformat_table sample_now
           unloadable_service sample_request).
Proof.
  assert (E : submit_report log1p_approx fromisoformat_table sample_now
                unloadable_service sample_request
              = (Raise OverflowError, unloadable_service))
    by (vm_compute; reflexivity).
  split; [vm_compute; discriminate |].
  split; [exact E |].
  split; [discriminate |]. split; [discriminate |].
  intros groups H. rewrite E in H. unfold report_contract in H.
  cbn [fst snd] in H.
  destruct H as [[[_ He] | [_ [_ He]]] _]; discriminate He.
Qed.

(** A group whose amounts sum to -0.004 has a total of zero and is listed
    under the default filters: what the filter tests is the rounded
    total. *)
Example filter_groups_default_small_negative :
  enrich_group log1p_approx fromisoformat_table small_negative_group
  = Ok small_negative_enriched /\
  total_amount (_metrics small_negative_enriched) = fzero /\
  filter_groups [small_negative_enriched] default_filters []
  = Ok [small_negative_enriched].
Proof. repeat split; vm_compute; reflexivity. Qed.
